(** * Workshop utilities: CT windowing normalizer and YOLO detection converter

  A shallow embedding of the pieces of logic of the healthcare workshop
  notebooks that carry decisions of their own:

  - the DeepLesion windowing loop of [02_load_deeplesion_balanced.ipynb]
    ([clip_and_normalize] and the per-row, per-slice loop around it);
  - the YOLOv8 prediction helpers ([get_prediction_filepath],
    [read_yolo_detections_file], [convert_yolo_detections_to_fiftyone],
    [_uncenter_boxes], [_get_class_labels]), with [add_yolo_detections] and
    the cell that calls it;
  - from the cells that build and balance the DeepLesion dataset: the path
    and the lesion box of a row, and [get_short_diameter].

  Python [float] and NumPy [float64] values are IEEE-754 binary64 numbers;
  they are embedded bit-exactly with the [spec_float] operations of the
  Standard Library ([prec = 53], [emax = 1024]).  Python exceptions are an
  explicit error monad, [print] is a log that is threaded through. *)

From Stdlib Require Import ZArith List String Ascii Bool Lia DecimalString.
From Stdlib Require Import Floats.SpecFloat.
Import ListNotations.

Local Open Scope string_scope.
Local Open Scope list_scope.
Local Open Scope Z_scope.

(* ================================================================== *)
(** * Part I: the embedding *)
(* ================================================================== *)

(** ** Python exceptions *)

Module Py.

Inductive exn : Type :=
| ValueError
| IndexError
| AttributeError.

(** The outcome of evaluating a Python expression. *)
Inductive result (A : Type) : Type :=
| Ok (a : A)
| Raise (e : exn).
Arguments Ok {A} a.
Arguments Raise {A} e.

Definition bind {A B} (r : result A) (k : A -> result B) : result B :=
  match r with
  | Ok a => k a
  | Raise e => Raise e
  end.

(** [try: body / except: handler] with a bare [except]. *)
Definition try_except {A} (body : result A) (handler : A) : A :=
  match body with
  | Ok a => a
  | Raise _ => handler
  end.

(** [[f(x) for x in xs]]: the first exception aborts the comprehension. *)
Fixpoint comprehension {A B} (f : A -> result B) (xs : list A) : result (list B) :=
  match xs with
  | [] => Ok []
  | x :: xs' =>
      bind (f x) (fun y => bind (comprehension f xs') (fun ys => Ok (y :: ys)))
  end.

(** [xs[i]] on a Python list: negative indices count from the end, anything
    outside [-len, len) raises [IndexError]. *)
Definition index {A} (xs : list A) (i : Z) : result A :=
  let n := Z.of_nat (List.length xs) in
  let j := if i <? 0 then i + n else i in
  if (0 <=? j) && (j <? n) then
    match nth_error xs (Z.to_nat j) with
    | Some x => Ok x
    | None => Raise IndexError
    end
  else Raise IndexError.

End Py.

Notation "x <- c1 ;; c2" := (Py.bind c1 (fun x => c2))
  (at level 61, c1 at next level, right associativity).

(** ** Python strings *)

Module Str.

Definition is_space (c : ascii) : bool :=
  let n := nat_of_ascii c in
  (((9 <=? n) && (n <=? 13)) || ((28 <=? n) && (n <=? 32)))%nat.

(** [s.split(sep)] for a one-character separator: always [k + 1] pieces for
    [k] occurrences of [sep], empty pieces included. *)
Fixpoint split (sep : ascii) (s : string) : list string :=
  match s with
  | EmptyString => [EmptyString]
  | String c s' =>
      if Ascii.eqb c sep then EmptyString :: split sep s'
      else match split sep s' with
           | [] => [String c EmptyString]
           | w :: ws => String c w :: ws
           end
  end.

Fixpoint lstrip (s : string) : string :=
  match s with
  | EmptyString => EmptyString
  | String c s' => if is_space c then lstrip s' else s
  end.

Fixpoint rev_acc (s acc : string) : string :=
  match s with
  | EmptyString => acc
  | String c s' => rev_acc s' (String c acc)
  end.

Definition rev (s : string) : string := rev_acc s EmptyString.

Definition rstrip (s : string) : string := rev (lstrip (rev s)).

(** [s.strip()] *)
Definition strip (s : string) : string := rstrip (lstrip s).

Fixpoint lstrip_char (ch : ascii) (s : string) : string :=
  match s with
  | EmptyString => EmptyString
  | String c s' => if Ascii.eqb c ch then lstrip_char ch s' else s
  end.

(** [s.rstrip(ch)] for a one-character argument. *)
Definition rstrip_char (ch : ascii) (s : string) : string :=
  rev (lstrip_char ch (rev s)).

(** [xs[-1]] on the non-empty list a [split] returns. *)
Definition last_piece (xs : list string) : string := last xs EmptyString.

(** [xs[0]] on the non-empty list a [split] returns. *)
Definition first_piece (xs : list string) : string := hd EmptyString xs.

(** [s.rsplit(sep, 1)[0]]: everything before the last [sep], or the whole
    string when [sep] does not occur. *)
Definition rsplit1_head (sep : ascii) (s : string) : string :=
  match split sep s with
  | [] | [_] => s
  | ws => concat (String sep EmptyString) (removelast ws)
  end.

(** Lines as iteration over a text file yields them: each line keeps its
    final newline, the last one may lack it, an empty file has none. *)
Fixpoint lines_from (cur : string) (s : string) : list string :=
  match s with
  | EmptyString =>
      match cur with
      | EmptyString => []
      | _ => [rev cur]
      end
  | String c s' =>
      if Ascii.eqb c "010"%char then rev (String c cur) :: lines_from EmptyString s'
      else lines_from (String c cur) s'
  end.

Definition readlines (s : string) : list string := lines_from EmptyString s.

End Str.

(** ** IEEE-754 binary64 *)

Module F64.

Definition prec : Z := 53.
Definition emax : Z := 1024.

(** A Python [float], a NumPy [float64]. *)
Definition t : Type := spec_float.

Definition nan : t := S754_nan.
Definition zero : t := S754_zero false.

Definition add : t -> t -> t := SFadd prec emax.
Definition sub : t -> t -> t := SFsub prec emax.
Definition mul : t -> t -> t := SFmul prec emax.
Definition div : t -> t -> t := SFdiv prec emax.

Definition ltb : t -> t -> bool := SFltb.
Definition leb : t -> t -> bool := SFleb.
Definition eqb : t -> t -> bool := SFeqb.

Definition is_nan (x : t) : bool :=
  match x with
  | S754_nan => true
  | _ => false
  end.

Definition is_finite (x : t) : bool :=
  match x with
  | S754_zero _ | S754_finite _ _ _ => true
  | _ => false
  end.

(** The value every [float64] is created with is one the format can hold. *)
Definition valid (x : t) : bool := valid_binary prec emax x.

(** Conversion of an integer, rounding to nearest even (exact below [2^53]). *)
Definition of_Z (z : Z) : t := binary_normalize prec emax z 0 false.

(** The correctly rounded value of [(-1)^neg * mant * 10^exp10]. *)
Definition of_decimal (neg : bool) (mant : N) (exp10 : Z) : t :=
  match mant with
  | N0 => S754_zero neg
  | Npos m =>
      if 0 <=? exp10 then binary_round prec emax neg (m * Z.to_pos (10 ^ exp10)) 0
      else
        let '(q, e, l) :=
          SFdiv_core_binary prec emax (Zpos m) 0 (10 ^ (- exp10)) 0 in
        binary_round_aux prec emax neg q e l
  end.

(** The integer part of a finite value, rounding toward zero (a C cast);
    nothing for NaN and the infinities. *)
Definition trunc (x : t) : option Z :=
  match x with
  | S754_zero _ => Some 0
  | S754_finite s m e =>
      Some (cond_Zopp s (if 0 <=? e then Zpos m * 2 ^ e else Zpos m / 2 ^ (- e)))
  | _ => None
  end.

End F64.

(** ** The builtin [float(s)] *)

Module PyFloat.

Definition is_digit (c : ascii) : bool :=
  let n := nat_of_ascii c in ((48 <=? n) && (n <=? 57))%nat.

Definition digit_val (c : ascii) : N := N.of_nat (nat_of_ascii c - 48).

Definition lower (c : ascii) : ascii :=
  let n := nat_of_ascii c in
  if ((65 <=? n) && (n <=? 90))%nat then ascii_of_nat (n + 32) else c.

Fixpoint lowercase (s : string) : string :=
  match s with
  | EmptyString => EmptyString
  | String c s' => String (lower c) (lowercase s')
  end.

(** The digits that follow a first digit; an underscore is read only
    between two digits.  Returns the accumulated value, the number of
    digits read and the unread rest. *)
Fixpoint more_digits (acc : N) (cnt : nat) (s : string) : N * nat * string :=
  match s with
  | EmptyString => (acc, cnt, s)
  | String c s' =>
      if is_digit c then more_digits (acc * 10 + digit_val c)%N (S cnt) s'
      else if Ascii.eqb c "_"%char then
        match s' with
        | String d s'' =>
            if is_digit d then more_digits (acc * 10 + digit_val d)%N (S cnt) s''
            else (acc, cnt, s)
        | EmptyString => (acc, cnt, s)
        end
      else (acc, cnt, s)
  end.

(** [digitpart ::= digit (["_"] digit)*], appended to [acc]. *)
Definition digitpart (acc : N) (s : string) : option (N * nat * string) :=
  match s with
  | String c s' =>
      if is_digit c then Some (more_digits (acc * 10 + digit_val c)%N 1%nat s')
      else None
  | EmptyString => None
  end.

Definition sign (s : string) : bool * string :=
  match s with
  | String "-"%char s' => (true, s')
  | String "+"%char s' => (false, s')
  | _ => (false, s)
  end.

(** [exponent ::= ("e" | "E") ["+" | "-"] digitpart]; the whole rest of the
    literal has to be an exponent or empty. *)
Definition exponent (s : string) : option Z :=
  match s with
  | EmptyString => Some 0
  | String c s' =>
      if Ascii.eqb (lower c) "e"%char then
        let '(neg, s'') := sign s' in
        match digitpart 0%N s'' with
        | Some (v, _, EmptyString) => Some (cond_Zopp neg (Z.of_N v))
        | _ => None
        end
      else None
  end.

(** [floatnumber]: digits, an optional point and fraction, an optional
    exponent, with a digit before or after the point.  The result is the
    decimal mantissa and the power of ten. *)
Definition floatnumber (s : string) : option (N * Z) :=
  let '(int_val, int_cnt, rest) :=
    match digitpart 0%N s with
    | Some r => r
    | None => (0%N, 0%nat, s)
    end in
  let '(mant, frac_cnt, rest') :=
    match rest with
    | String "."%char r =>
        match digitpart int_val r with
        | Some r' => r'
        | None => (int_val, 0%nat, r)
        end
    | _ => (int_val, 0%nat, rest)
    end in
  match int_cnt, frac_cnt with
  | O, O => None
  | _, _ =>
      match exponent rest' with
      | Some e => Some (mant, e - Z.of_nat frac_cnt)
      | None => None
      end
  end.

(** [float(s)]: surrounding white space is dropped, then a sign and either
    [inf], [infinity], [nan] (in any case) or a decimal literal; anything
    else raises [ValueError]. *)
Definition float (s : string) : Py.result F64.t :=
  let '(neg, body) := sign (Str.strip s) in
  let word := lowercase body in
  if (word =? "inf")%string || (word =? "infinity")%string
  then Py.Ok (S754_infinity neg)
  else if (word =? "nan")%string then Py.Ok F64.nan
  else
    match floatnumber body with
    | Some (mant, e10) => Py.Ok (F64.of_decimal neg mant e10)
    | None => Py.Raise Py.ValueError
    end.

End PyFloat.

(** ** NumPy element conversions and [np.clip] *)

Module Np.

(** [np.maximum]/[np.minimum] as the [clip] loop of NumPy uses them on
    floating-point elements: a NaN element stays, otherwise one comparison. *)
Definition fmax (a b : F64.t) : F64.t :=
  if F64.is_nan a then a else if F64.ltb b a then a else b.

Definition fmin (a b : F64.t) : F64.t :=
  if F64.is_nan a then a else if F64.ltb a b then a else b.

(** One element of [np.clip(a, lo, hi)] in [float64]. *)
Definition clip (x lo hi : F64.t) : F64.t := fmin (fmax x lo) hi.

(** One element of [np.clip(a, lo, hi)] in an integer type. *)
Definition clip_int (x lo hi : Z) : Z := Z.min (Z.max x lo) hi.

(** Two's-complement wrap-around of [int32] arithmetic. *)
Definition wrap_int32 (z : Z) : Z := (z + 2 ^ 31) mod 2 ^ 32 - 2 ^ 31.

(** One element of [a.astype("uint8")] for a [float64] array: the value is
    truncated toward zero.  Outside [0, 255], and for NaN and the
    infinities, the C conversion NumPy performs has no specified result. *)
Definition astype_uint8 (x : F64.t) : option Z :=
  match F64.trunc x with
  | Some z => if (0 <=? z) && (z <=? 255) then Some z else None
  | None => None
  end.

(** One element of [a.astype(int)] for a [float64] array: truncation toward
    zero; for NaN, the infinities and values outside [int64] the result is
    the one x86-64 produces, [-2^63]. *)
Definition astype_int (x : F64.t) : Z :=
  match F64.trunc x with
  | Some z => if (- 2 ^ 63 <=? z) && (z <? 2 ^ 63) then z else - 2 ^ 63
  | None => - 2 ^ 63
  end.

(** [np.array(rows)] for a list of lists of floats: a two-dimensional array
    when all rows have one length, [ValueError] for ragged rows.  An empty
    list gives the array of size 0. *)
Definition ndarray : Type := list (list F64.t).

Definition ncols (a : ndarray) : nat :=
  match a with
  | [] => O
  | r :: _ => List.length r
  end.

Definition array (rows : list (list F64.t)) : Py.result ndarray :=
  if forallb (fun r => Nat.eqb (List.length r) (ncols rows)) rows
  then Py.Ok rows
  else Py.Raise Py.ValueError.

(** [a.size] *)
Definition size (a : ndarray) : nat := (List.length a * ncols a)%nat.

End Np.

(** ** The windowing normalizer ([02_load_deeplesion_balanced.ipynb]) *)

Module Normalizer.

(** A Python number: the window bounds are two [float]s when they were
    parsed and the two [int]s [-150] and [250] otherwise. *)
Inductive number : Type :=
| PyInt (z : Z)
| PyFloat (x : F64.t).

Definition to_float (n : number) : F64.t :=
  match n with
  | PyInt z => F64.of_Z z
  | PyFloat x => x
  end.

(** [clip_and_normalize(np_image, clip_min, clip_max)] on one element of an
    [int32] image.  With two [int] bounds the clipped image and the
    difference stay [int32] and only the true division is done in
    [float64]; with a [float] bound the image is promoted to [float64] by
    [np.clip] already. *)
Definition clip_and_normalize (np_image : Z) (clip_min clip_max : number) : F64.t :=
  match clip_min, clip_max with
  | PyInt lo, PyInt hi =>
      let clipped := Np.clip_int np_image lo hi in
      F64.div (F64.of_Z (Np.wrap_int32 (clipped - lo))) (F64.of_Z (hi - lo))
  | _, _ =>
      let lo := to_float clip_min in
      let hi := to_float clip_max in
      let clipped := Np.clip (F64.of_Z np_image) lo hi in
      F64.div (F64.sub clipped lo) (F64.sub hi lo)
  end.

(** [image.astype("int32") - 32768]: the stored value as Hounsfield units. *)
Definition hounsfield (raw : Z) : Z := Np.wrap_int32 (raw - 32768).

(** [image * 255] before the cast. *)
Definition scaled (raw : Z) (clip_min clip_max : number) : F64.t :=
  F64.mul (clip_and_normalize (hounsfield raw) clip_min clip_max) (F64.of_Z 255).

(** One pixel of the slice loop: shift, window, scale, cast to [uint8]. *)
Definition convert_pixel (raw : Z) (clip_min clip_max : number) : option Z :=
  Np.astype_uint8 (scaled raw clip_min clip_max).

(** A cell of the metadata table: text, or a value that is no string (the
    NaN pandas stores for an empty cell), on which [.split] raises. *)
Inductive cell : Type :=
| Text (s : string)
| Missing.

Record row : Type := { File_name : string; DICOM_windows : cell }.

(** The body of the [try]: both bounds parsed from the text of the cell. *)
Definition parse_window (c : cell) : Py.result (number * number) :=
  match c with
  | Missing => Py.Raise Py.AttributeError
  | Text s =>
      ws <- Py.comprehension (fun v => PyFloat.float (Str.strip v)) (Str.split "," s) ;;
      lo <- Py.index ws 0 ;;
      hi <- Py.index ws 1 ;;
      Py.Ok (PyFloat lo, PyFloat hi)
  end.

Definition default_window : number * number := (PyInt (-150), PyInt 250).

Definition invalid_window_message (r : row) : string :=
  "Invalid DICOM window for " ++ File_name r ++ ", using default".

(** [try: ... except: ...] around the parse: the window that is used and
    what is printed. *)
Definition select_window (r : row) : (number * number) * list string :=
  Py.try_except
    (w <- parse_window (DICOM_windows r) ;; Py.Ok (w, []))
    (default_window, [invalid_window_message r]).

(** A raw slice as [cv2.imread] returns it: rows of pixels, or [None] for a
    file it cannot decode. *)
Definition raw_image : Type := option (list (list Z)).
Definition image8 : Type := list (list (option Z)).

(** The body of the inner [try] for one file. *)
Definition convert_slice (im : raw_image) (w : number * number) : Py.result image8 :=
  match im with
  | None => Py.Raise Py.AttributeError
  | Some px => Py.Ok (map (map (fun raw => convert_pixel raw (fst w) (snd w))) px)
  end.

Record state : Type := {
  written : list (string * image8);   (* [cv2.imwrite] calls, latest first *)
  printed : list string               (* [print] calls, latest first *)
}.

Definition print (msg : string) (st : state) : state :=
  {| written := written st; printed := msg :: printed st |}.

Definition imwrite (path : string) (im : image8) (st : state) : state :=
  {| written := (path, im) :: written st; printed := printed st |}.

Definition join (dir name : string) : string := dir ++ "/" ++ name.

(** The inner loop over the sorted files of one folder: a slice that
    raises is reported with its input path and the loop goes on (the text of
    the exception, which the message also carries, is left out). *)
Fixpoint convert_folder (subdir_in subdir_out : string) (w : number * number)
         (images : list (string * raw_image)) (st : state) : state :=
  match images with
  | [] => st
  | (name, im) :: rest =>
      let st' :=
        match convert_slice im w with
        | Py.Ok out => imwrite (join subdir_out name) out st
        | Py.Raise _ => print ("Failed to convert " ++ join subdir_in name) st
        end in
      convert_folder subdir_in subdir_out w rest st'
  end.

Definition dir_in : string := "./DeepLesion/deeplesion_images/Images_png".
Definition dir_out : string := "./DeepLesion/deeplesion_images/Images_png_wn".

(** One iteration of the loop over the metadata rows.  [glob] gives the
    sorted [*.png] files of an input folder by name; creating the output
    folder ([os.makedirs(..., exist_ok=True)]) leaves no trace here. *)
Definition convert_row (glob : string -> list (string * raw_image))
           (r : row) (st : state) : state :=
  let folder := Str.rsplit1_head "_" (File_name r) in
  let '(w, msgs) := select_window r in
  let st1 := fold_left (fun s m => print m s) msgs st in
  convert_folder (join dir_in folder) (join dir_out folder) w (glob folder) st1.

(** The whole loop. *)
Definition run (glob : string -> list (string * raw_image))
           (rows : list row) (st : state) : state :=
  fold_left (fun s r => convert_row glob r s) rows st.

End Normalizer.

(** ** The YOLOv8 prediction helpers *)

Module Yolo.

Definition labels_dir : string :=
  "/Users/paularamos/Documents/GitHub/awesome-fiftyone/runs/detect/predict/labels/".

(** [str(n)] for an integer. *)
Definition str (n : Z) : string := NilZero.string_of_int (Z.to_int n).

(** [get_prediction_filepath(filepath, run_number = 1)] *)
Definition get_prediction_filepath (filepath : string) (run_number : Z) : string :=
  let run_num_string := if run_number =? 1 then "" else str run_number in
  let filename :=
    Str.first_piece (Str.split "." (Str.last_piece (Str.split "/" filepath))) in
  labels_dir ++ filename ++ ".txt".

(** The text files that exist, by path; [None] when [os.path.exists] is
    false. *)
Definition filesystem : Type := string -> option string.

(** Text mode reads every line ending as a newline. *)
Fixpoint universal_newlines (s : string) : string :=
  match s with
  | EmptyString => EmptyString
  | String c s' =>
      if Ascii.eqb c "013"%char then
        match s' with
        | String "010"%char _ => universal_newlines s'
        | _ => String "010"%char (universal_newlines s')
        end
      else String c (universal_newlines s')
  end.

(** [read_yolo_detections_file(filepath)] *)
Definition read_yolo_detections_file (fs : filesystem) (filepath : string)
  : Py.result Np.ndarray :=
  match fs filepath with
  | None => Py.Ok []
  | Some text =>
      let lines :=
        map (fun line => Str.split " " (Str.rstrip_char "010" line))
            (Str.readlines (universal_newlines text)) in
      detections <- Py.comprehension (Py.comprehension PyFloat.float) lines ;;
      Np.array detections
  end.

(** The view [yolo_detections[:, 1:-1]] has the columns [1 .. ncols - 2] of
    the array it shares its memory with. *)
Definition box_columns (a : Np.ndarray) : nat := (Np.ncols a - 2)%nat.

Definition get (r : list F64.t) (i : nat) : F64.t := nth i r F64.nan.

Fixpoint set (r : list F64.t) (i : nat) (v : F64.t) : list F64.t :=
  match r, i with
  | [], _ => []
  | _ :: r', O => v :: r'
  | x :: r', S i' => x :: set r' i' v
  end.

(** [boxes[:, i] -= boxes[:, j] / 2.] through the view: column [1 + i] of
    the array is updated in place; a column the view lacks raises
    [IndexError]. *)
Definition uncenter_column (i j : nat) (a : Np.ndarray) : Py.result Np.ndarray :=
  if ((i <? box_columns a) && (j <? box_columns a))%nat then
    Py.Ok (map (fun r =>
                  set r (1 + i)
                      (F64.sub (get r (1 + i)) (F64.div (get r (1 + j)) (F64.of_Z 2))))
               a)
  else Py.Raise Py.IndexError.

(** [_uncenter_boxes(boxes)]: from centre coordinates to corner ones. *)
Definition _uncenter_boxes (a : Np.ndarray) : Py.result Np.ndarray :=
  a1 <- uncenter_column 0 2 a ;;
  uncenter_column 1 3 a1.

(** [_get_class_labels(predicted_classes, class_list)] *)
Definition _get_class_labels (predicted_classes : list F64.t)
           (class_list : list string) : Py.result (list string) :=
  let labels := map Np.astype_int predicted_classes in
  Py.comprehension (fun l => Py.index class_list l) labels.

Record Detection : Type := {
  label : string;
  bounding_box : list F64.t;
  confidence : F64.t
}.

(** The row slice [r[1:-1]]. *)
Definition middle (r : list F64.t) : list F64.t := removelast (tl r).

Fixpoint zip3 (labels : list string) (confs : list F64.t)
         (boxes : list (list F64.t)) : list Detection :=
  match labels, confs, boxes with
  | l :: ls, c :: cs, b :: bs =>
      {| label := l; bounding_box := b; confidence := c |} :: zip3 ls cs bs
  | _, _, _ => []
  end.

(** [convert_yolo_detections_to_fiftyone(yolo_detections, class_list)] *)
Definition convert_yolo_detections_to_fiftyone (yolo_detections : Np.ndarray)
           (class_list : list string) : Py.result (list Detection) :=
  if Nat.eqb (Np.size yolo_detections) 0 then Py.Ok []
  else
    arr <- _uncenter_boxes yolo_detections ;;
    let boxes := map middle arr in
    let confs := map (fun r => last r F64.nan) arr in
    labels <- _get_class_labels (map (fun r => hd F64.nan r) arr) class_list ;;
    Py.Ok (zip3 labels confs boxes).

(** One sample of [add_yolo_detections]: read the file, convert it. *)
Definition detections_of_file (fs : filesystem) (filepath : string)
           (class_list : list string) : Py.result (list Detection) :=
  yd <- read_yolo_detections_file fs filepath ;;
  convert_yolo_detections_to_fiftyone yd class_list.

End Yolo.

(** ** Substrings *)

Module Substr.

(** The pieces between the occurrences of [sep], found from the left and
    not overlapping; [skip] counts the characters of an occurrence that are
    still to be passed over. *)
Fixpoint split_from (sep : string) (skip : nat) (s : string) : list string :=
  match s with
  | EmptyString => [EmptyString]
  | String c s' =>
      match skip with
      | S k => split_from sep k s'
      | O =>
          if String.prefix sep s
          then EmptyString :: split_from sep (String.length sep - 1) s'
          else match split_from sep 0 s' with
               | [] => [String c EmptyString]
               | w :: ws => String c w :: ws
               end
      end
  end.

(** [s.split(sep)] for a separator of one character or more. *)
Definition split (sep s : string) : list string := split_from sep 0 s.

(** The text with every occurrence of [old] replaced, in the same way. *)
Fixpoint replace_from (old new : string) (skip : nat) (s : string) : string :=
  match s with
  | EmptyString => EmptyString
  | String c s' =>
      match skip with
      | S k => replace_from old new k s'
      | O =>
          if String.prefix old s
          then new ++ replace_from old new (String.length old - 1) s'
          else String c (replace_from old new 0 s')
      end
  end.

(** [s.replace(old, new)] for a non-empty [old]: every occurrence, found
    from the left and not overlapping. *)
Definition replace (old new s : string) : string := replace_from old new 0 s.

End Substr.

(** ** [os.path.join] *)

Module Os.

(** [path.endswith("/")] *)
Definition endswith_sep (path : string) : bool :=
  match Str.rev path with
  | String "/"%char _ => true
  | _ => false
  end.

(** One step of [posixpath.join]: an absolute component starts over, and no
    separator is added after an empty path or one that ends with it. *)
Definition join2 (path b : string) : string :=
  if String.prefix "/" b then b
  else if (path =? "")%string || endswith_sep path then path ++ b
  else path ++ "/" ++ b.

(** [os.path.join(a, *p)] *)
Definition join (a : string) (p : list string) : string := fold_left join2 p a.

End Os.

(** ** Attaching the predictions ([add_yolo_detections] and its call) *)

Module Annotate.

Import Yolo.

(** [add_yolo_detections(samples, prediction_field, prediction_filepath,
    class_list)]: the value is what [set_values] stores in
    [prediction_field], one list of detections for each sample, from the
    paths [samples.values(prediction_filepath)] gives.  All files are read
    before the first one is converted. *)
Definition add_yolo_detections (fs : filesystem) (prediction_filepaths : list string)
           (class_list : list string) : Py.result (list (list Detection)) :=
  yolo_detections <- Py.comprehension (read_yolo_detections_file fs) prediction_filepaths ;;
  Py.comprehension (fun yd => convert_yolo_detections_to_fiftyone yd class_list)
                   yolo_detections.

(** The cell that calls it: the prediction path of every image, with
    [run_number=2], then the detections. *)
Definition prediction_filepaths (filepaths : list string) : list string :=
  map (fun fp => get_prediction_filepath fp 2) filepaths.

Definition load_predictions (fs : filesystem) (filepaths : list string)
           (classes : list string) : Py.result (list (list Detection)) :=
  add_yolo_detections fs (prediction_filepaths filepaths) classes.

End Annotate.

(** ** The DeepLesion dataset ([02_load_deeplesion_balanced.ipynb]) *)

Module Deeplesion.

Import Normalizer.

Definition image_root : string := "./DeepLesion/deeplesion_images/Images_png_wn".

(** The path under which a row of the table expects its slice:
    [parts = file_name.split("_")], [subfolder = "_".join(parts[:3])],
    [slice_part = parts[3].replace(".png", "")] and
    [os.path.join(image_root, subfolder, f"{slice_part}.png")].  The index
    [parts[3]] raises [IndexError] for a name with fewer than four parts, and
    nothing catches it. *)
Definition img_path (file_name : string) : Py.result string :=
  let parts := Str.split "_" file_name in
  let subfolder := String.concat "_" (firstn 3 parts) in
  part3 <- Py.index parts 3 ;;
  let slice_part := Substr.replace ".png" "" part3 in
  Py.Ok (Os.join image_root [subfolder; (slice_part ++ ".png")%string]).

(** [list(map(float, cell.split(", ")))] *)
Definition floats_of (c : cell) : Py.result (list F64.t) :=
  match c with
  | Missing => Py.Raise Py.AttributeError
  | Text s => Py.comprehension PyFloat.float (Substr.split ", " s)
  end.

(** [fo.Detection(label=..., bounding_box=...)]: no confidence is given. *)
Record Detection : Type := {
  label : string;
  bounding_box : list F64.t
}.

(** The body of the [try]: [x, y, w, h = bbox[0], bbox[1], bbox[2] - bbox[0],
    bbox[3] - bbox[1]] and the box [[x / 512, y / 512, w / 512, h / 512]], from
    corner coordinates in pixels to a relative box of a 512 by 512 image. *)
Definition lesion (c : cell) : Py.result Detection :=
  bbox <- floats_of c ;;
  x <- Py.index bbox 0 ;;
  y <- Py.index bbox 1 ;;
  x2 <- Py.index bbox 2 ;;
  y2 <- Py.index bbox 3 ;;
  let w := F64.sub x2 x in
  let h := F64.sub y2 y in
  Py.Ok {| label := "lesion";
           bounding_box := [F64.div x (F64.of_Z 512); F64.div y (F64.of_Z 512);
                            F64.div w (F64.of_Z 512); F64.div h (F64.of_Z 512)] |}.

(** [try: ... detections = [detection] / except: detections = []] *)
Definition detections (c : cell) : list Detection :=
  Py.try_except (d <- lesion c ;; Py.Ok [d]) [].

(** [min(values)]: a later value replaces the current one when it is
    smaller; an empty list raises [ValueError]. *)
Fixpoint min_from (cur : F64.t) (values : list F64.t) : F64.t :=
  match values with
  | [] => cur
  | v :: rest => min_from (if F64.ltb v cur then v else cur) rest
  end.

Definition min (values : list F64.t) : Py.result F64.t :=
  match values with
  | [] => Py.Raise Py.ValueError
  | v :: rest => Py.Ok (min_from v rest)
  end.

(** [get_short_diameter(diam_str)] *)
Definition get_short_diameter (diam_str : cell) : option F64.t :=
  Py.try_except
    (values <- floats_of diam_str ;; m <- min values ;; Py.Ok (Some m))
    None.

End Deeplesion.

(* ================================================================== *)
(** * Part II: the vocabulary of the proofs *)
(* ================================================================== *)

Import Normalizer.
Import Yolo.

(** ** Windows and pixels *)

(** A window the normalizer is meant for: two representable bounds, the
    lower one finite and below the upper one.  The two [int] defaults have to
    fit the [int32] image, together with their difference. *)
Definition well_formed_window (clip_min clip_max : number) : bool :=
  match clip_min, clip_max with
  | PyInt lo, PyInt hi =>
      (- 2 ^ 31 <=? lo) && (hi <? 2 ^ 31) && (lo <? hi) && (hi - lo <? 2 ^ 31)
  | _, _ =>
      F64.valid (to_float clip_min) && F64.valid (to_float clip_max)
      && F64.is_finite (to_float clip_min)
      && F64.ltb (to_float clip_min) (to_float clip_max)
  end.

(** The two operands of the division in [clip_and_normalize]. *)
Definition numerator (hu : Z) (clip_min clip_max : number) : F64.t :=
  match clip_min, clip_max with
  | PyInt lo, PyInt hi => F64.of_Z (Np.wrap_int32 (Np.clip_int hu lo hi - lo))
  | _, _ =>
      F64.sub (Np.clip (F64.of_Z hu) (to_float clip_min) (to_float clip_max))
              (to_float clip_min)
  end.

Definition denominator (clip_min clip_max : number) : F64.t :=
  match clip_min, clip_max with
  | PyInt lo, PyInt hi => F64.of_Z (hi - lo)
  | _, _ => F64.sub (to_float clip_max) (to_float clip_min)
  end.

(** From the two operands to the stored pixel. *)
Definition pixel_of (a d : F64.t) : option Z :=
  Np.astype_uint8 (F64.mul (F64.div a d) (F64.of_Z 255)).

Definition is_raise {A} (r : Py.result A) : bool :=
  match r with
  | Py.Ok _ => false
  | Py.Raise _ => true
  end.

(** A cell the [try] block fails on: it is no text, one of its fields is no
    float, or it has fewer than two fields. *)
Definition malformed_window (c : cell) : bool :=
  match c with
  | Missing => true
  | Text s =>
      let fields := Str.split "," s in
      existsb (fun v => is_raise (PyFloat.float (Str.strip v))) fields
      || (List.length fields <? 2)%nat
  end.

(** The specification's reading of a well-formed cell: two floats and nothing
    else. *)
Definition parses_as_exactly_two_floats (c : cell) : bool :=
  match c with
  | Missing => false
  | Text s =>
      match Py.comprehension (fun v => PyFloat.float (Str.strip v)) (Str.split "," s) with
      | Py.Ok [_; _] => true
      | _ => false
      end
  end.

(** ** Detections *)

(** The index Python reads for [i] in a list of length [n]. *)
Definition wrapped_index (n i : Z) : Z := if i <? 0 then i + n else i.

(** One row after [_uncenter_boxes]. *)
Definition uncentered_row (r : list F64.t) : list F64.t :=
  match r with
  | c :: cx :: cy :: w :: h :: rest =>
      c :: F64.sub cx (F64.div w (F64.of_Z 2)) :: F64.sub cy (F64.div h (F64.of_Z 2))
        :: w :: h :: rest
  | _ => r
  end.

(** The box the converter stores for one row: every field between the first
    and the last, the first two of them moved from the centre to the corner. *)
Definition box_of_row (r : list F64.t) : list F64.t :=
  match r with
  | _ :: cx :: cy :: w :: h :: rest =>
      F64.sub cx (F64.div w (F64.of_Z 2)) :: F64.sub cy (F64.div h (F64.of_Z 2))
      :: w :: h :: removelast rest
  | _ => []
  end.

(** ** Rounding in binary64 *)

Definition emin64 : Z := -1074.
Definition fexp64 : Z -> Z := SpecFloat.fexp F64.prec F64.emax.

(** Where the remainder [r] of a division by [n] lies in its unit interval. *)
Definition loc_of (r n : Z) : location :=
  if r =? 0 then loc_Exact else loc_Inexact (2 * r ?= n).

(** The quotient [A / N] with the position of what is left. *)
Definition located (A N : Z) : shr_record :=
  shr_record_of_loc (A / N) (loc_of (A mod N) N).

(** The position after one more binary digit was shifted out. *)
Definition half_loc (odd : bool) (l : location) : location :=
  match odd, l with
  | false, loc_Exact => loc_Exact
  | false, _ => loc_Inexact Lt
  | true, loc_Exact => loc_Inexact Eq
  | true, _ => loc_Inexact Gt
  end.

(** The last steps of [binary_round_aux]: renormalise the rounded mantissa
    and check the exponent. *)
Definition finish (s : bool) (R e : Z) : spec_float :=
  let '(mrs, e') := shr_fexp F64.prec F64.emax R e loc_Exact in
  match shr_m mrs with
  | Z0 => S754_zero s
  | Zpos m => if e' <=? F64.emax - F64.prec then S754_finite s m e' else S754_infinity s
  | Zneg _ => S754_nan
  end.

(** [A / D] rounded to the nearest integer, ties to even. *)
Definition rne (A D : Z) : Z := round_nearest_even (A / D) (loc_of (A mod D) D).

(** The exponent of the result for the input [A / N * 2^E]. *)
Definition cexp (A N E : Z) : Z := fexp64 (Zdigits2 (A / N) + E).

(** Values are counted in units of [2^-1074], of which every finite binary64
    number is a multiple; the infinities sit at [top]. *)
Definition top : Z := 2 ^ 2098.
Definition quantum : Z := 2 ^ 1074.
Definition vmax : Z := (2 ^ 53 - 1) * 2 ^ 2045.

Definition V (x : spec_float) : Z :=
  match x with
  | S754_zero _ => 0
  | S754_finite s m e => cond_Zopp s (Zpos m * 2 ^ (e + 1074))
  | S754_infinity s => cond_Zopp s top
  | S754_nan => 0
  end.

(** The value the input [A / N * 2^E] rounds to. *)
Definition RV (A N E : Z) : Z :=
  let e := cexp A N E in
  Z.min (rne A (N * 2 ^ (e - E)) * 2 ^ (e + 1074)) top.

(** [A1 * 2^E1 <= A2 * 2^E2], on integers. *)
Definition sle (A1 E1 A2 E2 : Z) : Prop :=
  A1 * 2 ^ (E1 - Z.min E1 E2) <= A2 * 2 ^ (E2 - Z.min E1 E2).

(** The exponent and the numerator [SFdiv] hands to the rounding. *)
Definition div_exp (mx my : positive) (ex ey : Z) : Z :=
  Z.min (fexp64 (Zdigits2 (Zpos mx) + ex - (Zdigits2 (Zpos my) + ey))) (ex - ey).

Definition div_num (mx my : positive) (ex ey : Z) : Z :=
  Zpos mx * 2 ^ (ex - ey - div_exp mx my ex ey).

(** The exponent and the mantissa [binary_round] starts from. *)
Definition rnd_exp (A E : Z) : Z := Z.min E (fexp64 (Zdigits2 A + E)).
Definition rnd_num (A E : Z) : Z := A * 2 ^ (E - rnd_exp A E).

Definition bn (z e : Z) : F64.t := binary_normalize F64.prec F64.emax z e false.

(** Rounding a value given in units. *)
Definition BNV (z : Z) : Z := V (bn z (-1074)).

(** The float an integer below [2^53] converts to. *)
Definition int_mant (z : Z) : positive := Z.to_pos (z * 2 ^ (53 - Zdigits2 z)).
Definition int_exp (z : Z) : Z := Zdigits2 z - 53.

Definition f64_one : F64.t := S754_finite false 4503599627370496 (-52).
Definition c255 : F64.t := S754_finite false 8972014882652160 (-45).

(** A representable value that is not NaN. *)
Definition ordinary (x : F64.t) : Prop := F64.valid x = true /\ F64.is_nan x = false.

(** A representable value that is neither NaN nor negative. *)
Definition good (x : F64.t) : Prop :=
  F64.valid x = true /\ F64.is_nan x = false /\ 0 <= V x.

(** What the pixel lemmas need of the two operands, for two inputs
    [x1 <= x2] and the bounds [lo], [hi]. *)
Definition differences_ok (a1 a2 d : F64.t) (x1 x2 lo hi : F64.t) : Prop :=
  good a1 /\ good a2 /\ good d /\ V a1 <= V a2 /\ V a2 <= V d /\ V a2 < top /\ 0 < V d
  /\ (V x1 = V lo -> V a1 = 0)
  /\ (V x2 = V hi -> V a2 = V d).

(** [round(x)]: the nearest integer, ties to even. *)
Definition round_half_even (x : F64.t) : option Z :=
  match x with
  | S754_zero _ => Some 0
  | S754_finite s m e =>
      Some (cond_Zopp s (if 0 <=? e then Zpos m * 2 ^ e else rne (Zpos m) (2 ^ (- e))))
  | _ => None
  end.

(** Goals [Some c = Some (a ?= b)] between given integers. *)
Ltac solve_cmp :=
  cbn [cond_Zopp]; f_equal; symmetry;
  first [ apply Z.compare_eq_iff; lia
        | apply Z.compare_lt_iff; lia
        | apply Z.compare_gt_iff; lia ].

(** ** Texts and paths *)

(** Whether the character [c] occurs in [s]. *)
Fixpoint has_char (c : ascii) (s : string) : bool :=
  match s with
  | EmptyString => false
  | String x s' => Ascii.eqb x c || has_char c s'
  end.

(** Whether the text [sep] occurs in [s]. *)
Fixpoint occurs (sep s : string) : bool :=
  match s with
  | EmptyString => String.prefix sep s
  | String _ s' => String.prefix sep s || occurs sep s'
  end.

(** The name of an image without its directories and without what follows
    its first dot. *)
Definition stem_of (filepath : string) : string :=
  Str.first_piece (Str.split "." (Str.last_piece (Str.split "/" filepath))).

(** ** Prediction files *)

(** The same text with Windows line endings. *)
Fixpoint crlf (s : string) : string :=
  match s with
  | EmptyString => EmptyString
  | String c s' =>
      if Ascii.eqb c "010"%char then String "013"%char (String "010"%char (crlf s'))
      else String c (crlf s')
  end.

(** The fields of the lines of a prediction file, as the reader cuts them. *)
Definition fields_of (text : string) : list (list string) :=
  map (fun line => Str.split " " (Str.rstrip_char "010" line))
      (Str.readlines (universal_newlines text)).

(** A line with an empty field: an empty line, two spaces in a row, a space
    at either end. *)
Definition has_empty_field (text : string) : bool :=
  existsb (existsb (String.eqb "")) (fields_of text).

(** A field of the file that [float] does not read. *)
Definition bad_field (text : string) : bool :=
  existsb (existsb (fun s => is_raise (PyFloat.float s))) (fields_of text).

(** Lines that do not all have as many fields as the first one. *)
Definition ragged (text : string) : bool :=
  negb (forallb (fun l => Nat.eqb (List.length l) (List.length (hd [] (fields_of text))))
                (fields_of text)).

(** ** The output of the normalizer *)

(** The image a decoded slice is converted to. *)
Definition converted (w : number * number) (px : list (list Z)) : image8 :=
  map (map (fun raw => convert_pixel raw (fst w) (snd w))) px.

(** What the file [path] holds after the writes of [st]: the latest one. *)
Definition file_content (st : state) (path : string) : option image8 :=
  option_map snd (find (fun e => String.eqb (fst e) path) (written st)).

(** The slices of a folder that [cv2.imread] decodes. *)
Definition decodable (images : list (string * raw_image)) : nat :=
  List.length (filter (fun e => match snd e with Some _ => true | None => false end) images).

(** The folder a row of the table names. *)
Definition folder_of (r : row) : string := Str.rsplit1_head "_" (File_name r).

(** The default window on every raw value from the lower bound to the upper
    one, against the integer formula. *)
Definition default_table_ok : bool :=
  forallb (fun k : nat =>
             match convert_pixel (Z.of_nat k + 32618) (PyInt (-150)) (PyInt 250) with
             | Some v => v =? Z.of_nat k * 255 / 400
             | None => false
             end)
          (seq 0 401).

(** ** The DeepLesion dataset *)

(** The folder the dataset loop looks in for a file name. *)
Definition subfolder_of (file_name : string) : string :=
  String.concat "_" (firstn 3 (Str.split "_" file_name)).

(** An image all of whose pixels have a value, a byte. *)
Definition all_bytes (im : image8) : Prop :=
  Forall (Forall (fun p => exists v, p = Some v /\ 0 <= v <= 255)) im.

(** A decoded slice of 16-bit values. *)
Definition sixteen_bit (im : raw_image) : Prop :=
  match im with
  | Some px => Forall (Forall (fun raw => 0 <= raw < 65536)) px
  | None => True
  end.

(** The last character of a text. *)
Fixpoint last_char (s : string) : option ascii :=
  match s with
  | EmptyString => None
  | String c EmptyString => Some c
  | String _ s' => last_char s'
  end.

(** A text that is not empty and does not end with a newline. *)
Definition open_ended (s : string) : bool :=
  match last_char s with
  | Some c => negb (Ascii.eqb c "010"%char)
  | None => false
  end.

(* ================================================================== *)
(** * Part III: lemmas and theorems *)
(* ================================================================== *)

(** ** Powers of two and binary digits *)
Lemma fexp64_eq e : fexp64 e = Z.max (e - 53) (-1074).
Proof. reflexivity. Qed.

Lemma pow2_pos k : 0 < 2 ^ k \/ k < 0.
Proof. destruct (Z.le_gt_cases 0 k); [left; apply Z.pow_pos_nonneg; lia | right; lia]. Qed.

Lemma pow2_gt0 k : 0 <= k -> 0 < 2 ^ k.
Proof. intros; apply Z.pow_pos_nonneg; lia. Qed.

Lemma pow2_succ k : 0 <= k -> 2 ^ (k + 1) = 2 * 2 ^ k.
Proof. intros. rewrite Z.pow_add_r by lia. change (2 ^ 1) with 2. lia. Qed.

Lemma digits2_pos_bounds m :
  2 ^ (Zpos (digits2_pos m) - 1) <= Zpos m < 2 ^ Zpos (digits2_pos m).
Proof.
  induction m as [m IH | m IH | ]; cbn [digits2_pos].
  - rewrite Pos2Z.inj_succ. replace (Z.succ (Zpos (digits2_pos m)) - 1) with (Zpos (digits2_pos m) - 1 + 1) by lia.
    replace (Z.succ (Zpos (digits2_pos m))) with (Zpos (digits2_pos m) + 1) by lia.
    rewrite !pow2_succ by lia. lia.
  - rewrite Pos2Z.inj_succ. replace (Z.succ (Zpos (digits2_pos m)) - 1) with (Zpos (digits2_pos m) - 1 + 1) by lia.
    replace (Z.succ (Zpos (digits2_pos m))) with (Zpos (digits2_pos m) + 1) by lia.
    rewrite !pow2_succ by lia. lia.
  - cbn. lia.
Qed.

Lemma Zdigits2_nonneg m : 0 <= m -> 0 <= Zdigits2 m.
Proof. destruct m; cbn; lia. Qed.

Lemma Zdigits2_bounds m : 0 < m -> 2 ^ (Zdigits2 m - 1) <= m < 2 ^ Zdigits2 m.
Proof. destruct m; try lia. intros _. apply digits2_pos_bounds. Qed.

Lemma Zdigits2_pos m : 0 < m -> 0 < Zdigits2 m.
Proof. destruct m; cbn; lia. Qed.

Lemma Zdigits2_unique m k : 0 < m -> 2 ^ (k - 1) <= m < 2 ^ k -> Zdigits2 m = k.
Proof.
  intros Hm [H1 H2]. pose proof (Zdigits2_bounds m Hm) as [H3 H4].
  pose proof (Zdigits2_pos m Hm).
  assert (0 < k).
  { destruct (Z.lt_ge_cases 0 k) as [|Hk]; auto.
    destruct (Z.eq_dec k 0) as [-> | Hk0]; [cbn in H2; lia |].
    rewrite Z.pow_neg_r in H2 by lia. lia. }
  destruct (Z.lt_trichotomy (Zdigits2 m) k) as [Hlt | [Heq | Hgt]]; auto.
  - assert (2 ^ Zdigits2 m <= 2 ^ (k - 1)) by (apply Z.pow_le_mono_r; lia). lia.
  - assert (2 ^ k <= 2 ^ (Zdigits2 m - 1)) by (apply Z.pow_le_mono_r; lia). lia.
Qed.

Lemma Zdigits2_le_iff m k : 0 <= m -> 0 <= k -> (Zdigits2 m <= k <-> m < 2 ^ k).
Proof.
  intros Hm Hk. destruct (Z.eq_dec m 0) as [-> | Hne].
  - cbn. pose proof (pow2_gt0 k Hk). lia.
  - assert (Hm' : 0 < m) by lia. pose proof (Zdigits2_bounds m Hm') as [H3 H4].
    pose proof (Zdigits2_pos m Hm'). split; intros H0.
    + assert (2 ^ Zdigits2 m <= 2 ^ k) by (apply Z.pow_le_mono_r; lia). lia.
    + destruct (Z.le_gt_cases (Zdigits2 m) k); auto.
      assert (2 ^ k <= 2 ^ (Zdigits2 m - 1)) by (apply Z.pow_le_mono_r; lia). lia.
Qed.

Lemma Zdigits2_mono a b : 0 <= a <= b -> Zdigits2 a <= Zdigits2 b.
Proof.
  intros [Ha Hab]. apply Zdigits2_le_iff; auto. apply Zdigits2_nonneg; lia.
  destruct (Z.eq_dec b 0). subst. assert (a = 0) by lia. subst. cbn. lia.
  pose proof (Zdigits2_bounds b). lia.
Qed.


(** ** Shifting right with a location *)
Lemma loc_of_shr_record_of_loc m l : loc_of_shr_record (shr_record_of_loc m l) = l.
Proof. destruct l as [|[| |]]; reflexivity. Qed.

Lemma shr_m_of_loc m l : shr_m (shr_record_of_loc m l) = m.
Proof. destruct l as [|[| |]]; reflexivity. Qed.


Lemma shr_1_record m l : 0 <= m ->
  shr_1 (shr_record_of_loc m l) = shr_record_of_loc (m / 2) (half_loc (Z.odd m) l).
Proof.
  intros Hm. destruct m as [|q|q]; try lia.
  - destruct l as [|[| |]]; reflexivity.
  - destruct q as [q|q|].
    + replace (Zpos q~1 / 2) with (Zpos q) by (rewrite Pos2Z.inj_xI; apply Z.div_unique with 1; lia).
      destruct l as [|[| |]]; reflexivity.
    + replace (Zpos q~0 / 2) with (Zpos q) by (rewrite Pos2Z.inj_xO; apply Z.div_unique with 0; lia).
      destruct l as [|[| |]]; reflexivity.
    + destruct l as [|[| |]]; reflexivity.
Qed.

Lemma half_loc_of r N m : 0 < N -> 0 <= r < N -> 0 <= m ->
  half_loc (Z.odd m) (loc_of r N) = loc_of (r + N * (m mod 2)) (N * 2).
Proof.
  intros HN Hr Hm. unfold loc_of.
  rewrite Zmod_odd. destruct (Z.odd m); cbn [half_loc].
  - destruct (Z.eqb_spec r 0) as [-> | Hr0].
    + destruct (Z.eqb_spec (0 + N * 1) 0); try lia.
      f_equal. symmetry. apply Z.compare_eq_iff. lia.
    + destruct (Z.eqb_spec (r + N * 1) 0); try lia.
      f_equal. symmetry. apply Z.compare_gt_iff. lia.
  - destruct (Z.eqb_spec r 0) as [-> | Hr0].
    + destruct (Z.eqb_spec (0 + N * 0) 0); try lia. reflexivity.
    + destruct (Z.eqb_spec (r + N * 0) 0); try lia.
      f_equal. symmetry. apply Z.compare_lt_iff. lia.
Qed.

(** One step of [shr] divides once more by two and keeps the position exact. *)
Lemma shr_1_located A N : 0 < N -> 0 <= A ->
  shr_1 (located A N) = located A (N * 2).
Proof.
  intros HN HA. unfold located.
  assert (Hm : 0 <= A / N) by (apply Z.div_pos; lia).
  assert (Hr : 0 <= A mod N < N) by (apply Z.mod_pos_bound; lia).
  rewrite shr_1_record by assumption.
  rewrite half_loc_of by assumption.
  rewrite <- Z.div_div by lia.
  rewrite Z.rem_mul_r by lia. reflexivity.
Qed.

(** [k] steps of [shr]: the same numerator over [N * 2^k]. *)
Lemma shr_iter_located k : forall A N, 0 < N -> 0 <= A ->
  iter_pos shr_1 k (located A N) = located A (N * 2 ^ Zpos k).
Proof.
  induction k as [k IH | k IH | ]; intros A N HN HA; cbn [iter_pos].
  - rewrite shr_1_located by assumption.
    rewrite IH by lia.
    assert (0 < 2 ^ Zpos k) by (apply pow2_gt0; lia).
    rewrite IH by nia.
    f_equal. rewrite (Pos2Z.inj_xI k).
    replace (2 * Zpos k + 1) with (1 + (Zpos k + Zpos k)) by lia.
    rewrite (Z.pow_add_r 2 1), (Z.pow_add_r 2 (Zpos k)) by lia.
    change (2 ^ 1) with 2. ring.
  - rewrite IH by lia.
    assert (0 < 2 ^ Zpos k) by (apply pow2_gt0; lia).
    rewrite IH by nia.
    f_equal. rewrite (Pos2Z.inj_xO k).
    replace (2 * Zpos k) with (Zpos k + Zpos k) by lia.
    rewrite (Z.pow_add_r 2 (Zpos k)) by lia. ring.
  - rewrite shr_1_located by assumption. reflexivity.
Qed.

Lemma shr_located A N E k : 0 < N -> 0 <= A -> 0 <= k ->
  shr (located A N) E k = (located A (N * 2 ^ k), E + k).
Proof.
  intros HN HA Hk. destruct k as [|k|k]; try lia; cbn [shr].
  - rewrite Z.mul_1_r, Z.add_0_r. reflexivity.
  - rewrite shr_iter_located by assumption. reflexivity.
Qed.

Lemma shr_fexp_located A N E : 0 < N -> 0 <= A ->
  E <= fexp64 (Zdigits2 (A / N) + E) ->
  shr_fexp F64.prec F64.emax (A / N) E (loc_of (A mod N) N) =
  (located A (N * 2 ^ (fexp64 (Zdigits2 (A / N) + E) - E)), fexp64 (Zdigits2 (A / N) + E)).
Proof.
  intros HN HA Hk. unfold shr_fexp. fold fexp64.
  change (shr_record_of_loc (A / N) (loc_of (A mod N) N)) with (located A N).
  rewrite shr_located by lia. f_equal. lia.
Qed.


(** ** The end of [binary_round_aux] and the rounding of a mantissa *)
(** [binary_round_aux] on a located input: round the mantissa at the
    canonical exponent, then finish. *)
Lemma bra_located s A N E : 0 < N -> 0 <= A -> E <= cexp A N E ->
  binary_round_aux F64.prec F64.emax s (A / N) E (loc_of (A mod N) N) =
  finish s (rne A (N * 2 ^ (cexp A N E - E))) (cexp A N E).
Proof.
  intros HN HA HE. unfold binary_round_aux, cexp in *.
  rewrite shr_fexp_located by assumption.
  unfold located. rewrite shr_m_of_loc, loc_of_shr_record_of_loc. reflexivity.
Qed.

Lemma fexp64_ge e : emin64 <= fexp64 e.
Proof. rewrite fexp64_eq. unfold emin64. lia. Qed.

Lemma finish_zero s e : emin64 <= e -> finish s 0 e = S754_zero s.
Proof.
  intros He. unfold finish, shr_fexp. cbn [Zdigits2]. fold fexp64.
  rewrite fexp64_eq. unfold emin64 in He.
  destruct (Z.max (0 + e - 53) (-1074) - e) eqn:Hk; try lia; reflexivity.
Qed.

Lemma finish_small s R e : 0 < R < 2 ^ 53 -> emin64 <= e ->
  finish s R e =
  if e <=? 971 then S754_finite s (Z.to_pos R) e else S754_infinity s.
Proof.
  intros HR He. unfold finish, shr_fexp. fold fexp64.
  assert (Hd : Zdigits2 R <= 53) by (apply Zdigits2_le_iff; lia).
  rewrite fexp64_eq. unfold emin64 in He.
  assert (Hsh : forall mrs, shr mrs e (Z.max (Zdigits2 R + e - 53) (-1074) - e) = (mrs, e)).
  { intros mrs. destruct (Z.max (Zdigits2 R + e - 53) (-1074) - e) eqn:Hk; try lia; reflexivity. }
  rewrite Hsh. cbn [shr_record_of_loc shr_m].
  destruct R; try lia. reflexivity.
Qed.

Lemma finish_carry s e : emin64 <= e ->
  finish s (2 ^ 53) e =
  if e + 1 <=? 971 then S754_finite s (Z.to_pos (2 ^ 52)) (e + 1) else S754_infinity s.
Proof.
  intros He. unfold finish, shr_fexp. fold fexp64.
  change (Zdigits2 (2 ^ 53)) with 54.
  rewrite fexp64_eq. unfold emin64 in He.
  replace (Z.max (54 + e - 53) (-1074) - e) with 1 by lia.
  reflexivity.
Qed.




Lemma quantum_pos : 0 < quantum.
Proof. reflexivity. Qed.

Lemma top_pos : 0 < top.
Proof. reflexivity. Qed.

Lemma pow2_add a b : 0 <= a -> 0 <= b -> 2 ^ (a + b) = 2 ^ a * 2 ^ b.
Proof. intros. apply Z.pow_add_r; assumption. Qed.

Lemma pow2_le a b : 0 <= a <= b -> 2 ^ a <= 2 ^ b.
Proof. intros. apply Z.pow_le_mono_r; lia. Qed.

Lemma pow2_lt a b : 0 <= a < b -> 2 ^ a < 2 ^ b.
Proof. intros. apply Z.pow_lt_mono_r; lia. Qed.

Lemma top_split e : -1074 <= e <= 971 -> top = 2 ^ (e + 1074) * 2 ^ (53 + (971 - e)).
Proof.
  intros He. unfold top. rewrite <- pow2_add by lia. f_equal. lia.
Qed.

(** The value of the result, overflow to infinity included. *)
Lemma finish_V R e : 0 <= R <= 2 ^ 53 -> emin64 <= e -> (emin64 < e -> 2 ^ 52 <= R) ->
  V (finish false R e) = Z.min (R * 2 ^ (e + 1074)) top.
Proof.
  intros HR He Hn. unfold emin64 in *.
  assert (HP : 0 < 2 ^ (e + 1074)) by (apply pow2_gt0; lia).
  assert (E53 : 2 ^ 53 = 2 * 2 ^ 52) by reflexivity.
  assert (P52 : 0 < 2 ^ 52) by reflexivity.
  destruct (Z.eq_dec R 0) as [-> | HR0].
  { rewrite finish_zero by (unfold emin64; lia). cbn [V]. pose proof top_pos. lia. }
  destruct (Z.eq_dec R (2 ^ 53)) as [-> | HR1].
  - rewrite finish_carry by (unfold emin64; lia).
    destruct (Z.leb_spec (e + 1) 971) as [Hle | Hgt]; cbn [V cond_Zopp].
    + rewrite Z2Pos.id by reflexivity.
      rewrite (top_split (e + 1)) by lia.
      replace (e + 1 + 1074) with (e + 1074 + 1) by lia.
      rewrite pow2_succ by lia.
      assert (2 ^ 53 <= 2 ^ (53 + (971 - (e + 1)))) by (apply pow2_le; lia).
      rewrite Z.min_l; nia.
    + assert (Htop : top <= 2 ^ 53 * 2 ^ (e + 1074)).
      { unfold top. rewrite <- pow2_add by lia. apply pow2_le. lia. }
      rewrite Z.min_r; lia.
  - rewrite finish_small by (unfold emin64; lia).
    destruct (Z.leb_spec e 971) as [Hle | Hgt]; cbn [V cond_Zopp].
    + rewrite Z2Pos.id by lia.
      rewrite (top_split e) by lia.
      assert (2 ^ 53 <= 2 ^ (53 + (971 - e))) by (apply pow2_le; lia).
      rewrite Z.min_l; nia.
    + assert (Htop : top <= 2 ^ 52 * 2 ^ (e + 1074)).
      { unfold top. rewrite <- pow2_add by lia. apply pow2_le. lia. }
      rewrite Z.min_r; [reflexivity|]. specialize (Hn ltac:(lia)). nia.
Qed.

(** *** Rounding a mantissa *)

Lemma rne_cases A D : 0 <= A -> 0 < D ->
  (rne A D = A / D /\ (2 * (A mod D) < D \/ (2 * (A mod D) = D /\ Z.even (A / D) = true))) \/
  (rne A D = A / D + 1 /\ (D < 2 * (A mod D) \/ (2 * (A mod D) = D /\ Z.even (A / D) = false))).
Proof.
  intros HA HD. unfold rne, loc_of.
  pose proof (Z.mod_pos_bound A D HD) as Hr.
  destruct (Z.eqb_spec (A mod D) 0) as [H0 | H0]; cbn [round_nearest_even].
  - left. split; [reflexivity | left; lia].
  - destruct (Z.compare_spec (2 * (A mod D)) D) as [Hc | Hc | Hc]; cbn [round_nearest_even].
    + destruct (Z.even (A / D)) eqn:Hev; [left | right]; split; auto.
    + left; split; auto.
    + right; split; auto.
Qed.

Lemma rne_bounds A D : 0 <= A -> 0 < D -> A / D <= rne A D <= A / D + 1.
Proof. intros HA HD. destruct (rne_cases A D HA HD) as [[-> _] | [-> _]]; lia. Qed.

Lemma div_le_cross a b c d : 0 <= a -> 0 < b -> 0 < d -> a * d <= c * b -> a / b <= c / d.
Proof.
  intros Ha Hb Hd H.
  apply Z.div_le_lower_bound; [lia|].
  pose proof (Z.mul_div_le a b Hb).
  assert (b * (d * (a / b)) <= b * c) by nia.
  nia.
Qed.

(** Rounding to nearest even is monotone on fractions. *)
Lemma rne_mono A1 D1 A2 D2 : 0 <= A1 -> 0 <= A2 -> 0 < D1 -> 0 < D2 ->
  A1 * D2 <= A2 * D1 -> rne A1 D1 <= rne A2 D2.
Proof.
  intros HA1 HA2 HD1 HD2 H.
  pose proof (div_le_cross A1 D1 A2 D2 HA1 HD1 HD2 H) as Hm.
  pose proof (rne_bounds A1 D1 HA1 HD1) as B1.
  pose proof (rne_bounds A2 D2 HA2 HD2) as B2.
  destruct (Z.eq_dec (A1 / D1) (A2 / D2)) as [Heq | Hne]; [| lia].
  pose proof (Z.div_mod A1 D1 ltac:(lia)) as E1.
  pose proof (Z.div_mod A2 D2 ltac:(lia)) as E2.
  pose proof (Z.mod_pos_bound A1 D1 HD1) as R1.
  pose proof (Z.mod_pos_bound A2 D2 HD2) as R2.
  assert (Hr : (A1 mod D1) * D2 <= (A2 mod D2) * D1).
  { rewrite Heq in E1. nia. }
  destruct (rne_cases A1 D1 HA1 HD1) as [[-> _] | [-> C1]]; [lia|].
  destruct (rne_cases A2 D2 HA2 HD2) as [[-> C2] | [-> _]]; [| lia].
  exfalso. rewrite Heq in C1.
  destruct C1 as [C1 | [C1 P1]], C2 as [C2 | [C2 P2]]; try nia.
  congruence.
Qed.


(** ** Rounding is monotone *)
(** The mantissa kept at the canonical exponent has at most 53 bits, and all
    of them unless the exponent is the smallest one *)
Lemma cexp_mantissa A N E : 0 < N -> 0 <= A -> E <= cexp A N E ->
  A / (N * 2 ^ (cexp A N E - E)) < 2 ^ 53 /\
  (emin64 < cexp A N E -> 2 ^ 52 <= A / (N * 2 ^ (cexp A N E - E))).
Proof.
  intros HN HA HE. unfold cexp in *. rewrite fexp64_eq in *. unfold emin64.
  set (q := A / N) in *.
  assert (Hq : 0 <= q) by (apply Z.div_pos; lia).
  set (k := Z.max (Zdigits2 q + E - 53) (-1074) - E) in *.
  assert (Hk : 0 <= k) by lia.
  assert (HP : 0 < 2 ^ k) by (apply pow2_gt0; lia).
  rewrite <- Z.div_div by lia. fold q.
  destruct (Z.eq_dec q 0) as [Hq0 | Hq0].
  - rewrite Hq0 in *. cbn [Zdigits2] in *. rewrite Z.div_0_l by lia.
    split; [reflexivity | lia].
  - assert (Hq' : 0 < q) by lia.
    pose proof (Zdigits2_bounds q Hq') as [B1 B2].
    pose proof (Zdigits2_pos q Hq') as Hd.
    split.
    + apply Z.div_lt_upper_bound; [lia|].
      assert (2 ^ Zdigits2 q <= 2 ^ (k + 53)) by (apply pow2_le; lia).
      rewrite pow2_add in H by lia. lia.
    + intros Hn. apply Z.div_le_lower_bound; [lia|].
      assert (Zdigits2 q - 1 = k + 52) by lia.
      rewrite H in B1. rewrite pow2_add in B1 by lia. lia.
Qed.

(** Rounding is monotone across exponents. *)
Lemma canon_mono A1 D1 e1 A2 D2 e2 :
  0 <= A1 -> 0 <= A2 -> 0 < D1 -> 0 < D2 -> emin64 <= e1 -> emin64 <= e2 ->
  A1 / D1 < 2 ^ 53 -> A2 / D2 < 2 ^ 53 ->
  (emin64 < e1 -> 2 ^ 52 <= A1 / D1) -> (emin64 < e2 -> 2 ^ 52 <= A2 / D2) ->
  A1 * 2 ^ (e1 + 1074) * D2 <= A2 * 2 ^ (e2 + 1074) * D1 ->
  rne A1 D1 * 2 ^ (e1 + 1074) <= rne A2 D2 * 2 ^ (e2 + 1074).
Proof.
  unfold emin64. intros HA1 HA2 HD1 HD2 He1 He2 U1 U2 L1 L2 H.
  assert (P1 : 0 < 2 ^ (e1 + 1074)) by (apply pow2_gt0; lia).
  assert (P2 : 0 < 2 ^ (e2 + 1074)) by (apply pow2_gt0; lia).
  assert (E53 : 2 ^ 53 = 2 * 2 ^ 52) by reflexivity.
  assert (P52 : 0 < 2 ^ 52) by reflexivity.
  pose proof (rne_bounds A1 D1 HA1 HD1) as B1.
  pose proof (rne_bounds A2 D2 HA2 HD2) as B2.
  pose proof (Z.div_mod A1 D1 ltac:(lia)) as Q1.
  pose proof (Z.div_mod A2 D2 ltac:(lia)) as Q2.
  pose proof (Z.mod_pos_bound A1 D1 HD1) as R1.
  pose proof (Z.mod_pos_bound A2 D2 HD2) as R2.
  destruct (Z.lt_trichotomy e1 e2) as [Hlt | [Heq | Hgt]].
  - (* e1 < e2 *)
    specialize (L2 ltac:(lia)).
    assert (2 * 2 ^ (e1 + 1074) <= 2 ^ (e2 + 1074)).
    { rewrite <- pow2_succ by lia. apply pow2_le. lia. }
    assert (rne A1 D1 <= 2 ^ 53) by lia.
    assert (2 ^ 52 <= rne A2 D2) by lia.
    apply Z.le_trans with (2 ^ 53 * 2 ^ (e1 + 1074)); [nia|].
    apply Z.le_trans with (2 ^ 52 * 2 ^ (e2 + 1074)); nia.
  - subst e2. apply Z.mul_le_mono_nonneg_r; [lia|].
    apply rne_mono; try assumption. nia.
  - exfalso. specialize (L1 ltac:(lia)).
    assert (2 * 2 ^ (e2 + 1074) <= 2 ^ (e1 + 1074)).
    { rewrite <- pow2_succ by lia. apply pow2_le. lia. }
    assert (HA2' : A2 < 2 ^ 53 * D2) by nia.
    assert (HA1' : 2 ^ 52 * D1 <= A1) by nia.
    assert (A2 * 2 ^ (e2 + 1074) * D1 < 2 ^ 53 * D2 * 2 ^ (e2 + 1074) * D1).
    { apply Z.mul_lt_mono_pos_r; [lia|]. apply Z.mul_lt_mono_pos_r; lia. }
    assert (2 ^ 52 * D1 * (2 * 2 ^ (e2 + 1074)) * D2 <= A1 * 2 ^ (e1 + 1074) * D2).
    { apply Z.mul_le_mono_nonneg_r; [lia|]. apply Z.mul_le_mono_nonneg; lia. }
    nia.
Qed.


Lemma cexp_ge A N E : emin64 <= cexp A N E.
Proof. apply fexp64_ge. Qed.

(** The value [binary_round_aux] returns. *)
Lemma bra_V A N E : 0 < N -> 0 <= A -> E <= cexp A N E ->
  V (binary_round_aux F64.prec F64.emax false (A / N) E (loc_of (A mod N) N)) = RV A N E.
Proof.
  intros HN HA HE. rewrite bra_located by assumption.
  pose proof (cexp_mantissa A N E HN HA HE) as [U L].
  assert (HD : 0 < N * 2 ^ (cexp A N E - E)).
  { apply Z.mul_pos_pos; [lia | apply pow2_gt0; lia]. }
  pose proof (rne_bounds A _ HA HD) as B.
  assert (0 <= A / (N * 2 ^ (cexp A N E - E))) by (apply Z.div_pos; lia).
  unfold RV. apply finish_V.
  - lia.
  - apply cexp_ge.
  - intros Hn. specialize (L Hn). lia.
Qed.

Lemma RV_nonneg A N E : 0 < N -> 0 <= A -> E <= cexp A N E -> 0 <= RV A N E.
Proof.
  intros HN HA HE. unfold RV.
  assert (HD : 0 < N * 2 ^ (cexp A N E - E)).
  { apply Z.mul_pos_pos; [lia | apply pow2_gt0; lia]. }
  pose proof (rne_bounds A _ HA HD) as B.
  assert (0 <= A / (N * 2 ^ (cexp A N E - E))) by (apply Z.div_pos; lia).
  pose proof (cexp_ge A N E). unfold emin64 in *.
  assert (0 < 2 ^ (cexp A N E + 1074)) by (apply pow2_gt0; lia).
  pose proof top_pos. apply Z.min_glb; nia.
Qed.

Lemma RV_le_top A N E : RV A N E <= top.
Proof. unfold RV. apply Z.le_min_r. Qed.


Lemma sle_shift A1 E1 A2 E2 K : K <= E1 -> K <= E2 ->
  (sle A1 E1 A2 E2 <-> A1 * 2 ^ (E1 - K) <= A2 * 2 ^ (E2 - K)).
Proof.
  intros H1 H2. unfold sle.
  set (m := Z.min E1 E2).
  assert (Hm : K <= m) by (unfold m; lia).
  assert (Hm1 : m <= E1) by (unfold m; lia).
  assert (Hm2 : m <= E2) by (unfold m; lia).
  replace (E1 - K) with ((E1 - m) + (m - K)) by lia.
  replace (E2 - K) with ((E2 - m) + (m - K)) by lia.
  rewrite !pow2_add by lia.
  assert (0 < 2 ^ (m - K)) by (apply pow2_gt0; lia).
  split; intros H0; nia.
Qed.

(** Rounding is monotone: a smaller input never rounds to a larger value. *)
Lemma RV_mono N A1 E1 A2 E2 : 0 < N -> 0 <= A1 -> 0 <= A2 ->
  E1 <= cexp A1 N E1 -> E2 <= cexp A2 N E2 ->
  sle A1 E1 A2 E2 -> RV A1 N E1 <= RV A2 N E2.
Proof.
  intros HN HA1 HA2 F1 F2 H. unfold RV.
  apply Z.min_le_compat_r.
  pose proof (cexp_mantissa A1 N E1 HN HA1 F1) as [U1 L1].
  pose proof (cexp_mantissa A2 N E2 HN HA2 F2) as [U2 L2].
  pose proof (cexp_ge A1 N E1) as G1. pose proof (cexp_ge A2 N E2) as G2.
  set (e1 := cexp A1 N E1) in *. set (e2 := cexp A2 N E2) in *.
  assert (K1 : 0 < 2 ^ (e1 - E1)) by (apply pow2_gt0; lia).
  assert (K2 : 0 < 2 ^ (e2 - E2)) by (apply pow2_gt0; lia).
  apply canon_mono; try assumption; try nia.
  unfold emin64 in *.
  (* A1 * 2^(e1+1074) * (N * 2^(e2-E2)) <= A2 * 2^(e2+1074) * (N * 2^(e1-E1)) *)
  set (K := Z.min E1 E2).
  assert (HK1 : K <= E1) by (unfold K; lia).
  assert (HK2 : K <= E2) by (unfold K; lia).
  unfold sle in H. fold K in H.
  set (c := e1 + 1074 + (e2 - E2) + (e1 - E1) - (E1 - K)).
  assert (e1 + 1074 + (e2 - E2) = (E1 - K) + (e1 + e2 + 1074 - E1 - E2 + K)) by lia.
  assert (e2 + 1074 + (e1 - E1) = (E2 - K) + (e1 + e2 + 1074 - E1 - E2 + K)) by lia.
  assert (Hc : 0 <= e1 + e2 + 1074 - E1 - E2 + K) by (unfold K; lia).
  assert (0 < 2 ^ (e1 + e2 + 1074 - E1 - E2 + K)) by (apply pow2_gt0; lia).
  replace (A1 * 2 ^ (e1 + 1074) * (N * 2 ^ (e2 - E2)))
    with (N * (A1 * 2 ^ (e1 + 1074 + (e2 - E2)))) by (rewrite pow2_add by lia; ring).
  replace (A2 * 2 ^ (e2 + 1074) * (N * 2 ^ (e1 - E1)))
    with (N * (A2 * 2 ^ (e2 + 1074 + (e1 - E1)))) by (rewrite pow2_add by lia; ring).
  rewrite H0, H1. rewrite (pow2_add (E1 - K)), (pow2_add (E2 - K)) by lia.
  apply Z.mul_le_mono_nonneg_l; [lia|].
  rewrite !Z.mul_assoc. apply Z.mul_le_mono_nonneg_r; [lia | exact H].
Qed.


(** ** What [SFdiv] rounds *)
Lemma new_location_loc_of n r : 0 < n -> 0 <= r < n -> new_location n r = loc_of r n.
Proof.
  intros Hn Hr. unfold new_location, new_location_even, new_location_odd, loc_of.
  destruct (Z.even n) eqn:Hev; [reflexivity|].
  destruct (Z.eqb_spec r 0); [reflexivity|]. f_equal.
  assert (Hodd : Z.odd n = true) by (rewrite <- Z.negb_even, Hev; reflexivity).
  apply Z.odd_spec in Hodd. destruct Hodd as [h Hh].
  destruct (Z.compare_spec (2 * r + 1) n), (Z.compare_spec (2 * r) n); try reflexivity; lia.
Qed.

Lemma fexp64_mono a b : a <= b -> fexp64 a <= fexp64 b.
Proof. intros. rewrite !fexp64_eq. lia. Qed.

Lemma Zdigits2_ge m k : 0 <= k -> 2 ^ k <= m -> k + 1 <= Zdigits2 m.
Proof.
  intros Hk H. assert (Hp := pow2_gt0 k Hk).
  destruct (Z.le_gt_cases (k + 1) (Zdigits2 m)) as [|Hlt]; [assumption|].
  assert (Zdigits2 m <= k) by lia.
  apply Zdigits2_le_iff in H0; lia.
Qed.

Lemma div_shift_nonneg mx my ex ey : 0 <= ex - ey - div_exp mx my ex ey.
Proof. unfold div_exp. lia. Qed.

Lemma div_num_pos mx my ex ey : 0 < div_num mx my ex ey.
Proof.
  unfold div_num. pose proof (div_shift_nonneg mx my ex ey).
  apply Z.mul_pos_pos; [lia | apply pow2_gt0; assumption].
Qed.

Lemma div_core_eq mx my ex ey :
  SFdiv_core_binary F64.prec F64.emax (Zpos mx) ex (Zpos my) ey =
  (div_num mx my ex ey / Zpos my, div_exp mx my ex ey,
   loc_of (div_num mx my ex ey mod Zpos my) (Zpos my)).
Proof.
  unfold SFdiv_core_binary. fold fexp64. fold (div_exp mx my ex ey).
  pose proof (div_shift_nonneg mx my ex ey) as Hs.
  assert (Hm : match ex - ey - div_exp mx my ex ey with
               | Z0 => Zpos mx
               | Zpos _ => Z.shiftl (Zpos mx) (ex - ey - div_exp mx my ex ey)
               | Zneg _ => 0
               end = div_num mx my ex ey).
  { unfold div_num. destruct (ex - ey - div_exp mx my ex ey) eqn:Hk; try lia.
    rewrite Z.shiftl_mul_pow2 by lia. reflexivity. }
  rewrite Hm.
  assert (Hq : Z.div_eucl (div_num mx my ex ey) (Zpos my) =
               (div_num mx my ex ey / Zpos my, div_num mx my ex ey mod Zpos my)).
  { unfold Z.div, Z.modulo. destruct (Z.div_eucl (div_num mx my ex ey) (Zpos my)).
    reflexivity. }
  rewrite Hq. rewrite new_location_loc_of; [reflexivity | lia |].
  apply Z.mod_pos_bound. lia.
Qed.

Lemma div_fine mx my ex ey :
  div_exp mx my ex ey <= cexp (div_num mx my ex ey) (Zpos my) (div_exp mx my ex ey).
Proof.
  unfold cexp.
  set (d1 := Zdigits2 (Zpos mx)). set (d2 := Zdigits2 (Zpos my)).
  apply Z.le_trans with (fexp64 (d1 + ex - (d2 + ey))).
  - unfold div_exp. fold d1 d2. lia.
  - apply fexp64_mono.
    pose proof (div_shift_nonneg mx my ex ey) as Hs.
    set (s := ex - ey - div_exp mx my ex ey) in *.
    assert (Hq : 0 <= div_num mx my ex ey / Zpos my)
      by (apply Z.div_pos; [pose proof (div_num_pos mx my ex ey)|]; lia).
    pose proof (Zdigits2_nonneg _ Hq) as Hd.
    destruct (Z.le_gt_cases (d1 - d2 + s) 0) as [Hle | Hgt]; [lia|].
    assert (Hb1 := Zdigits2_bounds (Zpos mx) ltac:(lia)).
    assert (Hb2 := Zdigits2_bounds (Zpos my) ltac:(lia)).
    fold d1 in Hb1. fold d2 in Hb2.
    assert (Hd1 := Zdigits2_pos (Zpos mx) ltac:(lia)). fold d1 in Hd1.
    assert (Hd2 := Zdigits2_pos (Zpos my) ltac:(lia)). fold d2 in Hd2.
    assert (Hlow : 2 ^ (d1 - d2 + s - 1) <= div_num mx my ex ey / Zpos my).
    { apply Z.div_le_lower_bound; [lia|].
      unfold div_num. fold s.
      assert (2 ^ (d1 - d2 + s - 1) * 2 ^ d2 = 2 ^ (d1 - 1) * 2 ^ s).
      { rewrite <- !pow2_add by lia. f_equal. lia. }
      assert (0 < 2 ^ s) by (apply pow2_gt0; lia).
      assert (0 < 2 ^ (d1 - d2 + s - 1)) by (apply pow2_gt0; lia).
      nia. }
    apply Zdigits2_ge in Hlow; lia.
Qed.

(** [SFdiv] on two positive finite numbers rounds their quotient. *)
Lemma div_V mx my ex ey :
  V (SFdiv F64.prec F64.emax (S754_finite false mx ex) (S754_finite false my ey)) =
  RV (div_num mx my ex ey) (Zpos my) (div_exp mx my ex ey).
Proof.
  cbn [SFdiv xorb]. rewrite div_core_eq.
  apply bra_V; [lia | pose proof (div_num_pos mx my ex ey); lia | apply div_fine].
Qed.


(** ** Comparing scaled integers *)
Lemma sle_scale A1 E1 a1 A2 E2 a2 : 0 <= a1 -> 0 <= a2 ->
  (sle (A1 * 2 ^ a1) (E1 - a1) (A2 * 2 ^ a2) (E2 - a2) <-> sle A1 E1 A2 E2).
Proof.
  intros H1 H2.
  set (K := Z.min (E1 - a1) (E2 - a2)).
  rewrite (sle_shift _ _ _ _ K) by (unfold K; lia).
  rewrite (sle_shift A1 E1 A2 E2 K) by (unfold K; lia).
  rewrite <- !Z.mul_assoc, <- !pow2_add by (unfold K; lia).
  replace (a1 + (E1 - a1 - K)) with (E1 - K) by lia.
  replace (a2 + (E2 - a2 - K)) with (E2 - K) by lia.
  reflexivity.
Qed.

Lemma sle_translate A1 E1 A2 E2 c : sle A1 (E1 + c) A2 (E2 + c) <-> sle A1 E1 A2 E2.
Proof.
  unfold sle. rewrite Z.add_min_distr_r.
  replace (E1 + c - (Z.min E1 E2 + c)) with (E1 - Z.min E1 E2) by lia.
  replace (E2 + c - (Z.min E1 E2 + c)) with (E2 - Z.min E1 E2) by lia.
  reflexivity.
Qed.

Lemma sle_units A1 E1 A2 E2 : -1074 <= E1 -> -1074 <= E2 ->
  (sle A1 E1 A2 E2 <-> A1 * 2 ^ (E1 + 1074) <= A2 * 2 ^ (E2 + 1074)).
Proof.
  intros H1 H2. rewrite (sle_shift _ _ _ _ (-1074)) by lia.
  replace (E1 - -1074) with (E1 + 1074) by lia.
  replace (E2 - -1074) with (E2 + 1074) by lia. reflexivity.
Qed.

Lemma sle_mul_r A1 E1 A2 E2 c : 0 < c ->
  (sle (A1 * c) E1 (A2 * c) E2 <-> sle A1 E1 A2 E2).
Proof.
  intros Hc. unfold sle.
  assert (0 < 2 ^ (E1 - Z.min E1 E2)) by (apply pow2_gt0; lia).
  assert (0 < 2 ^ (E2 - Z.min E1 E2)) by (apply pow2_gt0; lia).
  split; intros; nia.
Qed.

Lemma sle_refl A E : sle A E A E.
Proof. unfold sle. lia. Qed.

(** *** Division *)

(** Division by a positive number is monotone in the dividend. *)
Lemma div_mono m1 e1 m2 e2 my ey : -1074 <= e1 -> -1074 <= e2 ->
  Zpos m1 * 2 ^ (e1 + 1074) <= Zpos m2 * 2 ^ (e2 + 1074) ->
  V (F64.div (S754_finite false m1 e1) (S754_finite false my ey)) <=
  V (F64.div (S754_finite false m2 e2) (S754_finite false my ey)).
Proof.
  intros H1 H2 H. unfold F64.div. rewrite !div_V.
  apply RV_mono; try apply div_fine; try (pose proof (div_num_pos m1 my e1 ey);
    pose proof (div_num_pos m2 my e2 ey); lia).
  unfold div_num.
  replace (div_exp m1 my e1 ey) with ((e1 - ey) - (e1 - ey - div_exp m1 my e1 ey)) at 2 by lia.
  replace (div_exp m2 my e2 ey) with ((e2 - ey) - (e2 - ey - div_exp m2 my e2 ey)) at 2 by lia.
  apply sle_scale; try apply div_shift_nonneg.
  replace (e1 - ey) with (e1 + (- ey)) by lia.
  replace (e2 - ey) with (e2 + (- ey)) by lia.
  apply sle_translate. apply sle_units; assumption.
Qed.


(** [d / d] is exactly one. *)
Lemma div_diag m e :
  F64.div (S754_finite false m e) (S754_finite false m e) = f64_one.
Proof.
  unfold F64.div. cbn [SFdiv xorb]. rewrite div_core_eq.
  assert (He : div_exp m m e e = -53).
  { unfold div_exp. rewrite !Z.sub_diag. reflexivity. }
  assert (Hn : div_num m m e e = 2 ^ 53 * Zpos m).
  { unfold div_num. rewrite He. replace (e - e - -53) with 53 by lia. lia. }
  rewrite He, Hn. rewrite Z.div_mul by lia. rewrite Z.mod_mul by lia.
  reflexivity.
Qed.

(** *** Multiplication *)

Lemma bra_V_exact A E : 0 <= A -> E <= cexp A 1 E ->
  V (binary_round_aux F64.prec F64.emax false A E loc_Exact) = RV A 1 E.
Proof.
  intros HA HE. rewrite <- bra_V by (assumption || lia).
  rewrite Z.div_1_r, Z.mod_1_r. reflexivity.
Qed.

Lemma bra_exact_eq s A E : 0 <= A -> E <= cexp A 1 E ->
  binary_round_aux F64.prec F64.emax s A E loc_Exact =
  finish s (rne A (2 ^ (cexp A 1 E - E))) (cexp A 1 E).
Proof.
  intros HA HE. rewrite <- (Z.mul_1_l (2 ^ _)).
  rewrite <- bra_located by (assumption || lia).
  rewrite Z.div_1_r, Z.mod_1_r. reflexivity.
Qed.

Lemma mul_fine m mc e ec : 2 ^ 52 <= Zpos mc ->
  e + ec <= cexp (Zpos m * Zpos mc) 1 (e + ec).
Proof.
  intros Hc. unfold cexp. rewrite Z.div_1_r, fexp64_eq.
  assert (52 + 1 <= Zdigits2 (Zpos m * Zpos mc)).
  { apply Zdigits2_ge; [lia|]. nia. }
  lia.
Qed.

Lemma mul_V m e mc ec : 2 ^ 52 <= Zpos mc ->
  V (F64.mul (S754_finite false m e) (S754_finite false mc ec)) =
  RV (Zpos m * Zpos mc) 1 (e + ec).
Proof.
  intros Hc. unfold F64.mul. cbn [SFmul xorb]. rewrite Pos2Z.inj_mul.
  apply bra_V_exact; [lia | apply mul_fine; assumption].
Qed.

(** Multiplication by a positive normal number is monotone. *)
Lemma mul_mono m1 e1 m2 e2 mc ec : 2 ^ 52 <= Zpos mc -> -1074 <= e1 -> -1074 <= e2 ->
  Zpos m1 * 2 ^ (e1 + 1074) <= Zpos m2 * 2 ^ (e2 + 1074) ->
  V (F64.mul (S754_finite false m1 e1) (S754_finite false mc ec)) <=
  V (F64.mul (S754_finite false m2 e2) (S754_finite false mc ec)).
Proof.
  intros Hc H1 H2 H. rewrite !mul_V by assumption.
  apply RV_mono; try lia; try (apply mul_fine; assumption).
  apply sle_mul_r; [lia|]. apply sle_translate. apply sle_units; assumption.
Qed.


(** ** [binary_round] and [binary_normalize] *)
Lemma Zdigits2_shift m k : 0 < m -> 0 <= k -> Zdigits2 (m * 2 ^ k) = Zdigits2 m + k.
Proof.
  intros Hm Hk. assert (HP := pow2_gt0 k Hk).
  pose proof (Zdigits2_bounds m Hm) as [B1 B2].
  pose proof (Zdigits2_pos m Hm) as Hd.
  apply Zdigits2_unique; [nia|].
  replace (Zdigits2 m + k - 1) with (Zdigits2 m - 1 + k) by lia.
  rewrite !pow2_add by lia. nia.
Qed.

Lemma iter_xO m d : Zpos (Pos.iter xO m d) = Zpos m * 2 ^ Zpos d.
Proof.
  induction d as [|d IH] using Pos.peano_ind.
  - cbn [Pos.iter]. rewrite Pos2Z.inj_xO. change (2 ^ 1) with 2. lia.
  - rewrite Pos.iter_succ, Pos2Z.inj_xO, IH, Pos2Z.inj_succ.
    replace (Z.succ (Zpos d)) with (Zpos d + 1) by lia.
    rewrite pow2_succ by lia. lia.
Qed.

Lemma shl_align_spec mx ex ex' :
  shl_align mx ex ex' = (Z.to_pos (Zpos mx * 2 ^ (ex - Z.min ex ex')), Z.min ex ex').
Proof.
  unfold shl_align. destruct (ex' - ex) eqn:Hk.
  - rewrite Z.min_l by lia. rewrite Z.sub_diag.
    change (2 ^ 0) with 1. rewrite Z.mul_1_r. reflexivity.
  - rewrite Z.min_l by lia. rewrite Z.sub_diag.
    change (2 ^ 0) with 1. rewrite Z.mul_1_r. reflexivity.
  - rewrite Z.min_r by lia. replace (ex - ex') with (Zpos p) by lia.
    rewrite <- iter_xO. reflexivity.
Qed.


Lemma rnd_num_pos A E : 0 < A -> 0 < rnd_num A E.
Proof.
  intros HA. unfold rnd_num. apply Z.mul_pos_pos; [assumption|].
  apply pow2_gt0. unfold rnd_exp. lia.
Qed.

Lemma binary_round_eq s mx ex :
  binary_round F64.prec F64.emax s mx ex =
  binary_round_aux F64.prec F64.emax s (rnd_num (Zpos mx) ex) (rnd_exp (Zpos mx) ex) loc_Exact.
Proof.
  unfold binary_round. fold fexp64. rewrite shl_align_spec.
  change (Zpos (digits2_pos mx)) with (Zdigits2 (Zpos mx)).
  fold (rnd_exp (Zpos mx) ex). fold (rnd_num (Zpos mx) ex).
  rewrite Z2Pos.id by (apply rnd_num_pos; lia). reflexivity.
Qed.

Lemma rnd_cexp A E : 0 < A -> cexp (rnd_num A E) 1 (rnd_exp A E) = fexp64 (Zdigits2 A + E).
Proof.
  intros HA. unfold cexp. rewrite Z.div_1_r. unfold rnd_num.
  rewrite Zdigits2_shift by (unfold rnd_exp; lia). f_equal. lia.
Qed.

Lemma rnd_fine A E : 0 < A -> rnd_exp A E <= cexp (rnd_num A E) 1 (rnd_exp A E).
Proof. intros HA. rewrite rnd_cexp by assumption. unfold rnd_exp. lia. Qed.

(** [binary_round] rounds [m * 2^e]. *)
Lemma binary_round_V mx ex :
  V (binary_round F64.prec F64.emax false mx ex) =
  RV (rnd_num (Zpos mx) ex) 1 (rnd_exp (Zpos mx) ex).
Proof.
  rewrite binary_round_eq. apply bra_V_exact.
  - pose proof (rnd_num_pos (Zpos mx) ex). lia.
  - apply rnd_fine. lia.
Qed.


Lemma bn_nonneg_V z e : 0 <= z -> 0 <= V (bn z e).
Proof.
  intros Hz. unfold bn, binary_normalize. destruct z as [|m|m]; try lia.
  - cbn. lia.
  - rewrite binary_round_V. apply RV_nonneg; try lia.
    + pose proof (rnd_num_pos (Zpos m) e). lia.
    + apply rnd_fine. lia.
Qed.

(** [binary_normalize] is monotone on the integers that are not negative. *)
Lemma bn_mono z1 e1 z2 e2 : 0 <= z1 -> 0 <= z2 -> sle z1 e1 z2 e2 ->
  V (bn z1 e1) <= V (bn z2 e2).
Proof.
  intros H1 H2 H.
  destruct z1 as [|m1|m1]; try lia.
  { apply (bn_nonneg_V z2 e2 H2). }
  destruct z2 as [|m2|m2]; try lia.
  { exfalso. unfold sle in H.
    assert (0 < 2 ^ (e1 - Z.min e1 e2)) by (apply pow2_gt0; lia). nia. }
  unfold bn, binary_normalize. rewrite !binary_round_V.
  apply RV_mono; try lia.
  - pose proof (rnd_num_pos (Zpos m1) e1). lia.
  - pose proof (rnd_num_pos (Zpos m2) e2). lia.
  - apply rnd_fine; lia.
  - apply rnd_fine; lia.
  - unfold rnd_num.
    replace (rnd_exp (Zpos m1) e1) with (e1 - (e1 - rnd_exp (Zpos m1) e1)) at 2 by lia.
    replace (rnd_exp (Zpos m2) e2) with (e2 - (e2 - rnd_exp (Zpos m2) e2)) at 2 by lia.
    apply sle_scale; try (unfold rnd_exp; lia). assumption.
Qed.

(** *** Representable values are not changed *)

Lemma valid_finite_inv s m e : F64.valid (S754_finite s m e) = true ->
  fexp64 (Zdigits2 (Zpos m) + e) = e /\ e <= 971.
Proof.
  unfold F64.valid, valid_binary, bounded, canonical_mantissa. fold fexp64.
  intros H. apply andb_true_iff in H. destruct H as [H1 H2].
  apply Z.eqb_eq in H1. apply Z.leb_le in H2.
  change (Zpos (digits2_pos m)) with (Zdigits2 (Zpos m)) in H1.
  split; [assumption|]. exact H2.
Qed.

Lemma valid_finite_bounds s m e : F64.valid (S754_finite s m e) = true ->
  -1074 <= e <= 971 /\ Zpos m < 2 ^ 53 /\ (-1074 < e -> 2 ^ 52 <= Zpos m).
Proof.
  intros H. apply valid_finite_inv in H. destruct H as [H1 H2].
  rewrite fexp64_eq in H1.
  pose proof (Zdigits2_bounds (Zpos m) ltac:(lia)) as [B1 B2].
  split; [lia|]. split.
  - apply Zdigits2_le_iff; lia.
  - intros He. replace (Zdigits2 (Zpos m)) with 53 in B1 by lia. exact B1.
Qed.

(** A value that a representable number already has is returned as that
    number. *)
Lemma binary_round_exact s A E m e : 0 < A ->
  F64.valid (S754_finite s m e) = true ->
  A * 2 ^ (E - Z.min E e) = Zpos m * 2 ^ (e - Z.min E e) ->
  binary_round F64.prec F64.emax s (Z.to_pos A) E = S754_finite s m e.
Proof.
  intros HA Hv Heq.
  pose proof (valid_finite_inv s m e Hv) as [Hc Hb].
  pose proof (valid_finite_bounds s m e Hv) as [Hr [Hm _]].
  rewrite binary_round_eq. rewrite Z2Pos.id by assumption.
  assert (Hdig : Zdigits2 A + E = Zdigits2 (Zpos m) + e).
  { assert (D1 := Zdigits2_shift A (E - Z.min E e) HA ltac:(lia)).
    assert (D2 := Zdigits2_shift (Zpos m) (e - Z.min E e) ltac:(lia) ltac:(lia)).
    rewrite Heq in D1. lia. }
  assert (Hre : rnd_exp A E = Z.min E e).
  { unfold rnd_exp. rewrite Hdig, Hc. reflexivity. }
  rewrite bra_exact_eq;
    [| pose proof (rnd_num_pos A E HA); lia | apply rnd_fine; assumption].
  rewrite rnd_cexp by assumption. rewrite Hdig, Hc, Hre.
  assert (Hn : rnd_num A E = Zpos m * 2 ^ (e - Z.min E e)).
  { unfold rnd_num. rewrite Hre. exact Heq. }
  assert (HP : 0 < 2 ^ (e - Z.min E e)) by (apply pow2_gt0; lia).
  assert (Hr1 : rne (rnd_num A E) (2 ^ (e - Z.min E e)) = Zpos m).
  { unfold rne. rewrite Hn. rewrite Z.div_mul by lia. rewrite Z.mod_mul by lia.
    reflexivity. }
  rewrite Hr1. rewrite finish_small by (unfold emin64; lia).
  destruct (Z.leb_spec e 971); [reflexivity | lia].
Qed.

Lemma bn_exact m e : F64.valid (S754_finite false m e) = true ->
  bn (Zpos m * 2 ^ (e + 1074)) (-1074) = S754_finite false m e.
Proof.
  intros Hv. pose proof (valid_finite_bounds false m e Hv) as [Hr _].
  assert (HP : 0 < 2 ^ (e + 1074)) by (apply pow2_gt0; lia).
  unfold bn, binary_normalize.
  destruct (Zpos m * 2 ^ (e + 1074)) as [|q|q] eqn:Hq; try lia.
  rewrite <- (Pos2Z.id q) at 1. rewrite <- Hq.
  replace q with (Z.to_pos (Zpos m * 2 ^ (e + 1074))) by (rewrite Hq; reflexivity).
  apply binary_round_exact; [lia | assumption |].
  rewrite Z.min_l by lia. rewrite Z.sub_diag. change (2 ^ 0) with 1.
  replace (e - -1074) with (e + 1074) by lia. lia.
Qed.


(** ** Integers below [2^53] *)
Lemma valid_finite_intro s m e :
  fexp64 (Zdigits2 (Zpos m) + e) = e -> e <= 971 -> F64.valid (S754_finite s m e) = true.
Proof.
  intros H1 H2. unfold F64.valid, valid_binary, bounded, canonical_mantissa. fold fexp64.
  change (Zpos (digits2_pos m)) with (Zdigits2 (Zpos m)).
  apply andb_true_iff. split; [apply Z.eqb_eq; assumption | apply Z.leb_le; exact H2].
Qed.


Lemma int_float_valid s z : 0 < z < 2 ^ 53 ->
  F64.valid (S754_finite s (int_mant z) (int_exp z)) = true /\
  Zpos (int_mant z) = z * 2 ^ (53 - Zdigits2 z).
Proof.
  intros Hz. unfold int_mant, int_exp.
  assert (Hd : Zdigits2 z <= 53) by (apply Zdigits2_le_iff; lia).
  pose proof (Zdigits2_pos z ltac:(lia)) as Hd0.
  assert (HP : 0 < 2 ^ (53 - Zdigits2 z)) by (apply pow2_gt0; lia).
  assert (Hid : Zpos (Z.to_pos (z * 2 ^ (53 - Zdigits2 z))) = z * 2 ^ (53 - Zdigits2 z))
    by (apply Z2Pos.id; nia).
  split; [|exact Hid].
  apply valid_finite_intro; [|lia].
  rewrite Hid, Zdigits2_shift by lia. rewrite fexp64_eq. lia.
Qed.

Lemma binary_round_int s z : 0 < z < 2 ^ 53 ->
  binary_round F64.prec F64.emax s (Z.to_pos z) 0 = S754_finite s (int_mant z) (int_exp z).
Proof.
  intros Hz. destruct (int_float_valid s z Hz) as [Hv Hm].
  assert (Hd : Zdigits2 z <= 53) by (apply Zdigits2_le_iff; lia).
  apply binary_round_exact; [lia | assumption |].
  rewrite Hm. unfold int_exp. rewrite Z.min_r by lia.
  rewrite Z.sub_diag. change (2 ^ 0) with 1.
  replace (0 - (Zdigits2 z - 53)) with (53 - Zdigits2 z) by lia. lia.
Qed.

Lemma of_Z_pos z : 0 < z < 2 ^ 53 ->
  F64.of_Z z = S754_finite false (int_mant z) (int_exp z).
Proof.
  intros Hz. unfold F64.of_Z, binary_normalize. destruct z as [|q|q]; try lia.
  apply (binary_round_int false (Zpos q) Hz).
Qed.

Lemma of_Z_neg z : 0 < z < 2 ^ 53 ->
  F64.of_Z (- z) = S754_finite true (int_mant z) (int_exp z).
Proof.
  intros Hz. unfold F64.of_Z, binary_normalize. destruct z as [|q|q]; try lia.
  cbn [Z.opp]. apply (binary_round_int true (Zpos q) Hz).
Qed.

Lemma int_float_V s z : 0 < z < 2 ^ 53 ->
  V (S754_finite s (int_mant z) (int_exp z)) = cond_Zopp s (z * quantum).
Proof.
  intros Hz. destruct (int_float_valid s z Hz) as [_ Hm].
  assert (Hd : Zdigits2 z <= 53) by (apply Zdigits2_le_iff; lia).
  pose proof (Zdigits2_pos z ltac:(lia)) as Hd0.
  cbn [V]. f_equal. rewrite Hm. unfold int_exp, quantum.
  rewrite <- Z.mul_assoc, <- pow2_add by lia. do 2 f_equal. lia.
Qed.

(** Integers below [2^53] in magnitude convert exactly. *)
Lemma of_Z_exact z : - 2 ^ 53 < z < 2 ^ 53 ->
  V (F64.of_Z z) = z * quantum /\ F64.valid (F64.of_Z z) = true
  /\ F64.is_finite (F64.of_Z z) = true.
Proof.
  intros Hz. destruct (Z.lt_trichotomy z 0) as [Hneg | [-> | Hpos]].
  - replace z with (- (- z)) by lia.
    rewrite of_Z_neg by lia. rewrite int_float_V by lia.
    destruct (int_float_valid true (- z) ltac:(lia)) as [Hv _].
    cbn [cond_Zopp F64.is_finite]. repeat split; try assumption. lia.
  - cbn. auto.
  - rewrite of_Z_pos by lia. rewrite int_float_V by lia.
    destruct (int_float_valid false z ltac:(lia)) as [Hv _].
    cbn [cond_Zopp F64.is_finite]. repeat split; assumption.
Qed.

(** *** Comparison of representable values *)

Lemma finite_V_lt_top s m e : F64.valid (S754_finite s m e) = true ->
  0 < Zpos m * 2 ^ (e + 1074) < top.
Proof.
  intros Hv. pose proof (valid_finite_bounds s m e Hv) as [Hr [Hm _]].
  assert (HP : 0 < 2 ^ (e + 1074)) by (apply pow2_gt0; lia).
  split; [nia|].
  rewrite (top_split e) by lia.
  assert (2 ^ 53 <= 2 ^ (53 + (971 - e))) by (apply pow2_le; lia).
  nia.
Qed.

Lemma canonical_exp_lt m1 e1 m2 e2 s1 s2 :
  F64.valid (S754_finite s1 m1 e1) = true -> F64.valid (S754_finite s2 m2 e2) = true ->
  e1 < e2 -> Zpos m1 * 2 ^ (e1 + 1074) < Zpos m2 * 2 ^ (e2 + 1074).
Proof.
  intros V1 V2 Hlt.
  pose proof (valid_finite_bounds _ _ _ V1) as [R1 [M1 _]].
  pose proof (valid_finite_bounds _ _ _ V2) as [R2 [_ N2]].
  specialize (N2 ltac:(lia)).
  assert (P1 : 0 < 2 ^ (e1 + 1074)) by (apply pow2_gt0; lia).
  assert (2 * 2 ^ (e1 + 1074) <= 2 ^ (e2 + 1074)).
  { rewrite <- pow2_succ by lia. apply pow2_le. lia. }
  assert (E53 : 2 ^ 53 = 2 * 2 ^ 52) by reflexivity.
  apply Z.lt_le_trans with (2 ^ 53 * 2 ^ (e1 + 1074)); [nia|].
  apply Z.le_trans with (2 ^ 52 * 2 ^ (e2 + 1074)); nia.
Qed.

Lemma compare_pos m1 e1 m2 e2 s1 s2 :
  F64.valid (S754_finite s1 m1 e1) = true -> F64.valid (S754_finite s2 m2 e2) = true ->
  match e1 ?= e2 with
  | Lt => Lt
  | Gt => Gt
  | Eq => Pos.compare_cont Eq m1 m2
  end = (Zpos m1 * 2 ^ (e1 + 1074) ?= Zpos m2 * 2 ^ (e2 + 1074)).
Proof.
  intros V1 V2. symmetry.
  destruct (Z.compare_spec e1 e2) as [Heq | Hlt | Hgt].
  - subst e2. pose proof (valid_finite_bounds _ _ _ V1) as [R1 _].
    assert (P1 : 0 < 2 ^ (e1 + 1074)) by (apply pow2_gt0; lia).
    change (Pos.compare_cont Eq m1 m2) with (Zpos m1 ?= Zpos m2).
    destruct (Z.compare_spec (Zpos m1) (Zpos m2)) as [H | H | H].
    + apply Z.compare_eq_iff. rewrite H. reflexivity.
    + apply Z.compare_lt_iff. nia.
    + apply Z.compare_gt_iff. nia.
  - apply Z.compare_lt_iff. eapply canonical_exp_lt; eassumption.
  - apply Z.compare_gt_iff. eapply canonical_exp_lt; eassumption.
Qed.

(** On representable numbers [SFcompare] compares the values. *)
Lemma compare_V x y : F64.valid x = true -> F64.valid y = true ->
  F64.is_nan x = false -> F64.is_nan y = false ->
  SFcompare x y = Some (V x ?= V y).
Proof.
  intros Vx Vy Nx Ny. pose proof top_pos as HT.
  destruct x as [sx | sx | | sx mx ex], y as [sy | sy | | sy my ey];
    try discriminate; cbn [SFcompare V].
  - reflexivity.
  - destruct sy; solve_cmp.
  - pose proof (finite_V_lt_top _ _ _ Vy). destruct sy; solve_cmp.
  - destruct sx; solve_cmp.
  - destruct sx, sy; solve_cmp.
  - pose proof (finite_V_lt_top _ _ _ Vy). destruct sx, sy; solve_cmp.
  - pose proof (finite_V_lt_top _ _ _ Vx). destruct sx; solve_cmp.
  - pose proof (finite_V_lt_top _ _ _ Vx). destruct sx, sy; solve_cmp.
  - pose proof (finite_V_lt_top _ _ _ Vx). pose proof (finite_V_lt_top _ _ _ Vy).
    destruct sx, sy; try solve_cmp; cbn [cond_Zopp]; f_equal.
    + rewrite (Z.compare_opp (Zpos mx * 2 ^ (ex + 1074))).
      rewrite (Z.compare_antisym (Zpos mx * 2 ^ (ex + 1074))).
      rewrite <- (compare_pos _ _ _ _ _ _ Vx Vy).
      destruct (ex ?= ey); reflexivity.
    + apply (compare_pos _ _ _ _ _ _ Vx Vy).
Qed.


(** ** The shape of the results *)
Lemma good_cases x : good x ->
  (exists s, x = S754_zero s) \/
  (exists m e, x = S754_finite false m e) \/
  x = S754_infinity false.
Proof.
  intros (Hv & Hn & Hp). pose proof top_pos.
  destruct x as [s | s | | s m e]; try discriminate.
  - left. eauto.
  - destruct s; cbn [V cond_Zopp] in Hp; [lia | auto].
  - destruct s; [| right; left; eauto].
    pose proof (finite_V_lt_top _ _ _ Hv). cbn [V cond_Zopp] in Hp. lia.
Qed.

Lemma good_zero s : good (S754_zero s).
Proof. repeat split. cbn [V cond_Zopp F64.is_finite]. lia. Qed.

Lemma good_finite m e : F64.valid (S754_finite false m e) = true -> good (S754_finite false m e).
Proof.
  intros Hv. repeat split; [assumption|].
  pose proof (finite_V_lt_top _ _ _ Hv). cbn [V cond_Zopp F64.is_finite]. lia.
Qed.

Lemma good_inf : good (S754_infinity false).
Proof. repeat split. cbn [V cond_Zopp F64.is_finite]. pose proof top_pos. lia. Qed.

Lemma good_finite_iff x : good x -> (F64.is_finite x = true <-> V x < top).
Proof.
  intros Hg. destruct (good_cases x Hg) as [[s ->] | [(m & e & ->) | ->]].
  - cbn [V cond_Zopp F64.is_finite]. pose proof top_pos. intuition lia.
  - destruct Hg as (Hv & _). pose proof (finite_V_lt_top _ _ _ Hv). cbn [V cond_Zopp F64.is_finite] in *. intuition lia.
  - cbn [V cond_Zopp F64.is_finite]. intuition (lia || discriminate).
Qed.

Lemma finish_good R e : 0 <= R <= 2 ^ 53 -> emin64 <= e -> (emin64 < e -> 2 ^ 52 <= R) ->
  good (finish false R e).
Proof.
  intros HR He Hn. unfold emin64 in *.
  destruct (Z.eq_dec R 0) as [-> | HR0].
  { rewrite finish_zero by (unfold emin64; lia). apply good_zero. }
  destruct (Z.eq_dec R (2 ^ 53)) as [-> | HR1].
  - rewrite finish_carry by (unfold emin64; lia).
    destruct (Z.leb_spec (e + 1) 971); [| apply good_inf].
    apply good_finite. apply valid_finite_intro; [|lia].
    rewrite fexp64_eq. change (Zdigits2 (Zpos (Z.to_pos (2 ^ 52)))) with 53. lia.
  - rewrite finish_small by (unfold emin64; lia).
    destruct (Z.leb_spec e 971); [| apply good_inf].
    apply good_finite. apply valid_finite_intro; [|lia].
    rewrite Z2Pos.id by lia. rewrite fexp64_eq.
    assert (Hd : Zdigits2 R <= 53) by (apply Zdigits2_le_iff; lia).
    destruct (Z.eq_dec e (-1074)) as [-> | He'].
    + lia.
    + specialize (Hn ltac:(lia)).
      assert (52 + 1 <= Zdigits2 R) by (apply Zdigits2_ge; lia). lia.
Qed.

Lemma bra_good A N E : 0 < N -> 0 <= A -> E <= cexp A N E ->
  good (binary_round_aux F64.prec F64.emax false (A / N) E (loc_of (A mod N) N)).
Proof.
  intros HN HA HE. rewrite bra_located by assumption.
  pose proof (cexp_mantissa A N E HN HA HE) as [U L].
  assert (HD : 0 < N * 2 ^ (cexp A N E - E)).
  { apply Z.mul_pos_pos; [lia | apply pow2_gt0; lia]. }
  pose proof (rne_bounds A _ HA HD) as B.
  assert (0 <= A / (N * 2 ^ (cexp A N E - E))) by (apply Z.div_pos; lia).
  apply finish_good.
  - lia.
  - apply cexp_ge.
  - intros Hn. specialize (L Hn). lia.
Qed.

Lemma bra_good_exact A E : 0 <= A -> E <= cexp A 1 E ->
  good (binary_round_aux F64.prec F64.emax false A E loc_Exact).
Proof.
  intros HA HE. pose proof (bra_good A 1 E ltac:(lia) HA HE) as H.
  rewrite Z.div_1_r, Z.mod_1_r in H. exact H.
Qed.

Lemma div_good mx ex my ey :
  good (F64.div (S754_finite false mx ex) (S754_finite false my ey)).
Proof.
  unfold F64.div. cbn [SFdiv xorb]. rewrite div_core_eq.
  apply bra_good; [lia | pose proof (div_num_pos mx my ex ey); lia | apply div_fine].
Qed.

Lemma mul_good m e mc ec : 2 ^ 52 <= Zpos mc ->
  good (F64.mul (S754_finite false m e) (S754_finite false mc ec)).
Proof.
  intros Hc. unfold F64.mul. cbn [SFmul xorb]. rewrite Pos2Z.inj_mul.
  apply bra_good_exact; [lia | apply mul_fine; assumption].
Qed.

Lemma bn_good z e : 0 <= z -> good (bn z e).
Proof.
  intros Hz. unfold bn, binary_normalize. destruct z as [|m|m]; try lia.
  - apply good_zero.
  - rewrite binary_round_eq. apply bra_good_exact.
    + pose proof (rnd_num_pos (Zpos m) e). lia.
    + apply rnd_fine. lia.
Qed.


Lemma BNV_mono z1 z2 : 0 <= z1 <= z2 -> BNV z1 <= BNV z2.
Proof.
  intros H. apply bn_mono; try lia. unfold sle. rewrite Z.min_id, Z.sub_diag. lia.
Qed.

Lemma bn_value z e : 0 <= z -> -1074 <= e -> V (bn z e) = BNV (z * 2 ^ (e + 1074)).
Proof.
  intros Hz He. assert (HP : 0 < 2 ^ (e + 1074)) by (apply pow2_gt0; lia).
  assert (Hs : z * 2 ^ (e - -1074) = z * 2 ^ (e + 1074) * 2 ^ (-1074 - -1074)).
  { replace (e - -1074) with (e + 1074) by lia. rewrite Z.sub_diag. lia. }
  apply Z.le_antisymm; apply bn_mono; try nia;
    apply (sle_shift _ _ _ _ (-1074)); try lia.
Qed.

Lemma BNV_exact x : good x -> F64.is_finite x = true -> BNV (V x) = V x.
Proof.
  intros Hg Hf. destruct (good_cases x Hg) as [[s ->] | [(m & e & ->) | ->]];
    try discriminate.
  - reflexivity.
  - destruct Hg as (Hv & _). unfold BNV. cbn [V cond_Zopp]. rewrite bn_exact by assumption.
    reflexivity.
Qed.

Lemma BNV_pos z : 0 < z -> 0 < BNV z.
Proof.
  intros Hz. apply Z.lt_le_trans with (BNV 1); [reflexivity|].
  apply BNV_mono. lia.
Qed.


(** ** Comparison, clipping, subtraction, truncation *)
Lemma ltb_V x y : F64.valid x = true -> F64.valid y = true ->
  F64.is_nan x = false -> F64.is_nan y = false ->
  F64.ltb x y = (V x <? V y).
Proof.
  intros. unfold F64.ltb, SFltb. rewrite compare_V by assumption.
  unfold Z.ltb. destruct (V x ?= V y); reflexivity.
Qed.

Lemma leb_V x y : F64.valid x = true -> F64.valid y = true ->
  F64.is_nan x = false -> F64.is_nan y = false ->
  F64.leb x y = (V x <=? V y).
Proof.
  intros. unfold F64.leb, SFleb. rewrite compare_V by assumption.
  unfold Z.leb. destruct (V x ?= V y); reflexivity.
Qed.

Lemma eqb_V x y : F64.valid x = true -> F64.valid y = true ->
  F64.is_nan x = false -> F64.is_nan y = false ->
  F64.eqb x y = (V x =? V y).
Proof.
  intros. unfold F64.eqb, SFeqb. rewrite compare_V by assumption.
  destruct (Z.compare_spec (V x) (V y)), (Z.eqb_spec (V x) (V y)); try reflexivity; lia.
Qed.


(** [np.clip] on representable numbers: the value is clipped, the result is
    representable. *)
Lemma clip_V x lo hi : ordinary x -> ordinary lo -> ordinary hi ->
  ordinary (Np.clip x lo hi) /\
  V (Np.clip x lo hi) = Z.min (Z.max (V x) (V lo)) (V hi).
Proof.
  intros [Vx Nx] [Vl Nl] [Vh Nh]. unfold Np.clip, Np.fmax, Np.fmin.
  rewrite Nx. rewrite (ltb_V lo x) by assumption.
  destruct (Z.ltb_spec (V lo) (V x)) as [H1 | H1].
  - rewrite Nx. rewrite (ltb_V x hi) by assumption.
    destruct (Z.ltb_spec (V x) (V hi)); split; try (split; assumption); lia.
  - rewrite Nl. rewrite (ltb_V lo hi) by assumption.
    destruct (Z.ltb_spec (V lo) (V hi)); split; try (split; assumption); lia.
Qed.

Lemma ordinary_finite x : ordinary x -> - top < V x < top -> F64.is_finite x = true.
Proof.
  intros [Hv Hn] H. destruct x as [| [|] | |]; try reflexivity; try discriminate;
    cbn [V cond_Zopp] in H; lia.
Qed.

Lemma finite_ordinary_range x : ordinary x -> F64.is_finite x = true -> - top < V x < top.
Proof.
  intros [Hv Hn] Hf. pose proof top_pos.
  destruct x as [s | s | | s m e]; try discriminate.
  - cbn [V]. lia.
  - pose proof (finite_V_lt_top _ _ _ Hv). destruct s; cbn [V cond_Zopp]; lia.
Qed.

Lemma valid_flip s s' m e :
  F64.valid (S754_finite s m e) = true -> F64.valid (S754_finite s' m e) = true.
Proof. intros H. exact H. Qed.

Lemma cond_Zopp_mul s a b : cond_Zopp s a * b = cond_Zopp s (a * b).
Proof. destruct s; cbn [cond_Zopp]; lia. Qed.

(** [x - y] for finite [y <= x]: the difference of the values, rounded. *)
Lemma sub_V x y : ordinary x -> ordinary y ->
  F64.is_finite x = true -> F64.is_finite y = true -> V y <= V x ->
  good (F64.sub x y) /\ V (F64.sub x y) = BNV (V x - V y).
Proof.
  intros [Vx Nx] [Vy Ny] Fx Fy Hle.
  destruct x as [sx | sx | | sx mx ex]; try discriminate;
  destruct y as [sy | sy | | sy my ey]; try discriminate.
  - split.
    + unfold F64.sub. cbn [SFsub]. destruct sx, sy; apply good_zero.
    + unfold F64.sub. cbn [SFsub]. destruct sx, sy; reflexivity.
  - pose proof (finite_V_lt_top _ _ _ Vy) as Hy.
    destruct sy; [| cbn [V cond_Zopp] in Hle; lia].
    unfold F64.sub. cbn [SFsub negb].
    assert (Hg : good (S754_finite false my ey)) by (apply good_finite; exact Vy).
    split; [exact Hg|].
    replace (V (S754_zero sx) - V (S754_finite true my ey)) with (V (S754_finite false my ey))
      by (cbn [V cond_Zopp]; lia).
    symmetry. apply BNV_exact; [exact Hg | reflexivity].
  - pose proof (finite_V_lt_top _ _ _ Vx) as Hx.
    destruct sx; [cbn [V cond_Zopp] in Hle; lia |].
    unfold F64.sub. cbn [SFsub].
    assert (Hg : good (S754_finite false mx ex)) by (apply good_finite; exact Vx).
    split; [exact Hg|].
    replace (V (S754_finite false mx ex) - V (S754_zero sy)) with (V (S754_finite false mx ex))
      by (cbn [V cond_Zopp]; lia).
    symmetry. apply BNV_exact; [exact Hg | reflexivity].
  - pose proof (valid_finite_bounds _ _ _ Vx) as [Rx _].
    pose proof (valid_finite_bounds _ _ _ Vy) as [Ry _].
    unfold F64.sub. cbn [SFsub]. rewrite !shl_align_spec. cbn [fst].
    set (ez := Z.min ex ey).
    rewrite !Z.min_r by (unfold ez; lia).
    assert (Px : 0 < 2 ^ (ex - ez)) by (apply pow2_gt0; unfold ez; lia).
    assert (Py : 0 < 2 ^ (ey - ez)) by (apply pow2_gt0; unfold ez; lia).
    rewrite !Z2Pos.id by nia.
    set (z := cond_Zopp sx (Zpos mx * 2 ^ (ex - ez)) - cond_Zopp sy (Zpos my * 2 ^ (ey - ez))).
    fold (bn z ez).
    assert (Pz : 0 < 2 ^ (ez + 1074)) by (apply pow2_gt0; unfold ez; lia).
    assert (Hz : z * 2 ^ (ez + 1074) = V (S754_finite sx mx ex) - V (S754_finite sy my ey)).
    { unfold z. cbn [V]. rewrite Z.mul_sub_distr_r, !cond_Zopp_mul.
      rewrite <- !Z.mul_assoc, <- !pow2_add by (unfold ez; lia).
      replace (ex - ez + (ez + 1074)) with (ex + 1074) by lia.
      replace (ey - ez + (ez + 1074)) with (ey + 1074) by lia. reflexivity. }
    assert (Hz0 : 0 <= z) by nia.
    split; [apply bn_good; assumption|].
    rewrite bn_value by (unfold ez; lia). rewrite Hz. reflexivity.
Qed.

Lemma sub_inf_l y : F64.is_finite y = true -> F64.sub (S754_infinity false) y = S754_infinity false.
Proof. destruct y; try discriminate; reflexivity. Qed.

(** The integer part of a value that is not negative. *)
Lemma trunc_V x : good x -> V x < top -> F64.trunc x = Some (V x / quantum).
Proof.
  intros Hg Hf. destruct (good_cases x Hg) as [[s ->] | [(m & e & ->) | ->]].
  - reflexivity.
  - destruct Hg as (Hv & _). pose proof (valid_finite_bounds _ _ _ Hv) as [Hr _].
    cbn [F64.trunc V cond_Zopp]. f_equal.
    destruct (Z.leb_spec 0 e) as [He | He].
    + rewrite (pow2_add e 1074) by lia. fold quantum. rewrite Z.mul_assoc.
      rewrite Z.div_mul by (pose proof quantum_pos; lia). reflexivity.
    + assert (H1074 : quantum = 2 ^ (- e) * 2 ^ (e + 1074)).
      { unfold quantum. rewrite <- pow2_add by lia. f_equal. lia. }
      rewrite H1074. rewrite Z.div_mul_cancel_r; [reflexivity | |];
        apply Z.pow_nonzero; lia.
  - cbn [V cond_Zopp] in Hf. lia.
Qed.

(** The cast to [uint8] is specified up to 255 and truncates. *)
Lemma astype_uint8_V x : good x -> V x <= 255 * quantum ->
  Np.astype_uint8 x = Some (V x / quantum) /\ 0 <= V x / quantum <= 255.
Proof.
  intros Hg Hle. pose proof Hg as (_ & _ & Hp).
  assert (Htop : 255 * quantum < top) by reflexivity.
  assert (HP : 0 < quantum) by reflexivity.
  assert (Hr : 0 <= V x / quantum <= 255).
  { split; [apply Z.div_pos; lia|].
    apply Z.div_le_upper_bound; lia. }
  split; [|exact Hr].
  unfold Np.astype_uint8. rewrite trunc_V by (assumption || lia).
  destruct (Z.leb_spec 0 (V x / quantum)), (Z.leb_spec (V x / quantum) 255);
    try lia. reflexivity.
Qed.


(** ** Quotient, product and pixel *)
Lemma of_Z_255 : F64.of_Z 255 = c255.
Proof. reflexivity. Qed.

Lemma V_one : V f64_one = quantum.
Proof. reflexivity. Qed.

Lemma mul_one_c255 : F64.mul f64_one c255 = c255.
Proof. reflexivity. Qed.

Lemma V_c255 : V c255 = 255 * quantum.
Proof. reflexivity. Qed.

Lemma good_le_top x : good x -> V x <= top.
Proof.
  intros Hg. destruct (good_cases x Hg) as [[s ->] | [(m & e & ->) | ->]].
  - cbn [V]. pose proof top_pos. lia.
  - destruct Hg as (Hv & _). pose proof (finite_V_lt_top _ _ _ Hv). cbn [V cond_Zopp]. lia.
  - cbn [V cond_Zopp]. lia.
Qed.

(** *** The quotient by a positive value *)

Lemma div_pos_good a d : good a -> V a < top -> good d -> 0 < V d ->
  good (F64.div a d).
Proof.
  intros Ha Hfa Hd Hpd.
  destruct (good_cases d Hd) as [[s ->] | [(md & ed & ->) | ->]];
    [cbn [V] in Hpd; lia | |];
  destruct (good_cases a Ha) as [[s ->] | [(ma & ea & ->) | ->]];
    try (cbn [V cond_Zopp] in Hfa; lia);
    try apply good_zero.
  apply div_good.
Qed.

Lemma div_pos_mono a1 a2 d : good a1 -> good a2 -> V a1 <= V a2 -> V a2 < top ->
  good d -> 0 < V d -> V (F64.div a1 d) <= V (F64.div a2 d).
Proof.
  intros H1 H2 Hle Hf Hd Hpd.
  assert (Hg2 : good (F64.div a2 d)) by (apply div_pos_good; assumption).
  destruct (good_cases d Hd) as [[s ->] | [(md & ed & ->) | ->]];
    [cbn [V] in Hpd; lia | |].
  - destruct (good_cases a1 H1) as [[s1 ->] | [(m1 & e1 & ->) | ->]].
    + destruct Hg2 as (_ & _ & Hp). exact Hp.
    + destruct H1 as (Hv1 & _). pose proof (finite_V_lt_top _ _ _ Hv1) as P1.
      pose proof (valid_finite_bounds _ _ _ Hv1) as [R1 _].
      destruct (good_cases a2 H2) as [[s2 ->] | [(m2 & e2 & ->) | ->]].
      * cbn [V cond_Zopp] in Hle. lia.
      * destruct H2 as (Hv2 & _). pose proof (valid_finite_bounds _ _ _ Hv2) as [R2 _].
        apply div_mono; try lia. exact Hle.
      * cbn [V cond_Zopp] in Hf. lia.
    + cbn [V cond_Zopp] in Hle. lia.
  - destruct (good_cases a1 H1) as [[s1 ->] | [(m1 & e1 & ->) | ->]];
    destruct (good_cases a2 H2) as [[s2 ->] | [(m2 & e2 & ->) | ->]];
      try (cbn [V cond_Zopp] in Hf; lia); try (cbn [V cond_Zopp] in Hle; lia);
      cbn; lia.
Qed.

Lemma good_V_inj a d : good a -> good d -> V a = V d -> 0 < V d < top ->
  a = d.
Proof.
  intros Ha Hd Heq Hr.
  destruct (good_cases d Hd) as [[s ->] | [(md & ed & ->) | ->]];
    try (cbn [V cond_Zopp] in Hr; lia).
  destruct (good_cases a Ha) as [[s ->] | [(ma & ea & ->) | ->]];
    try (cbn [V cond_Zopp] in Heq, Hr; lia).
  destruct Ha as (Va & _), Hd as (Vd & _).
  pose proof (compare_V _ _ Va Vd eq_refl eq_refl) as Hc.
  rewrite Heq, Z.compare_refl in Hc. cbn [SFcompare] in Hc.
  destruct (Z.compare_spec ea ed) as [He | He | He]; try discriminate.
  injection Hc as Hc. apply Pos.compare_eq in Hc. subst. reflexivity.
Qed.

Lemma div_le_one a d : good a -> good d -> V a <= V d -> V a < top -> 0 < V d ->
  V (F64.div a d) <= V f64_one.
Proof.
  intros Ha Hd Hle Hf Hpd.
  destruct (Z.eq_dec (V d) top) as [Ht | Ht].
  - (* the divisor overflowed *)
    destruct (good_cases d Hd) as [[s ->] | [(md & ed & ->) | ->]].
    + cbn [V] in Hpd. lia.
    + destruct Hd as (Hv & _). pose proof (finite_V_lt_top _ _ _ Hv).
      cbn [V cond_Zopp] in Ht. lia.
    + destruct (good_cases a Ha) as [[s ->] | [(ma & ea & ->) | ->]];
        try (cbn [V cond_Zopp] in Hf; lia); cbn; lia.
  - pose proof (good_le_top d Hd).
    destruct (good_cases d Hd) as [[s ->] | [(md & ed & ->) | ->]];
      try (cbn [V cond_Zopp] in Hpd, Ht; lia).
    rewrite <- (div_diag md ed).
    apply div_pos_mono; try assumption. lia.
Qed.

(** *** The product with 255 *)

Lemma mul255_good n : good n -> V n < top -> good (F64.mul n c255).
Proof.
  intros Hn Hf.
  destruct (good_cases n Hn) as [[s ->] | [(m & e & ->) | ->]];
    try (cbn [V cond_Zopp] in Hf; lia).
  - apply good_zero.
  - apply mul_good. apply Z.leb_le. reflexivity.
Qed.

Lemma mul255_mono n1 n2 : good n1 -> good n2 -> V n1 <= V n2 -> V n2 < top ->
  V (F64.mul n1 c255) <= V (F64.mul n2 c255).
Proof.
  intros H1 H2 Hle Hf.
  assert (Hg2 : good (F64.mul n2 c255)) by (apply mul255_good; assumption).
  destruct (good_cases n1 H1) as [[s1 ->] | [(m1 & e1 & ->) | ->]].
  - destruct Hg2 as (_ & _ & Hp). exact Hp.
  - destruct H1 as (Hv1 & _). pose proof (finite_V_lt_top _ _ _ Hv1) as P1.
    pose proof (valid_finite_bounds _ _ _ Hv1) as [R1 _].
    destruct (good_cases n2 H2) as [[s2 ->] | [(m2 & e2 & ->) | ->]].
    + cbn [V cond_Zopp] in Hle. lia.
    + destruct H2 as (Hv2 & _). pose proof (valid_finite_bounds _ _ _ Hv2) as [R2 _].
      apply mul_mono; first [exact Hle | lia | apply Z.leb_le; reflexivity].
    + cbn [V cond_Zopp] in Hf. lia.
  - cbn [V cond_Zopp] in Hle. lia.
Qed.


Lemma top_gt_one : quantum < top.
Proof. reflexivity. Qed.

(** A quotient of at most one, times 255, is at most 255. *)
Lemma scaled_good a d : good a -> good d -> V a <= V d -> V a < top -> 0 < V d ->
  good (F64.mul (F64.div a d) c255) /\ V (F64.mul (F64.div a d) c255) <= 255 * quantum.
Proof.
  intros Ha Hd Hle Hf Hpd.
  pose proof (div_pos_good a d Ha Hf Hd Hpd) as Hn.
  pose proof (div_le_one a d Ha Hd Hle Hf Hpd) as H1.
  rewrite V_one in H1. pose proof top_gt_one.
  split; [apply mul255_good; [assumption | lia]|].
  rewrite <- V_c255, <- mul_one_c255.
  apply mul255_mono;
    first [ assumption | apply good_finite; reflexivity | rewrite V_one; lia ].
Qed.

(** Range and monotonicity of the pixel, from the two operands. *)
Lemma pixel_of_spec a1 a2 d : good a1 -> good a2 -> good d ->
  V a1 <= V a2 -> V a2 <= V d -> V a2 < top -> 0 < V d ->
  exists v1 v2, pixel_of a1 d = Some v1 /\ pixel_of a2 d = Some v2 /\
                0 <= v1 /\ v1 <= v2 /\ v2 <= 255.
Proof.
  intros H1 H2 Hd H12 H2d Hf Hpd. unfold pixel_of. rewrite of_Z_255.
  destruct (scaled_good a1 d H1 Hd ltac:(lia) ltac:(lia) Hpd) as [G1 B1].
  destruct (scaled_good a2 d H2 Hd ltac:(lia) ltac:(lia) Hpd) as [G2 B2].
  destruct (astype_uint8_V _ G1 B1) as [E1 R1].
  destruct (astype_uint8_V _ G2 B2) as [E2 R2].
  eexists _, _. split; [exact E1|]. split; [exact E2|].
  split; [lia|]. split; [|lia].
  apply Z.div_le_mono; [reflexivity|].
  pose proof (div_pos_good a1 d H1 ltac:(lia) Hd Hpd) as N1.
  pose proof (div_pos_good a2 d H2 ltac:(lia) Hd Hpd) as N2.
  pose proof (div_le_one a2 d H2 Hd H2d Hf Hpd) as L2. rewrite V_one in L2.
  pose proof top_gt_one.
  apply mul255_mono; try assumption; try lia.
  apply div_pos_mono; assumption.
Qed.

Lemma good_V0 a : good a -> V a = 0 -> exists s, a = S754_zero s.
Proof.
  intros Ha H0. pose proof top_pos.
  destruct (good_cases a Ha) as [[s ->] | [(m & e & ->) | ->]]; eauto.
  - destruct Ha as (Hv & _). pose proof (finite_V_lt_top _ _ _ Hv). cbn [V cond_Zopp] in H0. lia.
  - cbn [V cond_Zopp] in H0. lia.
Qed.

Lemma pixel_of_zero a d : good a -> V a = 0 -> good d -> 0 < V d -> pixel_of a d = Some 0.
Proof.
  intros Ha H0 Hd Hpd. destruct (good_V0 a Ha H0) as [s ->].
  destruct (good_cases d Hd) as [[s' ->] | [(md & ed & ->) | ->]];
    [cbn [V] in Hpd; lia | |]; reflexivity.
Qed.

Lemma pixel_of_full a d : good a -> good d -> V a = V d -> 0 < V d < top ->
  pixel_of a d = Some 255.
Proof.
  intros Ha Hd Heq Hr. rewrite (good_V_inj a d Ha Hd Heq Hr).
  destruct (good_cases d Hd) as [[s' ->] | [(md & ed & ->) | ->]];
    try (cbn [V cond_Zopp] in Hr; lia).
  unfold pixel_of. rewrite div_diag. reflexivity.
Qed.


(** ** The operands of the division *)
Lemma clip_and_normalize_eq hu cmin cmax :
  clip_and_normalize hu cmin cmax = F64.div (numerator hu cmin cmax) (denominator cmin cmax).
Proof. destruct cmin, cmax; reflexivity. Qed.

Lemma wrap_int32_id z : - 2 ^ 31 <= z < 2 ^ 31 -> Np.wrap_int32 z = z.
Proof. intros H. unfold Np.wrap_int32. rewrite Z.mod_small; lia. Qed.

Lemma hounsfield_u16 raw : 0 <= raw < 65536 -> hounsfield raw = raw - 32768.
Proof. intros H. unfold hounsfield. apply wrap_int32_id. lia. Qed.


Lemma BNV_big : BNV (32767 * quantum + vmax) < top.
Proof. reflexivity. Qed.

Lemma finite_V_bound x : ordinary x -> F64.is_finite x = true -> - vmax <= V x <= vmax.
Proof.
  intros [Hv Hn] Hf. assert (0 < vmax) by reflexivity.
  destruct x as [s | s | | s m e]; try discriminate.
  - cbn [V]. lia.
  - pose proof (valid_finite_bounds _ _ _ Hv) as [Hr [Hm _]].
    assert (0 < 2 ^ (e + 1074)) by (apply pow2_gt0; lia).
    assert (2 ^ (e + 1074) <= 2 ^ 2045) by (apply pow2_le; lia).
    assert (Zpos m * 2 ^ (e + 1074) <= vmax) by (unfold vmax; nia).
    destruct s; cbn [V cond_Zopp]; lia.
Qed.

Lemma ltb_not_nan x y : F64.ltb x y = true -> F64.is_nan x = false /\ F64.is_nan y = false.
Proof. destruct x, y; cbn; intros H; try discriminate; auto. Qed.

Lemma finite_not_nan x : F64.is_finite x = true -> F64.is_nan x = false.
Proof. destruct x; cbn; intros H; try discriminate; auto. Qed.

Lemma good_of_ordinary x : ordinary x -> 0 <= V x -> good x.
Proof. intros [Hv Hn] Hp. repeat split; assumption. Qed.

Lemma of_Z_ordinary z : - 2 ^ 53 < z < 2 ^ 53 -> ordinary (F64.of_Z z).
Proof.
  intros Hz. destruct (of_Z_exact z Hz) as (_ & Hv & Hf).
  split; [assumption | apply finite_not_nan; assumption].
Qed.



(** The operands when both bounds are [int]. *)
Lemma int_window_facts lo hi hu1 hu2 :
  - 2 ^ 31 <= lo -> hi < 2 ^ 31 -> lo < hi -> hi - lo < 2 ^ 31 ->
  -32768 <= hu1 <= hu2 -> hu2 <= 32767 ->
  differences_ok (F64.of_Z (Np.wrap_int32 (Np.clip_int hu1 lo hi - lo)))
                 (F64.of_Z (Np.wrap_int32 (Np.clip_int hu2 lo hi - lo)))
                 (F64.of_Z (hi - lo))
                 (F64.of_Z hu1) (F64.of_Z hu2) (F64.of_Z lo) (F64.of_Z hi).
Proof.
  intros L1 L2 L3 L4 H12 H2.
  assert (E31 : 2 ^ 31 = 2147483648) by reflexivity.
  assert (E53 : 2 ^ 53 = 9007199254740992) by reflexivity.
  pose proof quantum_pos as HP.
  assert (C : forall hu, 0 <= Np.clip_int hu lo hi - lo <= hi - lo)
    by (intros hu; unfold Np.clip_int; lia).
  rewrite !wrap_int32_id by (pose proof (C hu1); pose proof (C hu2); lia).
  destruct (of_Z_exact (Np.clip_int hu1 lo hi - lo) ltac:(pose proof (C hu1); lia))
    as (V1 & W1 & F1).
  destruct (of_Z_exact (Np.clip_int hu2 lo hi - lo) ltac:(pose proof (C hu2); lia))
    as (V2 & W2 & F2).
  destruct (of_Z_exact (hi - lo) ltac:(lia)) as (Vd & Wd & Fd).
  destruct (of_Z_exact hu1 ltac:(lia)) as (X1 & _).
  destruct (of_Z_exact hu2 ltac:(lia)) as (X2 & _).
  destruct (of_Z_exact lo ltac:(lia)) as (Xl & _).
  destruct (of_Z_exact hi ltac:(lia)) as (Xh & _).
  pose proof (C hu1). pose proof (C hu2).
  assert (Np.clip_int hu1 lo hi <= Np.clip_int hu2 lo hi) by (unfold Np.clip_int; lia).
  unfold differences_ok. rewrite V1, V2, Vd, X1, X2, Xl, Xh.
  split; [apply good_of_ordinary; [split; [exact W1 | apply finite_not_nan; exact F1] |]|].
  { rewrite V1. nia. }
  split; [apply good_of_ordinary; [split; [exact W2 | apply finite_not_nan; exact F2] |]|].
  { rewrite V2. nia. }
  split; [apply good_of_ordinary; [split; [exact Wd | apply finite_not_nan; exact Fd] |]|].
  { rewrite Vd. nia. }
  split; [nia|]. split; [nia|].
  split.
  { rewrite <- V2. apply (finite_ordinary_range _ (conj W2 (finite_not_nan _ F2)) F2). }
  split; [nia|]. split.
  - intros He. assert (hu1 = lo) by nia. subst. unfold Np.clip_int.
    replace (Z.min (Z.max lo lo) hi - lo) with 0 by lia. reflexivity.
  - intros He. assert (hu2 = hi) by nia. subst. unfold Np.clip_int.
    replace (Z.min (Z.max hi lo) hi - lo) with (hi - lo) by lia. reflexivity.
Qed.

Lemma clipped_range lo hi hu c : ordinary lo -> F64.is_finite lo = true ->
  V lo < V hi -> -32768 <= hu <= 32767 ->
  V c = Z.min (Z.max (hu * quantum) (V lo)) (V hi) -> ordinary c ->
  F64.is_finite c = true /\ 0 <= V c - V lo <= 32767 * quantum + vmax.
Proof.
  intros Nl Flo Hlt Hhu Hvc Nc.
  pose proof (finite_ordinary_range lo Nl Flo) as Rlo.
  pose proof (finite_V_bound lo Nl Flo) as Blo.
  pose proof quantum_pos as HP.
  assert (T1 : 32767 * quantum + vmax < top) by reflexivity.
  assert (Hv0 : 0 < vmax) by reflexivity.
  assert (Hq : -32768 * quantum <= hu * quantum <= 32767 * quantum) by nia.
  split; [apply ordinary_finite; [assumption|] |]; lia.
Qed.

(** The operands when the bounds are [float]. *)
Lemma float_window_facts lo hi hu1 hu2 :
  F64.valid lo = true -> F64.valid hi = true -> F64.is_finite lo = true ->
  F64.ltb lo hi = true ->
  -32768 <= hu1 <= hu2 -> hu2 <= 32767 ->
  differences_ok (F64.sub (Np.clip (F64.of_Z hu1) lo hi) lo)
                 (F64.sub (Np.clip (F64.of_Z hu2) lo hi) lo)
                 (F64.sub hi lo)
                 (F64.of_Z hu1) (F64.of_Z hu2) lo hi.
Proof.
  intros Wlo Whi Flo Hlt H12 H2.
  assert (E53 : 2 ^ 53 = 9007199254740992) by reflexivity.
  pose proof quantum_pos as HP.
  destruct (ltb_not_nan _ _ Hlt) as [Nlo Nhi].
  assert (Nl : ordinary lo) by (split; assumption).
  assert (Nh : ordinary hi) by (split; assumption).
  rewrite ltb_V in Hlt by assumption. apply Z.ltb_lt in Hlt.
  destruct (of_Z_exact hu1 ltac:(lia)) as (X1 & _).
  destruct (of_Z_exact hu2 ltac:(lia)) as (X2 & _).
  pose proof (of_Z_ordinary hu1 ltac:(lia)) as Nx1.
  pose proof (of_Z_ordinary hu2 ltac:(lia)) as Nx2.
  destruct (clip_V _ _ _ Nx1 Nl Nh) as [Nc1 Vc1].
  destruct (clip_V _ _ _ Nx2 Nl Nh) as [Nc2 Vc2].
  set (c1 := Np.clip (F64.of_Z hu1) lo hi) in *.
  set (c2 := Np.clip (F64.of_Z hu2) lo hi) in *.
  unfold differences_ok. rewrite X1, X2. rewrite X1 in Vc1. rewrite X2 in Vc2.
  destruct (clipped_range lo hi hu1 c1 Nl Flo Hlt ltac:(lia) Vc1 Nc1) as [Fc1 Dc1].
  destruct (clipped_range lo hi hu2 c2 Nl Flo Hlt ltac:(lia) Vc2 Nc2) as [Fc2 Dc2].
  destruct (sub_V c1 lo Nc1 Nl Fc1 Flo ltac:(lia)) as [Ga1 Va1].
  destruct (sub_V c2 lo Nc2 Nl Fc2 Flo ltac:(lia)) as [Ga2 Va2].
  assert (Hq : hu1 * quantum <= hu2 * quantum) by nia.
  assert (Hmono : V c1 <= V c2) by lia.
  assert (Ha12 : V (F64.sub c1 lo) <= V (F64.sub c2 lo)).
  { rewrite Va1, Va2. apply BNV_mono. lia. }
  assert (Hfin : V (F64.sub c2 lo) < top).
  { rewrite Va2. apply Z.le_lt_trans with (BNV (32767 * quantum + vmax)); [|exact BNV_big].
    apply BNV_mono. lia. }
  assert (Hd : good (F64.sub hi lo) /\ 0 < V (F64.sub hi lo)
               /\ V (F64.sub c2 lo) <= V (F64.sub hi lo)
               /\ (V c2 = V hi -> V (F64.sub c2 lo) = V (F64.sub hi lo))).
  { destruct (F64.is_finite hi) eqn:Fhi.
    - destruct (sub_V hi lo Nh Nl Fhi Flo ltac:(lia)) as [Gd Vd].
      split; [exact Gd|]. rewrite Vd, Va2. split; [apply BNV_pos; lia|].
      split; [apply BNV_mono; lia|]. intros ->. reflexivity.
    - assert (hi = S754_infinity false) as ->.
      { pose proof (finite_ordinary_range lo Nl Flo) as Rlo.
        destruct Nh as [_ Nh']. destruct hi as [| [|] | |]; try discriminate; try reflexivity.
        cbn [V cond_Zopp] in Hlt. lia. }
      rewrite sub_inf_l by assumption.
      split; [apply good_inf|]. cbn [V cond_Zopp]. pose proof top_pos.
      pose proof (good_le_top _ Ga2).
      pose proof (finite_ordinary_range c2 Nc2 Fc2).
      split; [lia|]. split; [lia|]. intros He. lia. }
  destruct Hd as (Gd & Pd & Had & Hfull).
  split; [exact Ga1|]. split; [exact Ga2|]. split; [exact Gd|].
  split; [exact Ha12|]. split; [exact Had|]. split; [exact Hfin|]. split; [exact Pd|].
  split.
  - intros He. rewrite Va1. replace (V c1 - V lo) with 0 by lia. reflexivity.
  - intros He. apply Hfull. lia.
Qed.

(** The operands on every well-formed window. *)
Lemma window_facts cmin cmax hu1 hu2 :
  well_formed_window cmin cmax = true -> -32768 <= hu1 <= hu2 -> hu2 <= 32767 ->
  differences_ok (numerator hu1 cmin cmax) (numerator hu2 cmin cmax) (denominator cmin cmax)
                 (F64.of_Z hu1) (F64.of_Z hu2) (to_float cmin) (to_float cmax).
Proof.
  intros Hw H12 H2. unfold well_formed_window in Hw.
  destruct cmin as [lo | lo], cmax as [hi | hi]; cbn [numerator denominator to_float] in *.
  - apply andb_true_iff in Hw. destruct Hw as [Hw W4].
    apply andb_true_iff in Hw. destruct Hw as [Hw W3].
    apply andb_true_iff in Hw. destruct Hw as [W1 W2].
    apply Z.leb_le in W1. apply Z.ltb_lt in W2, W3, W4.
    apply int_window_facts; assumption.
  - apply andb_true_iff in Hw. destruct Hw as [Hw W4].
    apply andb_true_iff in Hw. destruct Hw as [Hw W3].
    apply andb_true_iff in Hw. destruct Hw as [W1 W2].
    apply float_window_facts; assumption.
  - apply andb_true_iff in Hw. destruct Hw as [Hw W4].
    apply andb_true_iff in Hw. destruct Hw as [Hw W3].
    apply andb_true_iff in Hw. destruct Hw as [W1 W2].
    apply float_window_facts; assumption.
  - apply andb_true_iff in Hw. destruct Hw as [Hw W4].
    apply andb_true_iff in Hw. destruct Hw as [Hw W3].
    apply andb_true_iff in Hw. destruct Hw as [W1 W2].
    apply float_window_facts; assumption.
Qed.


(** ** The normalizer on a well-formed window *)
Lemma convert_pixel_eq raw cmin cmax :
  convert_pixel raw cmin cmax =
  pixel_of (numerator (hounsfield raw) cmin cmax) (denominator cmin cmax).
Proof.
  unfold convert_pixel, scaled, pixel_of. rewrite clip_and_normalize_eq. reflexivity.
Qed.

Lemma well_formed_ordinary cmin cmax : well_formed_window cmin cmax = true ->
  ordinary (to_float cmin) /\ ordinary (to_float cmax).
Proof.
  intros Hw. unfold well_formed_window in Hw.
  assert (E31 : 2 ^ 31 = 2147483648) by reflexivity.
  assert (E53 : 2 ^ 53 = 9007199254740992) by reflexivity.
  assert (float_case :
            F64.valid (to_float cmin) && F64.valid (to_float cmax)
            && F64.is_finite (to_float cmin)
            && F64.ltb (to_float cmin) (to_float cmax) = true ->
            ordinary (to_float cmin) /\ ordinary (to_float cmax)).
  { intros Hc.
    apply andb_true_iff in Hc. destruct Hc as [Hc Hlt].
    apply andb_true_iff in Hc. destruct Hc as [Hc Flo].
    apply andb_true_iff in Hc. destruct Hc as [Wlo Whi].
    destruct (ltb_not_nan _ _ Hlt). repeat split; assumption. }
  destruct cmin as [lo | lo], cmax as [hi | hi]; try (apply float_case; exact Hw).
  apply andb_true_iff in Hw. destruct Hw as [Hw W4].
  apply andb_true_iff in Hw. destruct Hw as [Hw W3].
  apply andb_true_iff in Hw. destruct Hw as [W1 W2].
  apply Z.leb_le in W1. apply Z.ltb_lt in W2, W3, W4.
  cbn [to_float]. split; apply of_Z_ordinary; lia.
Qed.

(** C2.  On every well-formed window (two representable bounds, a finite
    [clip_min] below [clip_max]) and for every 16-bit raw value the stored
    pixel is a number between 0 and 255, and it does not decrease when the
    Hounsfield value of the input grows: clipping, rescaling, scaling by 255
    and the cast are monotone together, rounding included. *)
Theorem normalizer_output_range_and_monotone cmin cmax raw1 raw2 :
  well_formed_window cmin cmax = true ->
  0 <= raw1 < 65536 -> 0 <= raw2 < 65536 ->
  hounsfield raw1 <= hounsfield raw2 ->
  exists v1 v2,
    convert_pixel raw1 cmin cmax = Some v1 /\
    convert_pixel raw2 cmin cmax = Some v2 /\
    0 <= v1 /\ v1 <= v2 /\ v2 <= 255.
Proof.
  intros Hw R1 R2 Hle. rewrite !convert_pixel_eq.
  rewrite !hounsfield_u16 in * by assumption.
  destruct (window_facts cmin cmax (raw1 - 32768) (raw2 - 32768) Hw ltac:(lia) ltac:(lia))
    as (G1 & G2 & Gd & H12 & H2d & Hf & Hp & _).
  apply pixel_of_spec; assumption.
Qed.

Lemma normalizer_output_range_and_monotone_witness :
  well_formed_window (PyFloat (F64.of_Z (-175))) (PyFloat (F64.of_Z 275)) = true /\
  0 <= 32700 < 65536 /\ 0 <= 32900 < 65536 /\
  hounsfield 32700 <= hounsfield 32900 /\
  exists v1 v2,
    convert_pixel 32700 (PyFloat (F64.of_Z (-175))) (PyFloat (F64.of_Z 275)) = Some v1 /\
    convert_pixel 32900 (PyFloat (F64.of_Z (-175))) (PyFloat (F64.of_Z 275)) = Some v2 /\
    0 <= v1 /\ v1 <= v2 /\ v2 <= 255.
Proof.
  split; [vm_compute; reflexivity|]. split; [lia|]. split; [lia|].
  split; [apply Z.leb_le; vm_compute; reflexivity|].
  apply normalizer_output_range_and_monotone;
    [vm_compute; reflexivity | lia | lia | apply Z.leb_le; vm_compute; reflexivity].
Defined.

(** C3.  On every well-formed window a pixel whose Hounsfield value equals
    [clip_min] is stored as 0 and one whose Hounsfield value equals
    [clip_max] is stored as 255. *)
Theorem window_endpoints cmin cmax raw :
  well_formed_window cmin cmax = true -> 0 <= raw < 65536 ->
  (F64.eqb (F64.of_Z (hounsfield raw)) (to_float cmin) = true ->
   convert_pixel raw cmin cmax = Some 0) /\
  (F64.eqb (F64.of_Z (hounsfield raw)) (to_float cmax) = true ->
   convert_pixel raw cmin cmax = Some 255).
Proof.
  intros Hw R. rewrite convert_pixel_eq. rewrite hounsfield_u16 by assumption.
  destruct (well_formed_ordinary cmin cmax Hw) as [[Wl Nl] [Wh Nh]].
  destruct (of_Z_ordinary (raw - 32768) ltac:(lia)) as [Wx Nx].
  destruct (window_facts cmin cmax (raw - 32768) (raw - 32768) Hw ltac:(lia) ltac:(lia))
    as (G1 & _ & Gd & _ & H2d & Hf & Hp & Hlo & Hhi).
  split; intros He; rewrite eqb_V in He by assumption; apply Z.eqb_eq in He.
  - apply pixel_of_zero; auto.
  - apply pixel_of_full; auto. specialize (Hhi He). lia.
Qed.

Lemma window_endpoints_witness :
  well_formed_window (PyInt (-150)) (PyInt 250) = true /\
  0 <= 32618 < 65536 /\ 0 <= 33018 < 65536 /\
  F64.eqb (F64.of_Z (hounsfield 32618)) (to_float (PyInt (-150))) = true /\
  F64.eqb (F64.of_Z (hounsfield 33018)) (to_float (PyInt 250)) = true /\
  convert_pixel 32618 (PyInt (-150)) (PyInt 250) = Some 0 /\
  convert_pixel 33018 (PyInt (-150)) (PyInt 250) = Some 255.
Proof.
  split; [vm_compute; reflexivity|]. split; [lia|]. split; [lia|].
  split; [vm_compute; reflexivity|]. split; [vm_compute; reflexivity|].
  split.
  - apply (proj1 (window_endpoints (PyInt (-150)) (PyInt 250) 32618
                    ltac:(vm_compute; reflexivity) ltac:(lia))).
    vm_compute; reflexivity.
  - apply (proj2 (window_endpoints (PyInt (-150)) (PyInt 250) 33018
                    ltac:(vm_compute; reflexivity) ltac:(lia))).
    vm_compute; reflexivity.
Defined.

(** C4, as the code has it.  On every well-formed window the stored pixel is
    the integer part of [normalized * 255]: the cast to [uint8] drops the
    fraction, so the pixel [v] satisfies [v <= normalized * 255 < v + 1];
    nothing rounds to the nearest integer. *)
Theorem pixel_is_truncation cmin cmax raw :
  well_formed_window cmin cmax = true -> 0 <= raw < 65536 ->
  exists v,
    convert_pixel raw cmin cmax = Some v /\
    F64.leb (F64.of_Z v) (scaled raw cmin cmax) = true /\
    F64.ltb (scaled raw cmin cmax) (F64.of_Z (v + 1)) = true.
Proof.
  intros Hw R. unfold convert_pixel, scaled. rewrite clip_and_normalize_eq, of_Z_255.
  rewrite hounsfield_u16 by assumption.
  destruct (window_facts cmin cmax (raw - 32768) (raw - 32768) Hw ltac:(lia) ltac:(lia))
    as (G1 & _ & Gd & _ & H2d & Hf & Hp & _).
  destruct (scaled_good _ _ G1 Gd H2d Hf Hp) as [Gs Bs].
  destruct (astype_uint8_V _ Gs Bs) as [Es Rs].
  set (s := F64.mul (F64.div (numerator (raw - 32768) cmin cmax) (denominator cmin cmax)) c255) in *.
  exists (V s / quantum). split; [exact Es|].
  assert (E53 : 2 ^ 53 = 9007199254740992) by reflexivity.
  destruct (of_Z_exact (V s / quantum) ltac:(lia)) as (X0 & _).
  destruct (of_Z_exact (V s / quantum + 1) ltac:(lia)) as (X1 & _).
  destruct (of_Z_ordinary (V s / quantum) ltac:(lia)) as [W0 N0].
  destruct (of_Z_ordinary (V s / quantum + 1) ltac:(lia)) as [W1 N1].
  destruct Gs as (Ws & Ns & Ps).
  pose proof quantum_pos as HP.
  pose proof (Z.mul_div_le (V s) quantum HP).
  pose proof (Z.mul_succ_div_gt (V s) quantum HP).
  rewrite leb_V, ltb_V by assumption. rewrite X0, X1.
  split; [apply Z.leb_le | apply Z.ltb_lt]; lia.
Qed.

Lemma pixel_is_truncation_witness :
  well_formed_window (PyInt (-150)) (PyInt 250) = true /\ 0 <= 32619 < 65536 /\
  exists v,
    convert_pixel 32619 (PyInt (-150)) (PyInt 250) = Some v /\
    F64.leb (F64.of_Z v) (scaled 32619 (PyInt (-150)) (PyInt 250)) = true /\
    F64.ltb (scaled 32619 (PyInt (-150)) (PyInt 250)) (F64.of_Z (v + 1)) = true.
Proof.
  split; [vm_compute; reflexivity|]. split; [lia|].
  apply pixel_is_truncation; [vm_compute; reflexivity | lia].
Defined.

(** C4 fails as stated: with the default window the Hounsfield value -149
    gives [normalized * 255 = 0.6375], which rounds to 1 and is stored as 0. *)
Example rounding_counterexample :
  convert_pixel 32619 (PyInt (-150)) (PyInt 250) = Some 0 /\
  round_half_even (scaled 32619 (PyInt (-150)) (PyInt 250)) = Some 1.
Proof. split; vm_compute; reflexivity. Qed.


(** ** The normalizer on a degenerate window *)
Lemma wrap_int32_range z : - 2 ^ 31 <= Np.wrap_int32 z < 2 ^ 31.
Proof.
  unfold Np.wrap_int32.
  pose proof (Z.mod_pos_bound (z + 2 ^ 31) (2 ^ 32) ltac:(reflexivity)).
  assert (2 ^ 32 = 2 * 2 ^ 31) by reflexivity. lia.
Qed.

Lemma hounsfield_not_nan raw : F64.is_nan (F64.of_Z (hounsfield raw)) = false.
Proof.
  pose proof (wrap_int32_range (raw - 32768)) as H. fold (hounsfield raw) in H.
  assert (2 ^ 31 < 2 ^ 53) by reflexivity.
  destruct (of_Z_ordinary (hounsfield raw) ltac:(lia)) as [_ Hn]. exact Hn.
Qed.

Lemma eqb_cases lo hi : F64.eqb lo hi = true ->
  (exists s s', lo = S754_zero s /\ hi = S754_zero s') \/
  (exists s, lo = S754_infinity s /\ hi = S754_infinity s) \/
  (exists s m e, lo = S754_finite s m e /\ hi = S754_finite s m e).
Proof.
  unfold F64.eqb, SFeqb.
  destruct lo as [s1 | s1 | | s1 m1 e1], hi as [s2 | s2 | | s2 m2 e2]; cbn [SFcompare];
    intros H; try discriminate H;
    try (destruct s1; discriminate H); try (destruct s2; discriminate H).
  - left. eauto.
  - destruct s1, s2; try discriminate H; right; left; eauto.
  - right. right.
    assert (s1 = s2 /\ e1 = e2 /\ m1 = m2) as (-> & -> & ->).
    { destruct s1, s2; try discriminate H;
        destruct (Z.compare_spec e1 e2); try discriminate H;
        destruct (Pos.compare_cont Eq m1 m2) eqn:Hm; try discriminate H;
        apply Pos.compare_eq in Hm; auto. }
    eauto.
Qed.

Lemma lex_lt_asym e1 m1 e2 m2 :
  match e1 ?= e2 with Eq => Pos.compare_cont Eq m1 m2 | Lt => Lt | Gt => Gt end = Lt ->
  match e2 ?= e1 with Eq => Pos.compare_cont Eq m2 m1 | Lt => Lt | Gt => Gt end = Gt.
Proof.
  rewrite (Z.compare_antisym e1 e2).
  change (Pos.compare_cont Eq m2 m1) with (Pos.compare m2 m1).
  change (Pos.compare_cont Eq m1 m2) with (Pos.compare m1 m2).
  rewrite (Pos.compare_antisym m1 m2).
  destruct (e1 ?= e2), (Pos.compare m1 m2); cbn; congruence.
Qed.

Lemma lex_gt_asym e1 m1 e2 m2 :
  match e1 ?= e2 with Eq => Pos.compare_cont Eq m1 m2 | Lt => Lt | Gt => Gt end = Gt ->
  match e2 ?= e1 with Eq => Pos.compare_cont Eq m2 m1 | Lt => Lt | Gt => Gt end = Lt.
Proof.
  rewrite (Z.compare_antisym e1 e2).
  change (Pos.compare_cont Eq m2 m1) with (Pos.compare m2 m1).
  change (Pos.compare_cont Eq m1 m2) with (Pos.compare m1 m2).
  rewrite (Pos.compare_antisym m1 m2).
  destruct (e1 ?= e2), (Pos.compare m1 m2); cbn; congruence.
Qed.

Lemma ltb_asym x y : F64.ltb x y = true -> F64.ltb y x = false.
Proof.
  unfold F64.ltb, SFltb.
  destruct x as [s1 | s1 | | s1 m1 e1], y as [s2 | s2 | | s2 m2 e2]; cbn [SFcompare];
    intros H; try reflexivity; try discriminate H;
    try (destruct s1; try discriminate H; reflexivity);
    try (destruct s2; try discriminate H; reflexivity);
    try (destruct s1, s2; try discriminate H; reflexivity).
  destruct s1, s2; try discriminate H; try reflexivity.
  - destruct (match e1 ?= e2 with Eq => Pos.compare_cont Eq m1 m2 | Lt => Lt | Gt => Gt end)
      eqn:H1.
    + exfalso. destruct (e1 ?= e2); try discriminate; cbn in H; rewrite H1 in H; discriminate.
    + exfalso. destruct (e1 ?= e2); try discriminate; cbn in H; rewrite H1 in H; discriminate.
    + apply lex_gt_asym in H1.
      destruct (e2 ?= e1); try discriminate; try reflexivity. rewrite H1. reflexivity.
  - destruct (match e1 ?= e2 with Eq => Pos.compare_cont Eq m1 m2 | Lt => Lt | Gt => Gt end)
      eqn:H1; try discriminate.
    apply lex_lt_asym in H1. rewrite H1. reflexivity.
Qed.

Lemma eqb_ltb_false lo hi : F64.eqb lo hi = true -> F64.ltb lo hi = false.
Proof.
  unfold F64.eqb, F64.ltb, SFeqb, SFltb. destruct (SFcompare lo hi) as [[| |]|]; congruence.
Qed.

Lemma eqb_not_nan lo hi : F64.eqb lo hi = true -> F64.is_nan lo = false.
Proof. intros H. destruct (eqb_cases lo hi H) as [(s & s' & -> & _) | [(s & -> & _) | (s & m & e & -> & _)]]; reflexivity. Qed.

Lemma ltb_eqb_compat lo hi x : F64.eqb lo hi = true -> F64.ltb x hi = F64.ltb x lo.
Proof.
  intros H.
  destruct (eqb_cases lo hi H) as [(s & s' & -> & ->) | [(s & -> & ->) | (s & m & e & -> & ->)]];
    try reflexivity.
Qed.

Lemma clip_degenerate x lo hi : F64.is_nan x = false -> F64.eqb lo hi = true ->
  Np.clip x lo hi = hi.
Proof.
  intros Nx He. unfold Np.clip, Np.fmax, Np.fmin. rewrite Nx.
  destruct (F64.ltb lo x) eqn:H1.
  - rewrite Nx. rewrite (ltb_eqb_compat lo hi x He). rewrite (ltb_asym _ _ H1). reflexivity.
  - rewrite (eqb_not_nan lo hi He), (eqb_ltb_false lo hi He). reflexivity.
Qed.

Lemma sub_eq_div_nan lo hi : F64.eqb lo hi = true ->
  F64.div (F64.sub hi lo) (F64.sub hi lo) = F64.nan.
Proof.
  intros He.
  destruct (eqb_cases lo hi He) as [(s & s' & -> & ->) | [(s & -> & ->) | (s & m & e & -> & ->)]].
  - destruct s, s'; reflexivity.
  - destruct s; reflexivity.
  - unfold F64.sub. cbn [SFsub]. rewrite Z.sub_diag. reflexivity.
Qed.

(** On equal bounds every normalized value is NaN. *)
Lemma degenerate_window_nan raw lo hi : F64.eqb lo hi = true ->
  clip_and_normalize (hounsfield raw) (PyFloat lo) (PyFloat hi) = F64.nan.
Proof.
  intros He. cbn [clip_and_normalize to_float].
  rewrite clip_degenerate by (apply hounsfield_not_nan || assumption).
  apply sub_eq_div_nan. exact He.
Qed.


(** ** Parsing the window of a row *)




Lemma comprehension_raise_iff {A B} (f : A -> Py.result B) xs :
  is_raise (Py.comprehension f xs) = existsb (fun x => is_raise (f x)) xs.
Proof.
  induction xs as [|x xs IH]; [reflexivity|]. cbn [Py.comprehension existsb].
  destruct (f x) as [y|e]; cbn [Py.bind is_raise orb]; [|reflexivity].
  rewrite <- IH. destruct (Py.comprehension f xs); reflexivity.
Qed.

Lemma comprehension_length {A B} (f : A -> Py.result B) xs ys :
  Py.comprehension f xs = Py.Ok ys -> List.length ys = List.length xs.
Proof.
  revert ys. induction xs as [|x xs IH]; intros ys; cbn [Py.comprehension].
  - intros H. injection H as <-. reflexivity.
  - destruct (f x) as [y|e]; cbn [Py.bind]; [|discriminate].
    destruct (Py.comprehension f xs) as [zs|e]; cbn [Py.bind]; [|discriminate].
    intros H. injection H as <-. cbn [List.length]. f_equal. apply IH. reflexivity.
Qed.

Lemma index_0 {A} (x : A) xs : Py.index (x :: xs) 0 = Py.Ok x.
Proof.
  unfold Py.index. cbn [List.length]. 
  replace (0 <? 0) with false by reflexivity.
  replace (0 <=? 0) with true by reflexivity.
  destruct (Z.ltb_spec 0 (Z.of_nat (S (List.length xs)))); [reflexivity | lia].
Qed.

Lemma index_1 {A} (x y : A) xs : Py.index (x :: y :: xs) 1 = Py.Ok y.
Proof.
  unfold Py.index. cbn [List.length].
  replace (1 <? 0) with false by reflexivity.
  replace (0 <=? 1) with true by reflexivity.
  destruct (Z.ltb_spec 1 (Z.of_nat (S (S (List.length xs))))); [reflexivity | lia].
Qed.

(** The [try] block raises exactly on the malformed cells. *)
Lemma parse_window_malformed c :
  is_raise (parse_window c) = malformed_window c.
Proof.
  destruct c as [s|]; [|reflexivity]. unfold parse_window, malformed_window.
  rewrite <- comprehension_raise_iff.
  destruct (Py.comprehension _ (Str.split "," s)) as [ws|e] eqn:Hc; cbn [Py.bind is_raise orb];
    [|reflexivity].
  rewrite <- (comprehension_length _ _ _ Hc).
  destruct ws as [|lo [|hi ws]]; try reflexivity.
  rewrite index_0, index_1. reflexivity.
Qed.

Lemma select_window_malformed r : malformed_window (DICOM_windows r) = true ->
  select_window r = (default_window, [invalid_window_message r]).
Proof.
  intros H. rewrite <- parse_window_malformed in H. unfold select_window.
  destruct (parse_window (DICOM_windows r)); [discriminate | reflexivity].
Qed.

Lemma select_window_parsed r w : parse_window (DICOM_windows r) = Py.Ok w ->
  select_window r = (w, []).
Proof. intros H. unfold select_window. rewrite H. reflexivity. Qed.

Lemma run_app glob rows1 rows2 st :
  run glob (rows1 ++ rows2) st = run glob rows2 (run glob rows1 st).
Proof. unfold run. apply fold_left_app. Qed.

(** C6, as the code has it.  A row whose window cell makes the [try] block
    raise (the cell is no text, a field is no float, or there are fewer than
    two fields) gets the default window [(-150, 250)], one message that names
    its file is printed, its slices are converted with the default window and
    the loop goes on with the rows that follow. *)
Theorem malformed_window_falls_back glob before r after st :
  malformed_window (DICOM_windows r) = true ->
  select_window r = (default_window, [invalid_window_message r]) /\
  run glob (before ++ r :: after) st =
  run glob after
      (convert_folder (join dir_in (Str.rsplit1_head "_" (File_name r)))
                      (join dir_out (Str.rsplit1_head "_" (File_name r)))
                      default_window
                      (glob (Str.rsplit1_head "_" (File_name r)))
                      (print (invalid_window_message r) (run glob before st))).
Proof.
  intros H. pose proof (select_window_malformed r H) as Hs. split; [exact Hs|].
  rewrite run_app. unfold run at 1. cbn [fold_left]. fold (run glob after).
  unfold convert_row. rewrite Hs. reflexivity.
Qed.

Lemma malformed_window_falls_back_witness :
  malformed_window
    (DICOM_windows {| File_name := "000001_01_01_109.png"; DICOM_windows := Text "abc" |})
  = true /\
  (select_window {| File_name := "000001_01_01_109.png"; DICOM_windows := Text "abc" |}
   = (default_window,
      [invalid_window_message
         {| File_name := "000001_01_01_109.png"; DICOM_windows := Text "abc" |}]) /\
   run (fun _ => [])
       ([] ++ {| File_name := "000001_01_01_109.png"; DICOM_windows := Text "abc" |} :: [])
       {| written := []; printed := [] |} =
   run (fun _ => []) []
       (convert_folder
          (join dir_in (Str.rsplit1_head "_"
             (File_name {| File_name := "000001_01_01_109.png"; DICOM_windows := Text "abc" |})))
          (join dir_out (Str.rsplit1_head "_"
             (File_name {| File_name := "000001_01_01_109.png"; DICOM_windows := Text "abc" |})))
          default_window
          ((fun _ => [])
             (Str.rsplit1_head "_"
                (File_name {| File_name := "000001_01_01_109.png"; DICOM_windows := Text "abc" |})))
          (print
             (invalid_window_message
                {| File_name := "000001_01_01_109.png"; DICOM_windows := Text "abc" |})
             (run (fun _ => []) [] {| written := []; printed := [] |})))).
Proof.
  split; [vm_compute; reflexivity|].
  apply (malformed_window_falls_back (fun _ => []) []
           {| File_name := "000001_01_01_109.png"; DICOM_windows := Text "abc" |} []
           {| written := []; printed := [] |}).
  vm_compute; reflexivity.
Defined.

(** The three cells the specification names are malformed, like a missing
    cell; a cell with two or with three numbers is not. *)
Example malformed_examples :
  malformed_window (Text "abc") = true /\ malformed_window (Text "1") = true /\
  malformed_window (Text "") = true /\ malformed_window Missing = true /\
  malformed_window (Text "-175, 275") = false /\ malformed_window (Text "1,2,3") = false.
Proof. repeat split; vm_compute; reflexivity. Qed.

(** C6 fails as stated: a cell with three numbers does not parse as exactly
    two floats, and yet the [try] block succeeds on it with the first two. *)
Example three_fields_counterexample :
  let r := {| File_name := "000001_01_01_109.png"; DICOM_windows := Text "1,2,3" |} in
  parses_as_exactly_two_floats (DICOM_windows r) = false /\
  select_window r = ((PyFloat (F64.of_Z 1), PyFloat (F64.of_Z 2)), []) /\
  fst (select_window r) <> default_window.
Proof.
  split; [vm_compute; reflexivity|]. split; [vm_compute; reflexivity|].
  vm_compute. discriminate.
Qed.


(** C1, what the code does.  A window cell that parses to two equal bounds
    is used as it is: nothing is printed and the defaults are not taken.  The
    division then is [0 / 0] in [float64], which raises nothing: every
    normalized value is NaN, the slice is converted without an exception and
    the value of each of its pixels is left open by the cast. *)
Theorem degenerate_window_is_not_replaced r lo hi raw px :
  parse_window (DICOM_windows r) = Py.Ok (PyFloat lo, PyFloat hi) ->
  F64.eqb lo hi = true ->
  select_window r = ((PyFloat lo, PyFloat hi), []) /\
  clip_and_normalize (hounsfield raw) (PyFloat lo) (PyFloat hi) = F64.nan /\
  convert_pixel raw (PyFloat lo) (PyFloat hi) = None /\
  convert_slice (Some px) (PyFloat lo, PyFloat hi) = Py.Ok (map (map (fun _ => None)) px).
Proof.
  intros Hp He. split; [apply select_window_parsed; exact Hp|].
  assert (Hpix : forall raw', convert_pixel raw' (PyFloat lo) (PyFloat hi) = None).
  { intros raw'. unfold convert_pixel, scaled. rewrite degenerate_window_nan by exact He.
    reflexivity. }
  split; [apply degenerate_window_nan; exact He|]. split; [apply Hpix|].
  unfold convert_slice. cbn [fst snd]. f_equal.
  apply map_ext. intros row. apply map_ext. intros raw'. apply Hpix.
Qed.

Lemma degenerate_window_is_not_replaced_witness :
  parse_window
    (DICOM_windows {| File_name := "000001_01_01_109.png"; DICOM_windows := Text "5, 5" |})
  = Py.Ok (PyFloat (F64.of_Z 5), PyFloat (F64.of_Z 5)) /\
  F64.eqb (F64.of_Z 5) (F64.of_Z 5) = true /\
  (select_window {| File_name := "000001_01_01_109.png"; DICOM_windows := Text "5, 5" |}
   = ((PyFloat (F64.of_Z 5), PyFloat (F64.of_Z 5)), []) /\
   clip_and_normalize (hounsfield 32773) (PyFloat (F64.of_Z 5)) (PyFloat (F64.of_Z 5))
   = F64.nan /\
   convert_pixel 32773 (PyFloat (F64.of_Z 5)) (PyFloat (F64.of_Z 5)) = None /\
   convert_slice (Some [[32773; 0]]) (PyFloat (F64.of_Z 5), PyFloat (F64.of_Z 5))
   = Py.Ok (map (map (fun _ => None)) [[32773; 0]])).
Proof.
  split; [vm_compute; reflexivity|]. split; [vm_compute; reflexivity|].
  apply (degenerate_window_is_not_replaced
           {| File_name := "000001_01_01_109.png"; DICOM_windows := Text "5, 5" |}
           (F64.of_Z 5) (F64.of_Z 5) 32773 [[32773; 0]]);
    vm_compute; reflexivity.
Defined.

(** C1 at the cell ["5, 5"]: the window that is used is [(5.0, 5.0)], not
    the default one, and the pixel with Hounsfield value 5 has no specified
    value. *)
Example degenerate_window_counterexample :
  let r := {| File_name := "000001_01_01_109.png"; DICOM_windows := Text "5, 5" |} in
  select_window r = ((PyFloat (F64.of_Z 5), PyFloat (F64.of_Z 5)), []) /\
  fst (select_window r) <> default_window /\
  convert_pixel 32773 (PyFloat (F64.of_Z 5)) (PyFloat (F64.of_Z 5)) = None.
Proof.
  split; [vm_compute; reflexivity|]. split; [|vm_compute; reflexivity].
  vm_compute. discriminate.
Qed.


(** *** What [float] returns is representable *)

(** The sign plays no part in what is representable. *)
Lemma finish_valid s R e : 0 <= R <= 2 ^ 53 -> emin64 <= e -> (emin64 < e -> 2 ^ 52 <= R) ->
  F64.valid (finish s R e) = true.
Proof.
  intros HR He Hn. destruct (finish_good R e HR He Hn) as (Hv & _).
  unfold finish in *. destruct (shr_fexp F64.prec F64.emax R e loc_Exact) as [mrs e'].
  destruct (shr_m mrs); [reflexivity | | reflexivity].
  destruct (e' <=? F64.emax - F64.prec); [exact Hv | reflexivity].
Qed.

Lemma bra_valid s A N E : 0 < N -> 0 <= A -> E <= cexp A N E ->
  F64.valid (binary_round_aux F64.prec F64.emax s (A / N) E (loc_of (A mod N) N)) = true.
Proof.
  intros HN HA HE. rewrite bra_located by assumption.
  pose proof (cexp_mantissa A N E HN HA HE) as [U L].
  assert (HD : 0 < N * 2 ^ (cexp A N E - E)).
  { apply Z.mul_pos_pos; [lia | apply pow2_gt0; lia]. }
  pose proof (rne_bounds A _ HA HD) as B.
  assert (0 <= A / (N * 2 ^ (cexp A N E - E))) by (apply Z.div_pos; lia).
  apply finish_valid.
  - lia.
  - apply cexp_ge.
  - intros Hn. specialize (L Hn). lia.
Qed.

Lemma binary_round_valid s m e : F64.valid (binary_round F64.prec F64.emax s m e) = true.
Proof.
  rewrite binary_round_eq.
  pose proof (rnd_num_pos (Zpos m) e ltac:(lia)) as Hp.
  pose proof (bra_valid s (rnd_num (Zpos m) e) 1 (rnd_exp (Zpos m) e) ltac:(lia) ltac:(lia)
                        (rnd_fine (Zpos m) e ltac:(lia))) as H.
  rewrite Z.div_1_r, Z.mod_1_r in H. exact H.
Qed.

Lemma of_decimal_valid neg mant exp10 : F64.valid (F64.of_decimal neg mant exp10) = true.
Proof.
  unfold F64.of_decimal. destruct mant as [|m]; [reflexivity|].
  destruct (Z.leb_spec 0 exp10) as [He | He]; [apply binary_round_valid|].
  assert (Hp : 0 < 10 ^ (- exp10)) by (apply Z.pow_pos_nonneg; lia).
  destruct (10 ^ (- exp10)) as [|my|my] eqn:Hm; try lia.
  rewrite div_core_eq.
  apply bra_valid; [lia | pose proof (div_num_pos m my 0 0); lia | apply div_fine].
Qed.

Lemma float_valid s x : PyFloat.float s = Py.Ok x -> F64.valid x = true.
Proof.
  unfold PyFloat.float. destruct (PyFloat.sign (Str.strip s)) as [neg body].
  destruct (_ || _); [intros H; injection H as <-; reflexivity|].
  destruct (_ =? _)%string; [intros H; injection H as <-; reflexivity|].
  destruct (PyFloat.floatnumber body) as [[mant e10]|]; [|discriminate].
  intros H. injection H as <-. apply of_decimal_valid.
Qed.

Lemma comprehension_Forall {A B} (f : A -> Py.result B) (P : B -> Prop) xs ys :
  (forall x y, f x = Py.Ok y -> P y) -> Py.comprehension f xs = Py.Ok ys -> Forall P ys.
Proof.
  intros Hf. revert ys. induction xs as [|x xs IH]; intros ys; cbn [Py.comprehension].
  - intros H. injection H as <-. constructor.
  - destruct (f x) as [y|e] eqn:Hx; cbn [Py.bind]; [|discriminate].
    destruct (Py.comprehension f xs) as [zs|e]; cbn [Py.bind]; [|discriminate].
    intros H. injection H as <-. constructor; [eapply Hf; exact Hx | apply IH; reflexivity].
Qed.

Lemma index_In {A} (xs : list A) i x : Py.index xs i = Py.Ok x -> In x xs.
Proof.
  unfold Py.index. destruct (_ && _); [|discriminate].
  destruct (nth_error xs _) as [y|] eqn:Hn; [|discriminate].
  intros H. injection H as <-. eapply nth_error_In. exact Hn.
Qed.

(** Every window the parse returns holds two representable floats. *)
Lemma parse_window_floats c lo hi : parse_window c = Py.Ok (lo, hi) ->
  exists x y, lo = PyFloat x /\ hi = PyFloat y /\ F64.valid x = true /\ F64.valid y = true.
Proof.
  destruct c as [s|]; [|discriminate]. unfold parse_window.
  destruct (Py.comprehension _ (Str.split "," s)) as [ws|e] eqn:Hc; cbn [Py.bind];
    [|discriminate].
  assert (Hall : Forall (fun x => F64.valid x = true) ws).
  { eapply comprehension_Forall; [|exact Hc]. intros v y. apply float_valid. }
  rewrite Forall_forall in Hall.
  destruct (Py.index ws 0) as [a|e] eqn:H0; cbn [Py.bind]; [|discriminate].
  destruct (Py.index ws 1) as [b|e] eqn:H1; cbn [Py.bind]; [|discriminate].
  intros H. injection H as <- <-. exists a, b.
  repeat split; apply Hall; eapply index_In; eassumption.
Qed.

Lemma parsed_window_well_formed c lo hi : parse_window c = Py.Ok (lo, hi) ->
  F64.is_finite (to_float lo) = true -> F64.ltb (to_float lo) (to_float hi) = true ->
  well_formed_window lo hi = true.
Proof.
  intros Hp Hf Hlt.
  destruct (parse_window_floats c lo hi Hp) as (x & y & -> & -> & Vl & Vh).
  cbn [well_formed_window to_float] in *. rewrite Vl, Vh, Hf, Hlt. reflexivity.
Qed.

Lemma default_window_well_formed :
  well_formed_window (fst default_window) (snd default_window) = true.
Proof. reflexivity. Qed.

(** The lower bound of a well-formed window has to be finite: [float] reads
    ["-inf"], and then the division is [inf / inf]. *)
Example infinite_lower_bound :
  parse_window (Text "-inf, 100")
  = Py.Ok (PyFloat (S754_infinity true), PyFloat (F64.of_Z 100)) /\
  well_formed_window (PyFloat (S754_infinity true)) (PyFloat (F64.of_Z 100)) = false /\
  clip_and_normalize (hounsfield 32768) (PyFloat (S754_infinity true)) (PyFloat (F64.of_Z 100))
  = F64.nan.
Proof. repeat split; vm_compute; reflexivity. Qed.

(** ** Label lookup *)

Lemma index_ok {A} (xs : list A) (i : Z) (d : A) :
  - Z.of_nat (List.length xs) <= i < Z.of_nat (List.length xs) ->
  Py.index xs i = Py.Ok (nth (Z.to_nat (wrapped_index (Z.of_nat (List.length xs)) i)) xs d).
Proof.
  unfold Py.index, wrapped_index. set (n := Z.of_nat (List.length xs)). intros H.
  assert (Hj : 0 <= (if i <? 0 then i + n else i) < n) by (destruct (Z.ltb_spec i 0); lia).
  set (j := if i <? 0 then i + n else i) in *.
  destruct (Z.leb_spec 0 j); [|lia]. destruct (Z.ltb_spec j n); [|lia]. cbn [andb].
  destruct (nth_error xs (Z.to_nat j)) as [x|] eqn:Hn.
  - f_equal. symmetry. apply nth_error_nth. exact Hn.
  - apply nth_error_None in Hn. unfold n in *. lia.
Qed.

Lemma index_raise {A} (xs : list A) (i : Z) :
  i < - Z.of_nat (List.length xs) \/ Z.of_nat (List.length xs) <= i ->
  Py.index xs i = Py.Raise Py.IndexError.
Proof.
  unfold Py.index. set (n := Z.of_nat (List.length xs)). intros H.
  set (j := if i <? 0 then i + n else i).
  assert (Hj : j < 0 \/ n <= j) by (unfold j; destruct (Z.ltb_spec i 0); lia).
  destruct (Z.leb_spec 0 j), (Z.ltb_spec j n); cbn [andb]; try reflexivity. lia.
Qed.

Lemma index_raise_only {A} (xs : list A) (i : Z) e :
  Py.index xs i = Py.Raise e -> e = Py.IndexError.
Proof.
  unfold Py.index. destruct (_ && _); [|congruence].
  destruct (nth_error _ _); congruence.
Qed.

Lemma index_raise_iff {A} (xs : list A) (i : Z) :
  is_raise (Py.index xs i) = true <->
  (i < - Z.of_nat (List.length xs) \/ Z.of_nat (List.length xs) <= i).
Proof.
  split.
  - intros H. destruct (Z.lt_ge_cases i (- Z.of_nat (List.length xs))); [lia|].
    destruct (Z.le_gt_cases (Z.of_nat (List.length xs)) i); [lia|].
    destruct xs as [|d xs']; [cbn [List.length] in *; lia|].
    rewrite (index_ok (d :: xs') i d) in H by lia. discriminate.
  - intros H. rewrite index_raise by assumption. reflexivity.
Qed.

Lemma comprehension_index_raise {A} (xs : list A) ls e :
  Py.comprehension (fun l => Py.index xs l) ls = Py.Raise e -> e = Py.IndexError.
Proof.
  induction ls as [|l ls IH]; cbn [Py.comprehension]; [discriminate|].
  destruct (Py.index xs l) as [x|e'] eqn:Hl; cbn [Py.bind].
  - destruct (Py.comprehension _ ls) as [ys|e'] eqn:Hc; cbn [Py.bind]; [discriminate|].
    intros H. injection H as <-. apply IH. reflexivity.
  - intros H. injection H as <-. eapply index_raise_only. exact Hl.
Qed.

(** The lookup raises exactly when some index is out of range. *)
Lemma get_class_labels_raise cl xs :
  is_raise (_get_class_labels xs cl) = true <->
  exists x, In x xs /\
            (Np.astype_int x < - Z.of_nat (List.length cl)
             \/ Z.of_nat (List.length cl) <= Np.astype_int x).
Proof.
  unfold _get_class_labels. rewrite comprehension_raise_iff, existsb_exists. split.
  - intros (l & Hin & Hl). apply in_map_iff in Hin. destruct Hin as (x & <- & Hin).
    exists x. split; [assumption|]. apply index_raise_iff. exact Hl.
  - intros (x & Hin & Hx). exists (Np.astype_int x). split.
    + apply in_map. exact Hin.
    + apply index_raise_iff. exact Hx.
Qed.

Lemma raise_index_error {A} (r : Py.result A) :
  (forall e, r = Py.Raise e -> e = Py.IndexError) -> is_raise r = true ->
  r = Py.Raise Py.IndexError.
Proof.
  intros H Hr. destruct r as [a|e]; [discriminate|]. rewrite (H e eq_refl). reflexivity.
Qed.

(** C8.  A record whose class index, cast to an integer, is at least the
    length of the class list makes the label lookup raise [IndexError] for
    the whole call; the index is not clamped and the record is not dropped. *)
Theorem class_index_too_large_raises cl xs x :
  In x xs -> Z.of_nat (List.length cl) <= Np.astype_int x ->
  _get_class_labels xs cl = Py.Raise Py.IndexError.
Proof.
  intros Hin Hx. apply raise_index_error.
  - intros e. apply comprehension_index_raise.
  - apply get_class_labels_raise. exists x. split; [assumption | right; assumption].
Qed.

Lemma class_index_too_large_raises_witness :
  In (F64.of_Z 5) [F64.of_Z 0; F64.of_Z 5] /\
  Z.of_nat (List.length ["a"; "b"; "c"]) <= Np.astype_int (F64.of_Z 5) /\
  _get_class_labels [F64.of_Z 0; F64.of_Z 5] ["a"; "b"; "c"] = Py.Raise Py.IndexError.
Proof.
  split; [right; left; reflexivity|].
  split; [apply Z.leb_le; vm_compute; reflexivity|].
  apply (class_index_too_large_raises ["a"; "b"; "c"] [F64.of_Z 0; F64.of_Z 5] (F64.of_Z 5));
    [right; left; reflexivity | apply Z.leb_le; vm_compute; reflexivity].
Defined.

(** C9.  A record whose class index is a negative integer [n] with
    [-len <= n <= -1] gets the label at position [len + n], as Python reads
    negative indices; the lookup raises [IndexError] exactly when some index
    is at least [len] or below [-len]. *)
Theorem negative_class_index_counts_from_end cl x n :
  Np.astype_int x = n -> - Z.of_nat (List.length cl) <= n <= -1 ->
  _get_class_labels [x] cl =
    Py.Ok [nth (Z.to_nat (Z.of_nat (List.length cl) + n)) cl ""%string] /\
  (forall xs,
     _get_class_labels xs cl = Py.Raise Py.IndexError <->
     exists y, In y xs /\
               (Np.astype_int y < - Z.of_nat (List.length cl)
                \/ Z.of_nat (List.length cl) <= Np.astype_int y)).
Proof.
  intros Hn Hr. split.
  - unfold _get_class_labels. cbn [map Py.comprehension]. rewrite Hn.
    rewrite (index_ok cl n ""%string) by lia. cbn [Py.bind].
    unfold wrapped_index. destruct (Z.ltb_spec n 0); [|lia].
    do 3 f_equal. lia.
  - intros xs. rewrite <- get_class_labels_raise. split.
    + intros ->. reflexivity.
    + intros H. apply raise_index_error; [|exact H].
      intros e. apply comprehension_index_raise.
Qed.

Lemma negative_class_index_counts_from_end_witness :
  Np.astype_int (F64.of_Z (-1)) = -1 /\
  - Z.of_nat (List.length ["a"; "b"; "c"]) <= -1 <= -1 /\
  (_get_class_labels [F64.of_Z (-1)] ["a"; "b"; "c"] =
     Py.Ok [nth (Z.to_nat (Z.of_nat (List.length ["a"; "b"; "c"]) + -1)) ["a"; "b"; "c"]
                ""%string] /\
   (forall xs,
      _get_class_labels xs ["a"; "b"; "c"] = Py.Raise Py.IndexError <->
      exists y, In y xs /\
                (Np.astype_int y < - Z.of_nat (List.length ["a"; "b"; "c"])
                 \/ Z.of_nat (List.length ["a"; "b"; "c"]) <= Np.astype_int y))).
Proof.
  split; [vm_compute; reflexivity|]. split; [cbn; lia|].
  apply (negative_class_index_counts_from_end ["a"; "b"; "c"] (F64.of_Z (-1)) (-1));
    [vm_compute; reflexivity | cbn; lia].
Defined.


(** ** The detection converter *)
Lemma set_length r i v : List.length (set r i v) = List.length r.
Proof.
  revert i. induction r as [|x r IH]; intros i; [reflexivity|].
  destruct i; cbn [set List.length]; [reflexivity | f_equal; apply IH].
Qed.

Lemma ncols_map f (a : Np.ndarray) :
  (forall r, List.length (f r) = List.length r) -> Np.ncols (map f a) = Np.ncols a.
Proof. intros H. destruct a as [|r a]; [reflexivity | apply H]. Qed.

(** [_uncenter_boxes] on rows of six fields or more. *)
Lemma uncenter_boxes_rows n (a : Np.ndarray) :
  a <> [] -> Forall (fun r => List.length r = n) a -> (6 <= n)%nat ->
  _uncenter_boxes a = Py.Ok (map uncentered_row a).
Proof.
  intros Hne Hall Hn.
  assert (Hc : Np.ncols a = n).
  { destruct a as [|r a]; [congruence|]. inversion Hall; subst. reflexivity. }
  unfold _uncenter_boxes, uncenter_column at 1. unfold box_columns. rewrite Hc.
  destruct (Nat.ltb_spec 0 (n - 2)); [|lia]. destruct (Nat.ltb_spec 2 (n - 2)); [|lia].
  cbn [andb Py.bind]. unfold uncenter_column, box_columns.
  rewrite ncols_map by (intros r; apply set_length). rewrite Hc.
  destruct (Nat.ltb_spec 1 (n - 2)); [|lia]. destruct (Nat.ltb_spec 3 (n - 2)); [|lia].
  cbn [andb]. f_equal. rewrite map_map. apply map_ext_Forall.
  eapply Forall_impl; [|exact Hall]. intros r Hr.
  destruct r as [|c [|cx [|cy [|w [|h rest]]]]]; cbn [List.length] in Hr; try lia.
  reflexivity.
Qed.

Lemma uncentered_row_parts r : (6 <= List.length r)%nat ->
  middle (uncentered_row r) = box_of_row r /\
  last (uncentered_row r) F64.nan = last r F64.nan /\
  hd F64.nan (uncentered_row r) = hd F64.nan r /\
  List.length (box_of_row r) = (List.length r - 2)%nat.
Proof.
  intros Hr.
  destruct r as [|c [|cx [|cy [|w [|h [|k rest]]]]]]; cbn [List.length] in Hr; try lia.
  unfold middle. cbn [uncentered_row box_of_row tl hd].
  assert (Hrl : forall (x y : F64.t) xs, removelast (x :: y :: xs) = x :: removelast (y :: xs))
    by reflexivity.
  assert (Hl : forall (x y : F64.t) xs, last (x :: y :: xs) F64.nan = last (y :: xs) F64.nan)
    by reflexivity.
  rewrite !Hrl, !Hl. repeat split.
  cbn [List.length]. rewrite removelast_firstn_len, length_firstn. cbn [List.length]. lia.
Qed.

Lemma zip3_boxes labels confs (boxes : list (list F64.t)) n :
  Forall (fun b => List.length b = n) boxes ->
  Forall (fun d => List.length (bounding_box d) = n) (zip3 labels confs boxes).
Proof.
  intros H. revert labels confs.
  induction H as [|b boxes Hb _ IH]; intros labels confs.
  - destruct labels, confs; constructor.
  - destruct labels as [|l labels], confs as [|c confs]; try constructor.
    + exact Hb.
    + apply IH.
Qed.

Lemma uncenter_boxes_short n (a : Np.ndarray) :
  a <> [] -> Forall (fun r => List.length r = n) a -> (n < 6)%nat ->
  _uncenter_boxes a = Py.Raise Py.IndexError.
Proof.
  intros Hne Hall Hn.
  assert (Hc : Np.ncols a = n).
  { destruct a as [|r a]; [congruence|]. inversion Hall; subst. reflexivity. }
  unfold _uncenter_boxes, uncenter_column at 1. unfold box_columns. rewrite Hc.
  destruct (Nat.ltb_spec 0 (n - 2)), (Nat.ltb_spec 2 (n - 2)); cbn [andb Py.bind];
    try reflexivity.
  unfold uncenter_column, box_columns.
  rewrite ncols_map by (intros r; apply set_length). rewrite Hc.
  destruct (Nat.ltb_spec 1 (n - 2)), (Nat.ltb_spec 3 (n - 2)); cbn [andb];
    try reflexivity. lia.
Qed.

Lemma size_nonzero n (a : Np.ndarray) :
  a <> [] -> Forall (fun r => List.length r = n) a -> (1 <= n)%nat ->
  Nat.eqb (Np.size a) 0 = false.
Proof.
  intros Hne Hall Hn. apply Nat.eqb_neq. unfold Np.size.
  destruct a as [|r a]; [congruence|]. inversion Hall; subst.
  cbn [List.length Np.ncols]. lia.
Qed.

(** C5, as the code has it.  For an array whose rows have [n] fields the
    converter takes the first field as the class index, the last one as the
    confidence and every field in between as the box, the first two of them
    moved from the centre to the corner: with [n >= 6] each box has [n - 2]
    components, four exactly when [n = 6], and with [n < 6] the conversion
    raises [IndexError]. *)
Theorem converter_keeps_all_middle_fields n cl (yolo_detections : Np.ndarray) :
  yolo_detections <> [] ->
  Forall (fun r => List.length r = n) yolo_detections -> (1 <= n)%nat ->
  ((n < 6)%nat ->
   convert_yolo_detections_to_fiftyone yolo_detections cl = Py.Raise Py.IndexError) /\
  ((6 <= n)%nat ->
   forall labels,
     _get_class_labels (map (fun r => hd F64.nan r) yolo_detections) cl = Py.Ok labels ->
     convert_yolo_detections_to_fiftyone yolo_detections cl =
       Py.Ok (zip3 labels (map (fun r => last r F64.nan) yolo_detections)
                   (map box_of_row yolo_detections)) /\
     Forall (fun d => List.length (bounding_box d) = (n - 2)%nat)
            (zip3 labels (map (fun r => last r F64.nan) yolo_detections)
                  (map box_of_row yolo_detections))).
Proof.
  intros Hne Hall H1.
  pose proof (size_nonzero n yolo_detections Hne Hall H1) as Hs.
  split.
  - intros Hn. unfold convert_yolo_detections_to_fiftyone.
    rewrite Hs, (uncenter_boxes_short n) by assumption. reflexivity.
  - intros Hn labels Hl.
    assert (Hparts : Forall (fun r => (6 <= List.length r)%nat) yolo_detections).
    { eapply Forall_impl; [|exact Hall]. intros r Hr. cbn beta in Hr. lia. }
    split.
    + unfold convert_yolo_detections_to_fiftyone.
      rewrite Hs, (uncenter_boxes_rows n) by assumption. cbn [Py.bind].
      rewrite !map_map.
      rewrite (map_ext_Forall (fun r => hd F64.nan (uncentered_row r))
                              (fun r => hd F64.nan r)).
      2:{ eapply Forall_impl; [|exact Hparts]. intros r Hr.
          apply uncentered_row_parts. exact Hr. }
      rewrite Hl. cbn [Py.bind]. f_equal. f_equal.
      * apply map_ext_Forall. eapply Forall_impl; [|exact Hparts].
        intros r Hr. apply uncentered_row_parts. exact Hr.
      * apply map_ext_Forall. eapply Forall_impl; [|exact Hparts].
        intros r Hr. apply uncentered_row_parts. exact Hr.
    + apply zip3_boxes. apply Forall_map. eapply Forall_impl; [|exact Hall].
      intros r Hr. cbn beta in *. subst n. apply uncentered_row_parts. lia.
Qed.

Lemma converter_keeps_all_middle_fields_witness :
  [map F64.of_Z [2; 1; 1; 1; 1; 1]] <> [] /\
  Forall (fun r => List.length r = 6%nat) [map F64.of_Z [2; 1; 1; 1; 1; 1]] /\
  (1 <= 6)%nat /\
  convert_yolo_detections_to_fiftyone [map F64.of_Z [2; 1; 1; 1; 1; 1]] ["a"; "b"; "c"] =
    Py.Ok (zip3 ["c"] (map (fun r => last r F64.nan) [map F64.of_Z [2; 1; 1; 1; 1; 1]])
                (map box_of_row [map F64.of_Z [2; 1; 1; 1; 1; 1]])) /\
  Forall (fun d => List.length (bounding_box d) = (6 - 2)%nat)
         (zip3 ["c"] (map (fun r => last r F64.nan) [map F64.of_Z [2; 1; 1; 1; 1; 1]])
               (map box_of_row [map F64.of_Z [2; 1; 1; 1; 1; 1]])).
Proof.
  split; [discriminate|]. split; [repeat constructor|]. split; [lia|].
  apply (proj2 (converter_keeps_all_middle_fields 6 ["a"; "b"; "c"]
                  [map F64.of_Z [2; 1; 1; 1; 1; 1]]
                  ltac:(discriminate) ltac:(repeat constructor) ltac:(lia)));
    [lia | vm_compute; reflexivity].
Defined.

(** C5 fails as stated: a line with seven fields gives a box with five
    components, and a line with five fields makes the converter raise. *)
Example seven_fields_counterexample :
  let fs := fun _ : string => Some "0 0.5 0.5 0.2 0.4 0.9 0.1" in
  (exists d, detections_of_file fs "img.txt" ["lesion"] = Py.Ok [d] /\
             List.length (bounding_box d) = 5%nat /\ label d = "lesion") /\
  detections_of_file (fun _ => Some "0 0.5 0.5 0.2 0.4") "img.txt" ["lesion"]
    = Py.Raise Py.IndexError.
Proof.
  split; [|vm_compute; reflexivity].
  eexists. split; [vm_compute; reflexivity|]. split; reflexivity.
Qed.

(** The line of the specification: class 2 of [a, b, c], box
    [0.4, 0.3, 0.2, 0.4], confidence 0.9, bit for bit. *)
Example six_fields_example :
  detections_of_file (fun _ => Some "2 0.5 0.5 0.2 0.4 0.9
") "img.txt" ["a"; "b"; "c"] =
  match PyFloat.float "0.4", PyFloat.float "0.3", PyFloat.float "0.2", PyFloat.float "0.9" with
  | Py.Ok x, Py.Ok y, Py.Ok w, Py.Ok c =>
      Py.Ok [{| label := "c"; bounding_box := [x; y; w; x]; confidence := c |}]
  | _, _, _, _ => Py.Raise Py.ValueError
  end.
Proof. vm_compute. reflexivity. Qed.

(** *** Missing and empty files *)

(** C7.  For a path at which no file exists, and for a file that is empty,
    reading gives the array of size 0 and the converter gives no detections;
    nothing is raised. *)
Theorem missing_or_empty_file_has_no_detections (fs : filesystem) filepath cl :
  fs filepath = None \/ fs filepath = Some "" ->
  read_yolo_detections_file fs filepath = Py.Ok [] /\
  convert_yolo_detections_to_fiftyone [] cl = Py.Ok [] /\
  detections_of_file fs filepath cl = Py.Ok [].
Proof.
  intros H.
  assert (Hr : read_yolo_detections_file fs filepath = Py.Ok []).
  { unfold read_yolo_detections_file. destruct H as [-> | ->]; reflexivity. }
  split; [exact Hr|]. split; [reflexivity|].
  unfold detections_of_file. rewrite Hr. reflexivity.
Qed.

Lemma missing_or_empty_file_has_no_detections_witness :
  ((fun _ : string => @None string) "runs/img_1.txt" = None \/
   (fun _ : string => @None string) "runs/img_1.txt" = Some "") /\
  (read_yolo_detections_file (fun _ => None) "runs/img_1.txt" = Py.Ok [] /\
   convert_yolo_detections_to_fiftyone [] ["a"] = Py.Ok [] /\
   detections_of_file (fun _ => None) "runs/img_1.txt" ["a"] = Py.Ok []).
Proof.
  split; [left; reflexivity|].
  apply (missing_or_empty_file_has_no_detections (fun _ => None) "runs/img_1.txt" ["a"]).
  left; reflexivity.
Defined.

(** *** The prediction path *)

(** C10.  The prediction path depends on the last component of the input
    path only: [run_number] plays no part in it, for the string made from it
    is never used. *)
Theorem prediction_path_ignores_run_number filepath1 filepath2 run1 run2 :
  Str.last_piece (Str.split "/" filepath1) = Str.last_piece (Str.split "/" filepath2) ->
  get_prediction_filepath filepath1 run1 = get_prediction_filepath filepath2 run2.
Proof. intros H. unfold get_prediction_filepath. rewrite H. reflexivity. Qed.

Lemma prediction_path_ignores_run_number_witness :
  Str.last_piece (Str.split "/" "data/a/img_1.png")
  = Str.last_piece (Str.split "/" "other/img_1.png") /\
  get_prediction_filepath "data/a/img_1.png" 1 = get_prediction_filepath "other/img_1.png" 7.
Proof.
  split; [vm_compute; reflexivity|].
  apply (prediction_path_ignores_run_number "data/a/img_1.png" "other/img_1.png" 1 7).
  vm_compute; reflexivity.
Defined.

(** ** Splitting at a character *)

(** [split] always returns a piece. *)
Lemma split_nonempty c s : Str.split c s <> [].
Proof.
  destruct s as [|x s]; cbn [Str.split]; [discriminate|].
  destruct (Ascii.eqb x c); [discriminate|].
  destruct (Str.split c s); discriminate.
Qed.

(** A text without the separator is one piece. *)
Lemma split_without c s : has_char c s = false -> Str.split c s = [s].
Proof.
  induction s as [|x s IH]; cbn [has_char Str.split]; [reflexivity|].
  intros H. apply orb_false_iff in H. destruct H as [Hx Hs].
  rewrite Hx, (IH Hs). reflexivity.
Qed.

(** Splitting goes through an occurrence of the separator. *)
Lemma split_app c a b :
  Str.split c (a ++ String c b) = Str.split c a ++ Str.split c b.
Proof.
  induction a as [|x a IH]; cbn [String.append Str.split app].
  - rewrite Ascii.eqb_refl. reflexivity.
  - destruct (Ascii.eqb x c); [rewrite IH; reflexivity|].
    rewrite IH. destruct (Str.split c a) as [|w ws] eqn:Ha; [|reflexivity].
    exfalso. exact (split_nonempty c a Ha).
Qed.

Lemma has_char_app c a b : has_char c (a ++ b) = has_char c a || has_char c b.
Proof.
  induction a as [|x a IH]; cbn [String.append has_char]; [reflexivity|].
  rewrite IH. apply orb_assoc.
Qed.

Lemma last_app_nonempty {A} (l1 l2 : list A) d : l2 <> [] -> last (l1 ++ l2) d = last l2 d.
Proof.
  intros H. induction l1 as [|x l1 IH]; [reflexivity|].
  cbn [app]. destruct (l1 ++ l2) eqn:E.
  - apply app_eq_nil in E. destruct E as [_ E]. contradiction.
  - rewrite <- IH. reflexivity.
Qed.

Lemma append_assoc (a b c : string) : ((a ++ b) ++ c = a ++ (b ++ c))%string.
Proof. induction a as [|x a IH]; cbn [String.append]; [reflexivity | rewrite IH; reflexivity]. Qed.

Lemma rev_acc_app s acc : Str.rev_acc s acc = (Str.rev_acc s "" ++ acc)%string.
Proof.
  revert acc. induction s as [|c s IH]; intros acc; cbn [Str.rev_acc]; [reflexivity|].
  rewrite (IH (String c acc)), (IH (String c "")), append_assoc. reflexivity.
Qed.

(** Reversal of an appended text. *)
Lemma rev_app x y : Str.rev (x ++ y) = (Str.rev y ++ Str.rev x)%string.
Proof.
  unfold Str.rev. induction x as [|c x IH]; cbn [String.append Str.rev_acc].
  - induction (Str.rev_acc y "") as [|d r IHr]; cbn [String.append]; [reflexivity|].
    rewrite <- IHr. reflexivity.
  - rewrite (rev_acc_app (x ++ y)), IH, (rev_acc_app x (String c "")), append_assoc.
    reflexivity.
Qed.

(** ** The prediction path *)

(** The stem of a plain file name. *)
Lemma stem_of_basename stem ext :
  has_char "/" stem = false -> has_char "." stem = false -> has_char "/" ext = false ->
  Str.first_piece (Str.split "." (Str.last_piece (Str.split "/" (stem ++ "." ++ ext)))) = stem.
Proof.
  intros Hs Hd He.
  rewrite (split_without "/"); [|rewrite !has_char_app, Hs, He; reflexivity].
  cbn [Str.last_piece last]. change ("." ++ ext)%string with (String "." ext).
  rewrite split_app, (split_without "." stem Hd). reflexivity.
Qed.

(** X1.  For an image path [dir/stem.ext], [stem.ext] or [dir/stem] whose stem
    has no slash and no dot, the prediction path is the labels directory
    followed by the stem and [.txt]: the directories are dropped and the name
    is cut at its first dot, for every [run_number]. *)
Theorem prediction_path_of_image dir stem ext run_number :
  has_char "/" stem = false -> has_char "." stem = false -> has_char "/" ext = false ->
  get_prediction_filepath (dir ++ "/" ++ stem ++ "." ++ ext) run_number
    = (labels_dir ++ stem ++ ".txt")%string /\
  get_prediction_filepath (stem ++ "." ++ ext) run_number
    = (labels_dir ++ stem ++ ".txt")%string /\
  get_prediction_filepath (dir ++ "/" ++ stem) run_number
    = (labels_dir ++ stem ++ ".txt")%string.
Proof.
  intros Hs Hd He. unfold get_prediction_filepath.
  assert (Hb := stem_of_basename stem ext Hs Hd He).
  split; [|split].
  - change ("/" ++ stem ++ "." ++ ext)%string with (String "/" (stem ++ "." ++ ext)).
    rewrite split_app. unfold Str.last_piece at 1.
    rewrite last_app_nonempty by apply split_nonempty.
    fold (Str.last_piece (Str.split "/" (stem ++ "." ++ ext))). rewrite Hb. reflexivity.
  - rewrite Hb. reflexivity.
  - change ("/" ++ stem)%string with (String "/" stem).
    rewrite split_app. unfold Str.last_piece.
    rewrite last_app_nonempty by apply split_nonempty.
    rewrite (split_without "/" stem Hs). cbn [last].
    rewrite (split_without "." stem Hd). reflexivity.
Qed.

Lemma prediction_path_of_image_witness :
  has_char "/" "scan_7" = false /\ has_char "." "scan_7" = false /\
  has_char "/" "v2.png" = false /\
  get_prediction_filepath ("data/val" ++ "/" ++ "scan_7" ++ "." ++ "v2.png") 2
    = (labels_dir ++ "scan_7" ++ ".txt")%string /\
  get_prediction_filepath ("scan_7" ++ "." ++ "v2.png") 2
    = (labels_dir ++ "scan_7" ++ ".txt")%string /\
  get_prediction_filepath ("data/val" ++ "/" ++ "scan_7") 2
    = (labels_dir ++ "scan_7" ++ ".txt")%string.
Proof.
  split; [reflexivity|]. split; [reflexivity|]. split; [reflexivity|].
  apply (prediction_path_of_image "data/val" "scan_7" "v2.png" 2); reflexivity.
Defined.

(** ** Reading a prediction file *)

(** A comprehension succeeds when each element does, with the results in
    order. *)
Lemma comprehension_ok_iff {A B} (f : A -> Py.result B) xs ys :
  Py.comprehension f xs = Py.Ok ys <-> Forall2 (fun x y => f x = Py.Ok y) xs ys.
Proof.
  revert ys. induction xs as [|x xs IH]; intros ys; cbn [Py.comprehension].
  - split.
    + intros H. injection H as <-. constructor.
    + intros H. inversion H. reflexivity.
  - split.
    + destruct (f x) as [y|e] eqn:Hx; cbn [Py.bind]; [|discriminate].
      destruct (Py.comprehension f xs) as [zs|e] eqn:Hc; cbn [Py.bind]; [|discriminate].
      intros H. injection H as <-. constructor; [exact Hx | apply IH; reflexivity].
    + intros H. inversion H as [|x' y xs' zs Hx Hr]; subst.
      rewrite Hx. cbn [Py.bind]. apply IH in Hr. rewrite Hr. reflexivity.
Qed.

(** A comprehension raises what one of its elements raises. *)
Lemma comprehension_raise_only {A B} (f : A -> Py.result B) (e0 : Py.exn) xs e :
  (forall x e', f x = Py.Raise e' -> e' = e0) ->
  Py.comprehension f xs = Py.Raise e -> e = e0.
Proof.
  intros Hf. induction xs as [|x xs IH]; cbn [Py.comprehension]; [discriminate|].
  destruct (f x) as [y|e'] eqn:Hx; cbn [Py.bind].
  - destruct (Py.comprehension f xs) as [zs|e'']; cbn [Py.bind]; [discriminate|].
    intros H. injection H as <-. apply IH. reflexivity.
  - intros H. injection H as <-. eapply Hf. exact Hx.
Qed.

(** [float] raises [ValueError] only. *)
Lemma float_raise_only s e : PyFloat.float s = Py.Raise e -> e = Py.ValueError.
Proof.
  unfold PyFloat.float. destruct (PyFloat.sign (Str.strip s)) as [neg body].
  destruct (_ || _); [discriminate|].
  destruct (_ =? _)%string; [discriminate|].
  destruct (PyFloat.floatnumber body) as [[mant e10]|]; [discriminate|].
  intros H. injection H as <-. reflexivity.
Qed.

(** [np.array] returns the rows as they are, when they have one length. *)
Lemma array_ok rows a : Np.array rows = Py.Ok a ->
  a = rows /\ Forall (fun r => List.length r = Np.ncols rows) rows.
Proof.
  unfold Np.array. destruct (forallb _ rows) eqn:Hf; [|discriminate].
  intros H. injection H as <-. split; [reflexivity|].
  apply Forall_forall. intros r Hr. rewrite forallb_forall in Hf.
  apply Nat.eqb_eq. apply Hf. exact Hr.
Qed.

(** The reader on a file that exists, in terms of the fields of its lines. *)
Lemma read_existing fs filepath text :
  fs filepath = Some text ->
  read_yolo_detections_file fs filepath =
  (detections <- Py.comprehension (Py.comprehension PyFloat.float) (fields_of text) ;;
   Np.array detections).
Proof. intros H. unfold read_yolo_detections_file, fields_of. rewrite H. reflexivity. Qed.

Lemma fields_nonempty text : Forall (fun line => line <> []) (fields_of text).
Proof.
  unfold fields_of. apply Forall_forall. intros l Hl. apply in_map_iff in Hl.
  destruct Hl as (line & <- & _). apply split_nonempty.
Qed.

Lemma Forall2_length_rows {A B} (f : A -> Py.result B) (ls : list (list A)) rows :
  Forall2 (fun l r => Py.comprehension f l = Py.Ok r) ls rows ->
  Forall (fun l => l <> []) ls -> Forall (fun r => (1 <= List.length r)%nat) rows.
Proof.
  induction 1 as [|l r ls rows Hlr _ IH]; intros Hne; [constructor|].
  inversion Hne as [|? ? Hl Hls]; subst. constructor; [|apply IH; exact Hls].
  rewrite (comprehension_length _ _ _ Hlr). destruct l; [contradiction | cbn; lia].
Qed.

(** X2.  Every array the reader returns is rectangular: its rows have one
    length [n >= 1], every element is a representable [float64], and for a
    file that exists there is one row for each line. *)
Theorem reader_returns_rectangular_array fs filepath a :
  read_yolo_detections_file fs filepath = Py.Ok a ->
  (exists n, (1 <= n)%nat /\ Forall (fun r => List.length r = n) a) /\
  Forall (Forall (fun x => F64.valid x = true)) a /\
  (forall text, fs filepath = Some text ->
                List.length a = List.length (Str.readlines (universal_newlines text))).
Proof.
  intros H. destruct (fs filepath) as [text|] eqn:Hfs.
  - rewrite (read_existing fs filepath text Hfs) in H.
    destruct (Py.comprehension _ (fields_of text)) as [rows|e] eqn:Hc; cbn [Py.bind] in H;
      [|discriminate].
    apply array_ok in H. destruct H as [-> Hrect].
    assert (Hlen := comprehension_length _ _ _ Hc).
    assert (Hval : Forall (Forall (fun x => F64.valid x = true)) rows).
    { eapply comprehension_Forall; [|exact Hc]. intros l r Hl.
      eapply comprehension_Forall; [|exact Hl]. intros s x. apply float_valid. }
    apply comprehension_ok_iff in Hc.
    assert (Hpos := Forall2_length_rows _ _ _ Hc (fields_nonempty text)).
    split; [|split; [exact Hval|]].
    + destruct rows as [|r rows]; [exists 1%nat; split; [lia | constructor]|].
      exists (List.length r). split; [|exact Hrect].
      inversion Hpos; assumption.
    + intros text' Ht. injection Ht as <-. rewrite Hlen. unfold fields_of.
      apply length_map.
  - unfold read_yolo_detections_file in H. rewrite Hfs in H. injection H as <-.
    split; [exists 1%nat; split; [lia | constructor]|]. split; [constructor|].
    intros text Ht. discriminate.
Qed.

Lemma reader_returns_rectangular_array_witness :
  read_yolo_detections_file (fun _ => Some "0 0.5 0.5 0.2 0.4 0.9
1 0.25 0.25 0.5 0.5 0.7
") "img.txt"
  = Py.Ok [[F64.of_Z 0; S754_finite false 4503599627370496 (-53);
            S754_finite false 4503599627370496 (-53);
            S754_finite false 7205759403792794 (-55);
            S754_finite false 7205759403792794 (-54);
            S754_finite false 8106479329266893 (-53)];
           [F64.of_Z 1; S754_finite false 4503599627370496 (-54);
            S754_finite false 4503599627370496 (-54);
            S754_finite false 4503599627370496 (-53);
            S754_finite false 4503599627370496 (-53);
            S754_finite false 6305039478318694 (-53)]] /\
  (exists n, (1 <= n)%nat /\
     Forall (fun r => List.length r = n)
       [[F64.of_Z 0; S754_finite false 4503599627370496 (-53);
            S754_finite false 4503599627370496 (-53);
            S754_finite false 7205759403792794 (-55);
            S754_finite false 7205759403792794 (-54);
            S754_finite false 8106479329266893 (-53)];
           [F64.of_Z 1; S754_finite false 4503599627370496 (-54);
            S754_finite false 4503599627370496 (-54);
            S754_finite false 4503599627370496 (-53);
            S754_finite false 4503599627370496 (-53);
            S754_finite false 6305039478318694 (-53)]]).
Proof.
  split; [vm_compute; reflexivity|].
  apply (reader_returns_rectangular_array (fun _ => Some "0 0.5 0.5 0.2 0.4 0.9
1 0.25 0.25 0.5 0.5 0.7
") "img.txt").
  vm_compute; reflexivity.
Defined.

(** Whatever the reader raises is a [ValueError]. *)
Lemma read_raise_value_error fs filepath e :
  read_yolo_detections_file fs filepath = Py.Raise e -> e = Py.ValueError.
Proof.
  unfold read_yolo_detections_file. destruct (fs filepath) as [text|]; [|discriminate].
  destruct (Py.comprehension _ _) as [rows|e'] eqn:Hc; cbn [Py.bind].
  - unfold Np.array. destruct (forallb _ rows); [discriminate|].
    intros H. injection H as <-. reflexivity.
  - intros H. injection H as <-.
    eapply comprehension_raise_only; [|exact Hc].
    intros l e'' Hl. eapply comprehension_raise_only; [|exact Hl].
    intros s. apply float_raise_only.
Qed.

Lemma existsb_ext_in {A} (f g : A -> bool) xs :
  (forall x, f x = g x) -> existsb f xs = existsb g xs.
Proof.
  intros H. induction xs as [|x xs IH]; [reflexivity|]. cbn [existsb]. rewrite H, IH. reflexivity.
Qed.

(** The two comprehensions raise exactly on a bad field. *)
Lemma bad_field_raise text :
  is_raise (Py.comprehension (Py.comprehension PyFloat.float) (fields_of text)) = bad_field text.
Proof.
  rewrite comprehension_raise_iff. unfold bad_field. apply existsb_ext_in.
  intros l. apply comprehension_raise_iff.
Qed.

Lemma same_lengths_forallb {A B} (ls : list (list A)) (rows : list (list B)) n :
  Forall2 (fun l r => List.length r = List.length l) ls rows ->
  forallb (fun r => Nat.eqb (List.length r) n) rows
  = forallb (fun l => Nat.eqb (List.length l) n) ls.
Proof.
  induction 1 as [|l r ls rows Hlr _ IH]; [reflexivity|].
  cbn [forallb]. rewrite Hlr, IH. reflexivity.
Qed.

Lemma rows_lengths {A B} (f : A -> Py.result B) (ls : list (list A)) rows :
  Py.comprehension (Py.comprehension f) ls = Py.Ok rows ->
  Forall2 (fun l r => List.length r = List.length l) ls rows.
Proof.
  intros H. apply comprehension_ok_iff in H.
  induction H as [|l r ls rows Hlr _ IH]; constructor; [|exact IH].
  apply (comprehension_length _ _ _ Hlr).
Qed.

(** X3.  For a file that exists the reader raises exactly when a field
    between two spaces is not read by [float], or the lines do not all have
    as many fields as the first one; what it raises is a [ValueError]. *)
Theorem reader_fails_on_bad_field_or_ragged_lines fs filepath text :
  fs filepath = Some text ->
  (is_raise (read_yolo_detections_file fs filepath) = true
   <-> bad_field text = true \/ ragged text = true) /\
  (forall e, read_yolo_detections_file fs filepath = Py.Raise e -> e = Py.ValueError).
Proof.
  intros Hfs. split; [|intros e; apply read_raise_value_error].
  rewrite (read_existing fs filepath text Hfs), <- bad_field_raise.
  destruct (Py.comprehension _ (fields_of text)) as [rows|e] eqn:Hc;
    cbn [Py.bind is_raise].
  - pose proof (rows_lengths _ _ _ Hc) as Hl.
    assert (Hn : Np.ncols rows = List.length (hd [] (fields_of text))).
    { destruct Hl as [|l r ls rows' Hlr _]; [reflexivity | exact Hlr]. }
    unfold Np.array, ragged. rewrite (same_lengths_forallb _ _ _ Hl), Hn.
    destruct (forallb _ (fields_of text)); cbn [is_raise negb]; split;
      try discriminate; try tauto.
  - split; [intros _; left; reflexivity | reflexivity].
Qed.

Lemma reader_fails_on_bad_field_or_ragged_lines_witness :
  (is_raise (read_yolo_detections_file (fun _ => Some "0 0.5 0.5 0.2 0.4 0.9
1 0.25
") "img.txt") = true
   <-> bad_field "0 0.5 0.5 0.2 0.4 0.9
1 0.25
" = true \/ ragged "0 0.5 0.5 0.2 0.4 0.9
1 0.25
" = true) /\
  ragged "0 0.5 0.5 0.2 0.4 0.9
1 0.25
" = true /\
  read_yolo_detections_file (fun _ => Some "0 0.5 0.5 0.2 0.4 0.9
1 0.25
") "img.txt" = Py.Raise Py.ValueError.
Proof.
  split; [|split; vm_compute; reflexivity].
  apply (reader_fails_on_bad_field_or_ragged_lines (fun _ => Some "0 0.5 0.5 0.2 0.4 0.9
1 0.25
") "img.txt" "0 0.5 0.5 0.2 0.4 0.9
1 0.25
"). reflexivity.
Defined.

Lemma is_raise_true {A} (r : Py.result A) : is_raise r = true -> exists e, r = Py.Raise e.
Proof. destruct r as [a|e]; [discriminate | intros _; exists e; reflexivity]. Qed.

(** X4.  A file with an empty field (an empty line, two spaces in a row, a
    space at either end of a line) makes the reader raise [ValueError]. *)
Theorem empty_field_raises fs filepath text :
  fs filepath = Some text -> has_empty_field text = true ->
  read_yolo_detections_file fs filepath = Py.Raise Py.ValueError.
Proof.
  intros Hfs He. rewrite (read_existing fs filepath text Hfs).
  destruct (Py.comprehension _ (fields_of text)) as [rows|e] eqn:Hc; cbn [Py.bind].
  - exfalso.
    assert (Hr : is_raise (Py.comprehension (Py.comprehension PyFloat.float) (fields_of text))
                 = true).
    { rewrite comprehension_raise_iff. unfold has_empty_field in He.
      apply existsb_exists in He. destruct He as (l & Hl & Hx).
      apply existsb_exists. exists l. split; [exact Hl|].
      rewrite comprehension_raise_iff. apply existsb_exists in Hx.
      destruct Hx as (s & Hs & Hes). apply existsb_exists. exists s. split; [exact Hs|].
      apply String.eqb_eq in Hes. subst s. reflexivity. }
    rewrite Hc in Hr. discriminate.
  - f_equal. eapply comprehension_raise_only; [|exact Hc].
    intros l e' Hl. eapply comprehension_raise_only; [|exact Hl].
    intros s. apply float_raise_only.
Qed.

Lemma empty_field_raises_witness :
  (fun _ : string => Some "0 0.5 0.5 0.2 0.4 0.9

") "img.txt" = Some "0 0.5 0.5 0.2 0.4 0.9

" /\
  has_empty_field "0 0.5 0.5 0.2 0.4 0.9

" = true /\
  read_yolo_detections_file (fun _ => Some "0 0.5 0.5 0.2 0.4 0.9

") "img.txt" = Py.Raise Py.ValueError.
Proof.
  split; [reflexivity|]. split; [vm_compute; reflexivity|].
  apply (empty_field_raises (fun _ => Some "0 0.5 0.5 0.2 0.4 0.9

") "img.txt" "0 0.5 0.5 0.2 0.4 0.9

"); [reflexivity | vm_compute; reflexivity].
Defined.

(** Two spaces in a row, a space at the end and one at the start. *)
Example empty_field_examples :
  has_empty_field "0 0.5  0.5 0.2 0.4 0.9" = true /\
  has_empty_field "0 0.5 0.5 0.2 0.4 0.9 " = true /\
  has_empty_field " 0 0.5 0.5 0.2 0.4 0.9" = true /\
  has_empty_field "0 0.5 0.5 0.2 0.4 0.9" = false.
Proof. repeat split; vm_compute; reflexivity. Qed.

(** *** Line endings *)

Lemma universal_newlines_without text :
  has_char "013" text = false -> universal_newlines text = text.
Proof.
  induction text as [|c s IH]; cbn [has_char universal_newlines]; [reflexivity|].
  intros H. apply orb_false_iff in H. destruct H as [Hc Hs].
  rewrite Hc, (IH Hs). reflexivity.
Qed.

Lemma universal_newlines_crlf text :
  has_char "013" text = false -> universal_newlines (crlf text) = text.
Proof.
  induction text as [|c s IH]; cbn [has_char crlf]; [reflexivity|].
  intros H. apply orb_false_iff in H. destruct H as [Hc Hs].
  destruct (Ascii.eqb c "010") eqn:Hn.
  - apply Ascii.eqb_eq in Hn. subst c. cbn [universal_newlines].
    rewrite Ascii.eqb_refl.
    replace (Ascii.eqb "010" "013") with false by reflexivity.
    rewrite (IH Hs). reflexivity.
  - cbn [universal_newlines]. rewrite Hc, (IH Hs). reflexivity.
Qed.

(** X5.  A file with Windows line endings is read to the same result as the
    same text with plain newlines. *)
Theorem windows_line_endings_read_alike fs1 fs2 filepath text :
  has_char "013" text = false ->
  fs1 filepath = Some text -> fs2 filepath = Some (crlf text) ->
  read_yolo_detections_file fs2 filepath = read_yolo_detections_file fs1 filepath.
Proof.
  intros Hc H1 H2. unfold read_yolo_detections_file. rewrite H1, H2.
  rewrite (universal_newlines_crlf text Hc), (universal_newlines_without text Hc).
  reflexivity.
Qed.

Lemma windows_line_endings_read_alike_witness :
  has_char "013" "0 0.5 0.5 0.2 0.4 0.9
" = false /\
  read_yolo_detections_file
    (fun _ => Some (crlf "0 0.5 0.5 0.2 0.4 0.9
")) "img.txt"
  = read_yolo_detections_file (fun _ => Some "0 0.5 0.5 0.2 0.4 0.9
") "img.txt".
Proof.
  split; [reflexivity|].
  apply (windows_line_endings_read_alike
           (fun _ => Some "0 0.5 0.5 0.2 0.4 0.9
")
           (fun _ => Some (crlf "0 0.5 0.5 0.2 0.4 0.9
")) "img.txt" "0 0.5 0.5 0.2 0.4 0.9
"); reflexivity.
Defined.

(** *** The newline of the last line *)

Lemma rev_cons c s : Str.rev (String c s) = (Str.rev s ++ String c "")%string.
Proof. unfold Str.rev. cbn [Str.rev_acc]. apply rev_acc_app. Qed.

(** Reversal twice is the identity. *)
Lemma rev_involutive s : Str.rev (Str.rev s) = s.
Proof.
  induction s as [|c s IH]; [reflexivity|].
  rewrite rev_cons, rev_app, IH. reflexivity.
Qed.

Lemma rstrip_newline_open c cur : Ascii.eqb c "010" = false ->
  Str.rstrip_char "010" (Str.rev (String c cur)) = Str.rev (String c cur).
Proof.
  intros Hc. unfold Str.rstrip_char. rewrite rev_involutive.
  cbn [Str.lstrip_char]. rewrite Hc. reflexivity.
Qed.

Lemma rstrip_newline_closed c cur : Ascii.eqb c "010" = false ->
  Str.rstrip_char "010" (Str.rev (String "010" (String c cur))) = Str.rev (String c cur).
Proof.
  intros Hc. unfold Str.rstrip_char. rewrite rev_involutive.
  cbn [Str.lstrip_char]. rewrite Ascii.eqb_refl, Hc. reflexivity.
Qed.

Lemma open_ended_cons c s : s <> ""%string -> open_ended (String c s) = open_ended s.
Proof. destruct s; [contradiction | reflexivity]. Qed.

Lemma open_ended_nonempty s : open_ended s = true -> s <> ""%string.
Proof. destruct s; [discriminate | discriminate]. Qed.

(** The lines of a text and of the same text closed by a newline, each
    without its newline. *)
Lemma lines_closed s : forall cur,
  open_ended s = true ->
  map (Str.rstrip_char "010") (Str.lines_from cur (s ++ String "010" ""))
  = map (Str.rstrip_char "010") (Str.lines_from cur s).
Proof.
  induction s as [|c s IH]; intros cur Ho; [discriminate|].
  cbn [String.append Str.lines_from].
  destruct s as [|d s'].
  - unfold open_ended in Ho. cbn [last_char] in Ho. apply negb_true_iff in Ho.
    rewrite Ho. cbn [String.append Str.lines_from]. rewrite Ascii.eqb_refl.
    cbn [Str.lines_from map].
    rewrite (rstrip_newline_closed c cur Ho), (rstrip_newline_open c cur Ho). reflexivity.
  - rewrite open_ended_cons in Ho by discriminate.
    destruct (Ascii.eqb c "010"); cbn [map]; rewrite (IH _ Ho); reflexivity.
Qed.

Lemma universal_newlines_cr_lf x :
  universal_newlines (String "013" (String "010" x)) = universal_newlines (String "010" x).
Proof. reflexivity. Qed.

Lemma universal_newlines_cr d x : d <> "010"%char ->
  universal_newlines (String "013" (String d x))
  = String "010" (universal_newlines (String d x)).
Proof.
  intros Hd. destruct d as [[|] [|] [|] [|] [|] [|] [|] [|]]; try reflexivity.
  exfalso. apply Hd. reflexivity.
Qed.

Lemma universal_newlines_other c x : Ascii.eqb c "013" = false ->
  universal_newlines (String c x) = String c (universal_newlines x).
Proof. intros Hc. cbn [universal_newlines]. rewrite Hc. reflexivity. Qed.

(** Closing a text by a newline closes its translation, or changes nothing
    when the text ends with a carriage return. *)
Lemma universal_newlines_closed s : open_ended s = true ->
  universal_newlines (s ++ String "010" "") = universal_newlines s \/
  (universal_newlines (s ++ String "010" "")
   = (universal_newlines s ++ String "010" "")%string
   /\ open_ended (universal_newlines s) = true).
Proof.
  induction s as [|c s IH]; intros Ho; [discriminate|].
  destruct s as [|d s'].
  - unfold open_ended in Ho. cbn [last_char] in Ho. apply negb_true_iff in Ho.
    cbn [String.append].
    destruct (Ascii.eqb c "013") eqn:Hr.
    + apply Ascii.eqb_eq in Hr. subst c. left. reflexivity.
    + right. rewrite !(universal_newlines_other c) by exact Hr.
      split; [reflexivity|]. unfold open_ended. cbn [universal_newlines last_char].
      rewrite Ho. reflexivity.
  - rewrite open_ended_cons in Ho by discriminate. specialize (IH Ho).
    assert (Hne : forall x y, open_ended x = true -> open_ended (String y x) = true).
    { intros x y Hx. rewrite open_ended_cons; [exact Hx | apply open_ended_nonempty; exact Hx]. }
    cbn [String.append] in IH |- *.
    destruct (Ascii.eqb c "013") eqn:Hr.
    + apply Ascii.eqb_eq in Hr. subst c.
      destruct (Ascii.eqb_spec d "010") as [-> | Hn].
      * rewrite !universal_newlines_cr_lf. exact IH.
      * rewrite !universal_newlines_cr by exact Hn.
        destruct IH as [IH | [IH Hoe]].
        -- left. rewrite IH. reflexivity.
        -- right. rewrite IH. split; [reflexivity | apply Hne; exact Hoe].
    + rewrite !(universal_newlines_other c) by exact Hr.
      destruct IH as [IH | [IH Hoe]].
      * left. rewrite IH. reflexivity.
      * right. rewrite IH. split; [reflexivity | apply Hne; exact Hoe].
Qed.

Lemma fields_closed text : open_ended text = true ->
  fields_of (text ++ String "010" "") = fields_of text.
Proof.
  intros Ho. unfold fields_of, Str.readlines.
  rewrite <- !(map_map (Str.rstrip_char "010") (Str.split " ")).
  destruct (universal_newlines_closed text Ho) as [E | [E Hoe]]; rewrite E; [reflexivity|].
  rewrite (lines_closed _ _ Hoe). reflexivity.
Qed.

(** X6.  The newline that ends the last line is optional: a text that is
    not empty and does not end with a newline is read and converted to the
    same result as the same text with a newline added. *)
Theorem final_newline_is_optional fs1 fs2 filepath text cl :
  open_ended text = true ->
  fs1 filepath = Some text -> fs2 filepath = Some (text ++ String "010" "")%string ->
  read_yolo_detections_file fs2 filepath = read_yolo_detections_file fs1 filepath /\
  detections_of_file fs2 filepath cl = detections_of_file fs1 filepath cl.
Proof.
  intros Ho H1 H2.
  assert (Hr : read_yolo_detections_file fs2 filepath = read_yolo_detections_file fs1 filepath).
  { rewrite (read_existing fs1 filepath text H1), (read_existing fs2 filepath _ H2).
    rewrite (fields_closed text Ho). reflexivity. }
  split; [exact Hr|]. unfold detections_of_file. rewrite Hr. reflexivity.
Qed.

Lemma final_newline_is_optional_witness :
  open_ended "0 0.5 0.5 0.2 0.4 0.9
1 0.25 0.25 0.5 0.5 0.7" = true /\
  read_yolo_detections_file
    (fun _ => Some ("0 0.5 0.5 0.2 0.4 0.9
1 0.25 0.25 0.5 0.5 0.7" ++ String "010" "")%string) "img.txt"
  = read_yolo_detections_file (fun _ => Some "0 0.5 0.5 0.2 0.4 0.9
1 0.25 0.25 0.5 0.5 0.7") "img.txt" /\
  detections_of_file
    (fun _ => Some ("0 0.5 0.5 0.2 0.4 0.9
1 0.25 0.25 0.5 0.5 0.7" ++ String "010" "")%string) "img.txt" ["a"; "b"]
  = detections_of_file (fun _ => Some "0 0.5 0.5 0.2 0.4 0.9
1 0.25 0.25 0.5 0.5 0.7") "img.txt" ["a"; "b"].
Proof.
  split; [reflexivity|].
  apply (final_newline_is_optional
           (fun _ => Some "0 0.5 0.5 0.2 0.4 0.9
1 0.25 0.25 0.5 0.5 0.7")
           (fun _ => Some ("0 0.5 0.5 0.2 0.4 0.9
1 0.25 0.25 0.5 0.5 0.7" ++ String "010" "")%string) "img.txt"
           "0 0.5 0.5 0.2 0.4 0.9
1 0.25 0.25 0.5 0.5 0.7" ["a"; "b"]);
    reflexivity.
Defined.

(** An empty file and a file of one newline are not read alike. *)
Example lone_newline_is_a_line :
  read_yolo_detections_file (fun _ => Some "") "img.txt" = Py.Ok [] /\
  read_yolo_detections_file (fun _ => Some (String "010" "")) "img.txt"
  = Py.Raise Py.ValueError.
Proof. split; vm_compute; reflexivity. Qed.

(** ** Attaching the predictions *)

Lemma Forall2_compose {A B C} (P : A -> B -> Prop) (Q : B -> C -> Prop) (R : A -> C -> Prop)
      xs zs :
  (forall x z, R x z <-> exists y, P x y /\ Q y z) ->
  (Forall2 R xs zs <-> exists ys, Forall2 P xs ys /\ Forall2 Q ys zs).
Proof.
  intros HR. revert zs. induction xs as [|x xs IH]; intros zs.
  - split.
    + intros H. inversion H. exists []. split; constructor.
    + intros (ys & H1 & H2). inversion H1; subst. inversion H2. constructor.
  - split.
    + intros H. inversion H as [|? z ? zs' Hxz Hr]; subst.
      apply HR in Hxz. destruct Hxz as (y & Hp & Hq).
      apply IH in Hr. destruct Hr as (ys & H1 & H2).
      exists (y :: ys). split; constructor; assumption.
    + intros (ys & H1 & H2). inversion H1 as [|? y ? ys' Hp Hr1]; subst.
      inversion H2 as [|? z ? zs' Hq Hr2]; subst. constructor.
      * apply HR. exists y. split; assumption.
      * apply IH. exists ys'. split; assumption.
Qed.

(** One file is read and converted. *)
Lemma detections_of_file_ok fs cl p d :
  detections_of_file fs p cl = Py.Ok d <->
  exists yd, read_yolo_detections_file fs p = Py.Ok yd /\
             convert_yolo_detections_to_fiftyone yd cl = Py.Ok d.
Proof.
  unfold detections_of_file. split.
  - destruct (read_yolo_detections_file fs p) as [yd|e]; cbn [Py.bind]; [|discriminate].
    intros H. exists yd. split; [reflexivity | exact H].
  - intros (yd & -> & H). exact H.
Qed.

(** Reading all files and then converting all arrays succeeds when reading
    and converting each file does. *)
Lemma add_yolo_detections_ok fs paths cl ds :
  Annotate.add_yolo_detections fs paths cl = Py.Ok ds <->
  Forall2 (fun p d => detections_of_file fs p cl = Py.Ok d) paths ds.
Proof.
  rewrite (Forall2_compose
             (fun p yd => read_yolo_detections_file fs p = Py.Ok yd)
             (fun yd d => convert_yolo_detections_to_fiftyone yd cl = Py.Ok d)
             _ paths ds (detections_of_file_ok fs cl)).
  unfold Annotate.add_yolo_detections. split.
  - destruct (Py.comprehension _ paths) as [yds|e] eqn:Hc; cbn [Py.bind]; [|discriminate].
    intros H. exists yds. split; apply comprehension_ok_iff; assumption.
  - intros (yds & H1 & H2). apply comprehension_ok_iff in H1, H2.
    rewrite H1. cbn [Py.bind]. exact H2.
Qed.

(** X7.  [add_yolo_detections] stores a value exactly when every
    prediction file is read and converted without an exception, and then each
    sample gets the detections of its own file, in order.  One file that
    fails makes the whole call raise, so that nothing is stored; and a file
    that cannot be read makes it raise [ValueError] whatever the conversion
    of the other files would raise, for all files are read first. *)
Theorem predictions_are_attached_all_or_none fs paths cl :
  (forall ds, Annotate.add_yolo_detections fs paths cl = Py.Ok ds <->
              Forall2 (fun p d => detections_of_file fs p cl = Py.Ok d) paths ds) /\
  (forall p, In p paths -> is_raise (detections_of_file fs p cl) = true ->
             is_raise (Annotate.add_yolo_detections fs paths cl) = true) /\
  (forall p, In p paths -> is_raise (read_yolo_detections_file fs p) = true ->
             Annotate.add_yolo_detections fs paths cl = Py.Raise Py.ValueError).
Proof.
  split; [intros ds; apply add_yolo_detections_ok|]. split.
  - intros p Hin Hr.
    destruct (Annotate.add_yolo_detections fs paths cl) as [ds|e] eqn:Ha; [|reflexivity].
    exfalso. apply add_yolo_detections_ok in Ha.
    clear - Ha Hin Hr. induction Ha as [|q d qs ds Hq _ IH]; [contradiction|].
    destruct Hin as [<- | Hin]; [rewrite Hq in Hr; discriminate | exact (IH Hin)].
  - intros p Hin Hr. unfold Annotate.add_yolo_detections.
    destruct (Py.comprehension (read_yolo_detections_file fs) paths) as [yds|e] eqn:Hc.
    + exfalso.
      assert (H : is_raise (Py.comprehension (read_yolo_detections_file fs) paths) = true).
      { rewrite comprehension_raise_iff. apply existsb_exists. exists p. split; assumption. }
      rewrite Hc in H. discriminate.
    + cbn [Py.bind]. f_equal. eapply comprehension_raise_only; [|exact Hc].
      intros q. apply read_raise_value_error.
Qed.

Lemma predictions_are_attached_all_or_none_witness :
  In "b.txt" ["a.txt"; "b.txt"] /\
  is_raise (detections_of_file
              (fun p => if (p =? "a.txt")%string then Some "0 0.5 0.5 0.2 0.4 0.9"
                        else Some "7 0.5 0.5 0.2 0.4 0.9")
              "b.txt" ["lesion"]) = true /\
  is_raise (Annotate.add_yolo_detections
              (fun p => if (p =? "a.txt")%string then Some "0 0.5 0.5 0.2 0.4 0.9"
                        else Some "7 0.5 0.5 0.2 0.4 0.9")
              ["a.txt"; "b.txt"] ["lesion"]) = true.
Proof.
  split; [right; left; reflexivity|]. split; [vm_compute; reflexivity|].
  apply (proj1 (proj2 (predictions_are_attached_all_or_none
                  (fun p => if (p =? "a.txt")%string then Some "0 0.5 0.5 0.2 0.4 0.9"
                            else Some "7 0.5 0.5 0.2 0.4 0.9")
                  ["a.txt"; "b.txt"] ["lesion"])) "b.txt");
    [right; left; reflexivity | vm_compute; reflexivity].
Defined.

(** The first file fails in the conversion, the second in the reading: the
    call raises what the reading raises. *)
Example read_error_comes_first :
  let fs := fun p => if (p =? "a.txt")%string then Some "7 0.5 0.5 0.2 0.4 0.9"
                     else Some "0 0.5 x 0.2 0.4 0.9" in
  detections_of_file fs "a.txt" ["lesion"] = Py.Raise Py.IndexError /\
  Annotate.add_yolo_detections fs ["a.txt"; "b.txt"] ["lesion"] = Py.Raise Py.ValueError.
Proof. split; vm_compute; reflexivity. Qed.

(** ** Class values that are no integers *)

(** Truncation toward zero treats the sign apart. *)
Lemma trunc_sign s m e :
  F64.trunc (S754_finite s m e)
  = option_map (cond_Zopp s) (F64.trunc (S754_finite false m e)).
Proof. destruct s; reflexivity. Qed.

Lemma astype_int_in_range x k :
  F64.trunc x = Some k -> - 2 ^ 63 <= k < 2 ^ 63 -> Np.astype_int x = k.
Proof.
  intros Ht Hk. unfold Np.astype_int. rewrite Ht.
  destruct (Z.leb_spec (- 2 ^ 63) k); [|lia].
  destruct (Z.ltb_spec k (2 ^ 63)); [reflexivity | lia].
Qed.

(** The label of one class value, from its integer part. *)
Lemma labels_of_one cl x k :
  Np.astype_int x = k -> 0 <= k < Z.of_nat (List.length cl) ->
  _get_class_labels [x] cl = Py.Ok [nth (Z.to_nat k) cl ""%string].
Proof.
  intros Ha Hk. unfold _get_class_labels. cbn [map Py.comprehension]. rewrite Ha.
  rewrite (index_ok cl k ""%string) by lia. cbn [Py.bind].
  unfold wrapped_index. destruct (Z.ltb_spec k 0); [lia | reflexivity].
Qed.

Lemma quantum_div k r : 0 <= r < quantum -> (k * quantum + r) / quantum = k.
Proof.
  intros Hr. pose proof quantum_pos.
  rewrite Z.add_comm, Z.div_add by lia. rewrite Z.div_small by lia. lia.
Qed.

Lemma pow53_eq : 2 ^ 53 = 9007199254740992.
Proof. reflexivity. Qed.

Lemma pow63_eq : 2 ^ 63 = 9223372036854775808.
Proof. reflexivity. Qed.

(** X8.  A class value [x] with [k <= x < k + 1], for an index [k] of the
    class list, gets the label [class_list[k]]: the cast drops the fraction. *)
Theorem class_value_is_truncated cl x k :
  F64.valid x = true -> 0 <= k < Z.of_nat (List.length cl) -> k < 2 ^ 53 - 1 ->
  F64.leb (F64.of_Z k) x = true -> F64.ltb x (F64.of_Z (k + 1)) = true ->
  _get_class_labels [x] cl = Py.Ok [nth (Z.to_nat k) cl ""%string].
Proof.
  intros Vx Hk Hb Hle Hlt.
  destruct (ltb_not_nan _ _ Hlt) as [Nx _].
  destruct (of_Z_exact k ltac:(lia)) as (V0 & W0 & F0).
  destruct (of_Z_exact (k + 1) ltac:(lia)) as (V1 & W1 & F1).
  rewrite leb_V in Hle by (auto using finite_not_nan).
  rewrite ltb_V in Hlt by (auto using finite_not_nan).
  apply Z.leb_le in Hle. apply Z.ltb_lt in Hlt. rewrite V0 in Hle. rewrite V1 in Hlt.
  pose proof quantum_pos as HQ.
  assert (Gx : good x) by (repeat split; [exact Vx | exact Nx | nia]).
  assert (Tx : V x < top).
  { pose proof top_gt_one. pose proof pow53_eq.
    assert (quantum * 2 ^ 53 <= top) by (apply Z.leb_le; reflexivity). nia. }
  apply labels_of_one; [|exact Hk].
  apply astype_int_in_range; [|pose proof pow63_eq; pose proof pow53_eq; lia].
  rewrite (trunc_V x Gx Tx). f_equal.
  replace (V x) with (k * quantum + (V x - k * quantum)) by lia.
  apply quantum_div. lia.
Qed.

Lemma class_value_is_truncated_witness :
  F64.valid (S754_finite false 8556839292003942 (-52)) = true /\
  0 <= 1 < Z.of_nat (List.length ["a"; "b"; "c"]) /\ 1 < 2 ^ 53 - 1 /\
  F64.leb (F64.of_Z 1) (S754_finite false 8556839292003942 (-52)) = true /\
  F64.ltb (S754_finite false 8556839292003942 (-52)) (F64.of_Z (1 + 1)) = true /\
  PyFloat.float "1.9" = Py.Ok (S754_finite false 8556839292003942 (-52)) /\
  _get_class_labels [S754_finite false 8556839292003942 (-52)] ["a"; "b"; "c"]
  = Py.Ok [nth (Z.to_nat 1) ["a"; "b"; "c"] ""%string].
Proof.
  split; [reflexivity|]. split; [cbn; lia|]. split; [reflexivity|].
  split; [vm_compute; reflexivity|]. split; [vm_compute; reflexivity|].
  split; [vm_compute; reflexivity|].
  apply (class_value_is_truncated ["a"; "b"; "c"] (S754_finite false 8556839292003942 (-52)) 1);
    [reflexivity | cbn; lia | reflexivity | vm_compute; reflexivity | vm_compute; reflexivity].
Defined.

(** X9.  Every class value strictly between -1 and 1 gets the first label:
    a negative fraction is cut to 0, it is no index from the end and no
    error. *)
Theorem fraction_near_zero_is_first_class c cl x :
  F64.valid x = true ->
  F64.ltb (F64.of_Z (-1)) x = true -> F64.ltb x (F64.of_Z 1) = true ->
  _get_class_labels [x] (c :: cl) = Py.Ok [c].
Proof.
  intros Vx Hlo Hhi.
  destruct (ltb_not_nan _ _ Hhi) as [Nx _].
  destruct (of_Z_exact (-1) ltac:(pose proof pow53_eq; lia)) as (V0 & W0 & F0).
  destruct (of_Z_exact 1 ltac:(pose proof pow53_eq; lia)) as (V1 & W1 & F1).
  rewrite ltb_V in Hlo by (auto using finite_not_nan).
  rewrite ltb_V in Hhi by (auto using finite_not_nan).
  apply Z.ltb_lt in Hlo, Hhi. rewrite V0 in Hlo. rewrite V1 in Hhi.
  pose proof quantum_pos as HQ. pose proof top_gt_one as HT.
  assert (Ht : F64.trunc x = Some 0).
  { destruct x as [s|s| |s m e]; [reflexivity | | discriminate |].
    - exfalso. destruct s; cbn [V cond_Zopp] in Hlo, Hhi; lia.
    - rewrite trunc_sign.
      assert (Gp : good (S754_finite false m e)).
      { apply good_finite. exact (valid_flip s false m e Vx). }
      assert (Hp : 0 <= V (S754_finite false m e) < quantum).
      { destruct Gp as (_ & _ & G0). split; [exact G0|].
        destruct s; cbn [V cond_Zopp] in Hlo, Hhi |- *; lia. }
      rewrite (trunc_V _ Gp) by lia.
      rewrite Z.div_small by exact Hp. destruct s; reflexivity. }
  assert (Ha : Np.astype_int x = 0).
  { apply astype_int_in_range; [exact Ht | pose proof pow63_eq; lia]. }
  rewrite (labels_of_one (c :: cl) x 0 Ha) by (cbn [List.length]; lia).
  reflexivity.
Qed.

Lemma fraction_near_zero_is_first_class_witness :
  F64.valid (S754_finite true 8106479329266893 (-53)) = true /\
  F64.ltb (F64.of_Z (-1)) (S754_finite true 8106479329266893 (-53)) = true /\
  F64.ltb (S754_finite true 8106479329266893 (-53)) (F64.of_Z 1) = true /\
  PyFloat.float "-0.9" = Py.Ok (S754_finite true 8106479329266893 (-53)) /\
  _get_class_labels [S754_finite true 8106479329266893 (-53)] ["a"; "b"; "c"] = Py.Ok ["a"].
Proof.
  split; [reflexivity|]. split; [vm_compute; reflexivity|]. split; [vm_compute; reflexivity|].
  split; [vm_compute; reflexivity|].
  apply (fraction_near_zero_is_first_class "a" ["b"; "c"]
           (S754_finite true 8106479329266893 (-53)));
    [reflexivity | vm_compute; reflexivity | vm_compute; reflexivity].
Defined.

(** ** One detection for each line *)

Lemma zip3_length labels confs (boxes : list (list F64.t)) n :
  List.length labels = n -> List.length confs = n -> List.length boxes = n ->
  List.length (zip3 labels confs boxes) = n.
Proof.
  revert labels confs boxes. induction n as [|n IH]; intros labels confs boxes Hl Hc Hb.
  - destruct labels; [reflexivity | discriminate].
  - destruct labels as [|l labels], confs as [|c confs], boxes as [|b boxes]; try discriminate.
    cbn [zip3 List.length]. f_equal. apply IH; [injection Hl | injection Hc | injection Hb]; auto.
Qed.

(** The converter gives a detection for each row, and accepts rows of six
    fields or more only. *)
Lemma convert_length n cl (a : Np.ndarray) ds :
  Forall (fun r => List.length r = n) a -> (1 <= n)%nat ->
  convert_yolo_detections_to_fiftyone a cl = Py.Ok ds ->
  List.length ds = List.length a /\ (a <> [] -> (6 <= n)%nat).
Proof.
  intros Hall Hn Hc. destruct a as [|r0 a0] eqn:Ea.
  - cbn in Hc. injection Hc as <-. split; [reflexivity | congruence].
  - rewrite <- Ea in *. assert (Hne : a <> []) by (rewrite Ea; discriminate).
    unfold convert_yolo_detections_to_fiftyone in Hc.
    rewrite (size_nonzero n a Hne Hall Hn) in Hc.
    destruct (Nat.lt_ge_cases n 6) as [Hs | Hb].
    + rewrite (uncenter_boxes_short n a Hne Hall Hs) in Hc. discriminate.
    + rewrite (uncenter_boxes_rows n a Hne Hall Hb) in Hc. cbn [Py.bind] in Hc.
      destruct (_get_class_labels _ cl) as [labels|e] eqn:Hl; cbn [Py.bind] in Hc;
        [|discriminate].
      injection Hc as <-. split; [|intros _; exact Hb].
      unfold _get_class_labels in Hl. apply comprehension_length in Hl.
      rewrite !length_map in Hl.
      apply zip3_length; rewrite ?length_map; [exact Hl | reflexivity | reflexivity].
Qed.

Lemma fields_as_long_as_rows {A B} (f : A -> Py.result B) (ls : list (list A)) rows n :
  Forall2 (fun l r => Py.comprehension f l = Py.Ok r) ls rows ->
  Forall (fun r => List.length r = n) rows -> Forall (fun l => List.length l = n) ls.
Proof.
  induction 1 as [|l r ls rows Hlr _ IH]; intros Hall; [constructor|].
  inversion Hall as [|? ? Hr Hrest]; subst. constructor; [|apply IH; exact Hrest].
  symmetry. apply (comprehension_length _ _ _ Hlr).
Qed.

(** X10.  When a prediction file is read and converted without an
    exception, there is one detection for each line of the file, and every
    line has six fields or more. *)
Theorem one_detection_per_line fs filepath cl ds text :
  fs filepath = Some text -> detections_of_file fs filepath cl = Py.Ok ds ->
  List.length ds = List.length (Str.readlines (universal_newlines text)) /\
  Forall (fun fields => (6 <= List.length fields)%nat) (fields_of text).
Proof.
  intros Hfs Hd. unfold detections_of_file in Hd.
  destruct (read_yolo_detections_file fs filepath) as [a|e] eqn:Hr; cbn [Py.bind] in Hd;
    [|discriminate].
  rewrite (read_existing fs filepath text Hfs) in Hr.
  destruct (Py.comprehension _ (fields_of text)) as [rows|e] eqn:Hc; cbn [Py.bind] in Hr;
    [|discriminate].
  apply array_ok in Hr. destruct Hr as [-> Hrect].
  assert (Hlen := comprehension_length _ _ _ Hc).
  apply comprehension_ok_iff in Hc.
  assert (Hpos := Forall2_length_rows _ _ _ Hc (fields_nonempty text)).
  assert (Hn : (1 <= Np.ncols rows)%nat \/ rows = []).
  { destruct rows as [|r rows]; [right; reflexivity | left]. inversion Hpos; assumption. }
  destruct Hn as [Hn | ->].
  - destruct (convert_length _ cl rows ds Hrect Hn Hd) as [Hl H6].
    split; [rewrite Hl, Hlen; unfold fields_of; apply length_map|].
    destruct rows as [|r rows]; [inversion Hc; constructor|].
    specialize (H6 ltac:(discriminate)).
    eapply Forall_impl; [|exact (fields_as_long_as_rows _ _ _ _ Hc Hrect)].
    cbv beta. intros l Hl'. rewrite Hl'. exact H6.
  - cbn in Hd. injection Hd as <-.
    assert (E : fields_of text = []) by (destruct (fields_of text); [reflexivity | inversion Hc]).
    split; [|rewrite E; constructor].
    unfold fields_of in E. apply map_eq_nil in E. rewrite E. reflexivity.
Qed.

Lemma one_detection_per_line_witness :
  detections_of_file (fun _ => Some "0 0.5 0.5 0.2 0.4 0.9
0 0.25 0.25 0.5 0.5 0.7") "img.txt" ["lesion"]
  = Py.Ok [{| label := "lesion";
              bounding_box := [S754_finite false 7205759403792794 (-54);
                               S754_finite false 5404319552844595 (-54);
                               S754_finite false 7205759403792794 (-55);
                               S754_finite false 7205759403792794 (-54)];
              confidence := S754_finite false 8106479329266893 (-53) |};
           {| label := "lesion";
              bounding_box := [F64.of_Z 0; F64.of_Z 0;
                               S754_finite false 4503599627370496 (-53);
                               S754_finite false 4503599627370496 (-53)];
              confidence := S754_finite false 6305039478318694 (-53) |}] /\
  List.length [{| label := "lesion";
              bounding_box := [S754_finite false 7205759403792794 (-54);
                               S754_finite false 5404319552844595 (-54);
                               S754_finite false 7205759403792794 (-55);
                               S754_finite false 7205759403792794 (-54)];
              confidence := S754_finite false 8106479329266893 (-53) |};
           {| label := "lesion";
              bounding_box := [F64.of_Z 0; F64.of_Z 0;
                               S754_finite false 4503599627370496 (-53);
                               S754_finite false 4503599627370496 (-53)];
              confidence := S754_finite false 6305039478318694 (-53) |}]
  = List.length (Str.readlines (universal_newlines "0 0.5 0.5 0.2 0.4 0.9
0 0.25 0.25 0.5 0.5 0.7")) /\
  Forall (fun fields => (6 <= List.length fields)%nat) (fields_of "0 0.5 0.5 0.2 0.4 0.9
0 0.25 0.25 0.5 0.5 0.7").
Proof.
  split; [vm_compute; reflexivity|].
  apply (one_detection_per_line (fun _ => Some "0 0.5 0.5 0.2 0.4 0.9
0 0.25 0.25 0.5 0.5 0.7") "img.txt" ["lesion"]);
    [reflexivity | vm_compute; reflexivity].
Defined.

(** ** Images with the same name *)

Lemma Forall2_nth {A B} (P : A -> B -> Prop) xs ys i dx dy :
  Forall2 P xs ys -> (i < List.length xs)%nat -> P (nth i xs dx) (nth i ys dy).
Proof.
  intros H. revert i. induction H as [|x y xs ys Hxy _ IH]; intros i Hi; cbn [List.length] in Hi;
    [lia|].
  destruct i; cbn [nth]; [exact Hxy | apply IH; lia].
Qed.

Lemma Forall2_map_l {A B C} (P : B -> C -> Prop) (f : A -> B) xs ys :
  Forall2 P (map f xs) ys <-> Forall2 (fun x y => P (f x) y) xs ys.
Proof.
  revert ys. induction xs as [|x xs IH]; intros ys; cbn [map].
  - split; intros H; inversion H; constructor.
  - split; intros H; inversion H; subst; constructor; try assumption; apply IH; assumption.
Qed.

(** X11.  In the cell that loads the predictions, two images whose names
    agree up to the first dot, in whatever directories, get the same list of
    detections. *)
Theorem same_stem_same_detections fs filepaths cl ds i j :
  Annotate.load_predictions fs filepaths cl = Py.Ok ds ->
  (i < List.length filepaths)%nat -> (j < List.length filepaths)%nat ->
  stem_of (nth i filepaths "") = stem_of (nth j filepaths "") ->
  nth i ds [] = nth j ds [].
Proof.
  intros Hl Hi Hj Hs. unfold Annotate.load_predictions, Annotate.prediction_filepaths in Hl.
  apply add_yolo_detections_ok in Hl. apply Forall2_map_l in Hl.
  pose proof (Forall2_nth _ _ _ i ""%string [] Hl Hi) as Di.
  pose proof (Forall2_nth _ _ _ j ""%string [] Hl Hj) as Dj.
  cbv beta in Di, Dj. unfold get_prediction_filepath in Di, Dj.
  fold (stem_of (nth i filepaths "")) in Di. fold (stem_of (nth j filepaths "")) in Dj.
  rewrite Hs in Di. rewrite Di in Dj. injection Dj as Dj. exact Dj.
Qed.

Lemma same_stem_same_detections_witness :
  Annotate.load_predictions
    (fun p => if (p =? labels_dir ++ "7.txt")%string then Some "0 0.5 0.5 0.2 0.4 0.9"
              else None)
    ["val/a/7.png"; "val/b/8.png"; "val/c/7.v2.jpg"] ["lesion"]
  = Py.Ok [[{| label := "lesion";
               bounding_box := [S754_finite false 7205759403792794 (-54);
                                S754_finite false 5404319552844595 (-54);
                                S754_finite false 7205759403792794 (-55);
                                S754_finite false 7205759403792794 (-54)];
               confidence := S754_finite false 8106479329266893 (-53) |}];
           [];
           [{| label := "lesion";
               bounding_box := [S754_finite false 7205759403792794 (-54);
                                S754_finite false 5404319552844595 (-54);
                                S754_finite false 7205759403792794 (-55);
                                S754_finite false 7205759403792794 (-54)];
               confidence := S754_finite false 8106479329266893 (-53) |}]] /\
  (0 < List.length ["val/a/7.png"; "val/b/8.png"; "val/c/7.v2.jpg"])%nat /\
  (2 < List.length ["val/a/7.png"; "val/b/8.png"; "val/c/7.v2.jpg"])%nat /\
  stem_of (nth 0 ["val/a/7.png"; "val/b/8.png"; "val/c/7.v2.jpg"] "")
  = stem_of (nth 2 ["val/a/7.png"; "val/b/8.png"; "val/c/7.v2.jpg"] "") /\
  nth 0 [[{| label := "lesion";
               bounding_box := [S754_finite false 7205759403792794 (-54);
                                S754_finite false 5404319552844595 (-54);
                                S754_finite false 7205759403792794 (-55);
                                S754_finite false 7205759403792794 (-54)];
               confidence := S754_finite false 8106479329266893 (-53) |}];
           [];
           [{| label := "lesion";
               bounding_box := [S754_finite false 7205759403792794 (-54);
                                S754_finite false 5404319552844595 (-54);
                                S754_finite false 7205759403792794 (-55);
                                S754_finite false 7205759403792794 (-54)];
               confidence := S754_finite false 8106479329266893 (-53) |}]] []
  = nth 2 [[{| label := "lesion";
               bounding_box := [S754_finite false 7205759403792794 (-54);
                                S754_finite false 5404319552844595 (-54);
                                S754_finite false 7205759403792794 (-55);
                                S754_finite false 7205759403792794 (-54)];
               confidence := S754_finite false 8106479329266893 (-53) |}];
           [];
           [{| label := "lesion";
               bounding_box := [S754_finite false 7205759403792794 (-54);
                                S754_finite false 5404319552844595 (-54);
                                S754_finite false 7205759403792794 (-55);
                                S754_finite false 7205759403792794 (-54)];
               confidence := S754_finite false 8106479329266893 (-53) |}]] [].
Proof.
  split; [vm_compute; reflexivity|]. split; [cbn; lia|]. split; [cbn; lia|].
  split; [vm_compute; reflexivity|].
  apply (same_stem_same_detections
           (fun p => if (p =? labels_dir ++ "7.txt")%string then Some "0 0.5 0.5 0.2 0.4 0.9"
                     else None)
           ["val/a/7.png"; "val/b/8.png"; "val/c/7.v2.jpg"] ["lesion"] _ 0%nat 2%nat);
    [vm_compute; reflexivity | cbn; lia | cbn; lia | vm_compute; reflexivity].
Defined.

(** ** When the prediction files are somewhere else *)

(** A comprehension whose elements all give the same value. *)
Lemma comprehension_const {A B} (f : A -> Py.result B) (b : B) xs :
  (forall x, In x xs -> f x = Py.Ok b) ->
  Py.comprehension f xs = Py.Ok (map (fun _ => b) xs).
Proof.
  induction xs as [|x xs IH]; intros H; [reflexivity|]. cbn [Py.comprehension map].
  rewrite (H x (or_introl eq_refl)). cbn [Py.bind].
  rewrite IH by (intros y Hy; apply H; right; exact Hy). reflexivity.
Qed.

(** X12.  When no file exists below the labels directory, loading the
    predictions gives every image an empty list and raises nothing. *)
Theorem missing_prediction_folder_gives_no_detections fs filepaths cl :
  (forall name, fs (labels_dir ++ name)%string = None) ->
  Annotate.load_predictions fs filepaths cl = Py.Ok (map (fun _ => []) filepaths).
Proof.
  intros Hfs. unfold Annotate.load_predictions, Annotate.add_yolo_detections,
    Annotate.prediction_filepaths.
  rewrite (comprehension_const _ ([] : Np.ndarray)).
  - cbn [Py.bind]. rewrite !map_map.
    rewrite (comprehension_const _ ([] : list Detection)); [rewrite map_map; reflexivity|].
    intros yd Hyd. apply in_map_iff in Hyd. destruct Hyd as (fp & <- & _). reflexivity.
  - intros p Hp. apply in_map_iff in Hp. destruct Hp as (fp & <- & _).
    unfold read_yolo_detections_file, get_prediction_filepath. rewrite Hfs. reflexivity.
Qed.

Lemma missing_prediction_folder_gives_no_detections_witness :
  Annotate.load_predictions (fun _ => None) ["val/a/7.png"; "val/b/8.png"] ["lesion"]
  = Py.Ok (map (fun _ => []) ["val/a/7.png"; "val/b/8.png"]).
Proof.
  apply (missing_prediction_folder_gives_no_detections
           (fun _ => None) ["val/a/7.png"; "val/b/8.png"] ["lesion"]).
  intros name. reflexivity.
Defined.

(** ** Outside the window, and windows given in other ways *)

Lemma BNV_0 : BNV 0 = 0.
Proof. reflexivity. Qed.

(** An integer below [2^53] is not changed by rounding. *)
Lemma BNV_int z : 0 <= z < 2 ^ 53 -> BNV (z * quantum) = z * quantum.
Proof.
  intros Hz. destruct (of_Z_exact z ltac:(lia)) as (Hv & _).
  unfold F64.of_Z in Hv. fold (bn z 0) in Hv.
  rewrite bn_value in Hv by lia. exact Hv.
Qed.

(** The value of the numerator on a window of two floats. *)
Lemma float_numerator_V lo hi hu :
  F64.valid lo = true -> F64.valid hi = true -> F64.is_finite lo = true ->
  F64.ltb lo hi = true -> -32768 <= hu <= 32767 ->
  V (F64.sub (Np.clip (F64.of_Z hu) lo hi) lo)
  = BNV (Z.min (Z.max (hu * quantum) (V lo)) (V hi) - V lo).
Proof.
  intros Wlo Whi Flo Hlt Hhu.
  assert (E53 : 2 ^ 53 = 9007199254740992) by reflexivity.
  destruct (ltb_not_nan _ _ Hlt) as [Nlo Nhi].
  assert (Nl : ordinary lo) by (split; assumption).
  assert (Nh : ordinary hi) by (split; assumption).
  rewrite ltb_V in Hlt by assumption. apply Z.ltb_lt in Hlt.
  destruct (of_Z_exact hu ltac:(lia)) as (X & _).
  pose proof (of_Z_ordinary hu ltac:(lia)) as Nx.
  destruct (clip_V _ _ _ Nx Nl Nh) as [Nc Vc]. rewrite X in Vc.
  destruct (clipped_range lo hi hu _ Nl Flo Hlt ltac:(lia) Vc Nc) as [Fc Dc].
  destruct (sub_V _ lo Nc Nl Fc Flo ltac:(lia)) as [_ Va].
  rewrite Va, Vc. reflexivity.
Qed.

Lemma float_denominator_V lo hi :
  F64.valid lo = true -> F64.valid hi = true -> F64.is_finite lo = true ->
  F64.is_finite hi = true -> F64.ltb lo hi = true ->
  V (F64.sub hi lo) = BNV (V hi - V lo).
Proof.
  intros Wlo Whi Flo Fhi Hlt.
  destruct (ltb_not_nan _ _ Hlt) as [Nlo Nhi].
  rewrite ltb_V in Hlt by assumption. apply Z.ltb_lt in Hlt.
  destruct (sub_V hi lo (conj Whi Nhi) (conj Wlo Nlo) Fhi Flo ltac:(lia)) as [_ Vd].
  exact Vd.
Qed.

(** Below the window the numerator is zero, above it the numerator is the
    denominator. *)
Lemma numerator_outside cmin cmax hu :
  well_formed_window cmin cmax = true -> -32768 <= hu <= 32767 ->
  (V (F64.of_Z hu) <= V (to_float cmin) -> V (numerator hu cmin cmax) = 0) /\
  (V (to_float cmax) <= V (F64.of_Z hu) ->
   V (numerator hu cmin cmax) = V (denominator cmin cmax)).
Proof.
  intros Hw Hhu.
  assert (E31 : 2 ^ 31 = 2147483648) by reflexivity.
  assert (E53 : 2 ^ 53 = 9007199254740992) by reflexivity.
  pose proof quantum_pos as HP.
  destruct (of_Z_exact hu ltac:(lia)) as (X & _). rewrite X.
  assert (Hfloat : forall lo hi,
    F64.valid lo && F64.valid hi && F64.is_finite lo && F64.ltb lo hi = true ->
    (hu * quantum <= V lo -> V (F64.sub (Np.clip (F64.of_Z hu) lo hi) lo) = 0) /\
    (V hi <= hu * quantum ->
     V (F64.sub (Np.clip (F64.of_Z hu) lo hi) lo) = V (F64.sub hi lo))).
  { intros lo hi H.
    apply andb_true_iff in H. destruct H as [H W4].
    apply andb_true_iff in H. destruct H as [H W3].
    apply andb_true_iff in H. destruct H as [W1 W2].
    rewrite (float_numerator_V lo hi hu W1 W2 W3 W4 Hhu).
    destruct (ltb_not_nan _ _ W4) as [Nlo Nhi].
    pose proof W4 as Hlt. rewrite ltb_V in Hlt by assumption. apply Z.ltb_lt in Hlt.
    split.
    - intros Hle. replace (Z.min (Z.max (hu * quantum) (V lo)) (V hi) - V lo) with 0 by lia.
      apply BNV_0.
    - intros Hge.
      assert (Fhi : F64.is_finite hi = true).
      { apply ordinary_finite; [split; assumption|].
        pose proof (finite_ordinary_range lo (conj W1 Nlo) W3).
        assert (quantum * 2 ^ 53 <= top) by (apply Z.leb_le; reflexivity). nia. }
      rewrite (float_denominator_V lo hi W1 W2 W3 Fhi W4). f_equal. lia. }
  unfold well_formed_window in Hw.
  destruct cmin as [lo | lo], cmax as [hi | hi]; cbn [numerator denominator to_float] in *;
    try (apply Hfloat; exact Hw).
  apply andb_true_iff in Hw. destruct Hw as [Hw W4].
  apply andb_true_iff in Hw. destruct Hw as [Hw W3].
  apply andb_true_iff in Hw. destruct Hw as [W1 W2].
  apply Z.leb_le in W1. apply Z.ltb_lt in W2, W3, W4.
  destruct (of_Z_exact lo ltac:(lia)) as (Xl & _).
  destruct (of_Z_exact hi ltac:(lia)) as (Xh & _).
  rewrite Xl, Xh. split; intros H.
  - assert (hu <= lo) by nia. unfold Np.clip_int.
    replace (Z.min (Z.max hu lo) hi - lo) with 0 by lia. reflexivity.
  - assert (hi <= hu) by nia. unfold Np.clip_int.
    replace (Z.min (Z.max hu lo) hi - lo) with (hi - lo) by lia.
    rewrite wrap_int32_id by lia. reflexivity.
Qed.

(** X13.  On every well-formed window a pixel whose Hounsfield value is at or
    below [clip_min] is stored as 0 and one at or above [clip_max] is stored
    as 255. *)
Theorem values_outside_the_window_saturate cmin cmax raw :
  well_formed_window cmin cmax = true -> 0 <= raw < 65536 ->
  (F64.leb (F64.of_Z (hounsfield raw)) (to_float cmin) = true ->
   convert_pixel raw cmin cmax = Some 0) /\
  (F64.leb (to_float cmax) (F64.of_Z (hounsfield raw)) = true ->
   convert_pixel raw cmin cmax = Some 255).
Proof.
  intros Hw R. rewrite convert_pixel_eq. rewrite hounsfield_u16 by assumption.
  destruct (well_formed_ordinary cmin cmax Hw) as [[Wl Nl] [Wh Nh]].
  destruct (of_Z_ordinary (raw - 32768) ltac:(lia)) as [Wx Nx].
  destruct (window_facts cmin cmax (raw - 32768) (raw - 32768) Hw ltac:(lia) ltac:(lia))
    as (G1 & _ & Gd & _ & H2d & Hf & Hp & _).
  destruct (numerator_outside cmin cmax (raw - 32768) Hw ltac:(lia)) as [Hlo Hhi].
  split; intros He; rewrite leb_V in He by assumption; apply Z.leb_le in He.
  - apply pixel_of_zero; auto.
  - apply pixel_of_full; auto. specialize (Hhi He). lia.
Qed.

Lemma values_outside_the_window_saturate_witness :
  well_formed_window (PyFloat (F64.of_Z (-175))) (PyFloat (F64.of_Z 275)) = true /\
  0 <= 0 < 65536 /\ 0 <= 65535 < 65536 /\
  F64.leb (F64.of_Z (hounsfield 0)) (to_float (PyFloat (F64.of_Z (-175)))) = true /\
  F64.leb (to_float (PyFloat (F64.of_Z 275))) (F64.of_Z (hounsfield 65535)) = true /\
  convert_pixel 0 (PyFloat (F64.of_Z (-175))) (PyFloat (F64.of_Z 275)) = Some 0 /\
  convert_pixel 65535 (PyFloat (F64.of_Z (-175))) (PyFloat (F64.of_Z 275)) = Some 255.
Proof.
  split; [vm_compute; reflexivity|]. split; [lia|]. split; [lia|].
  split; [vm_compute; reflexivity|]. split; [vm_compute; reflexivity|].
  split.
  - apply (proj1 (values_outside_the_window_saturate
                    (PyFloat (F64.of_Z (-175))) (PyFloat (F64.of_Z 275)) 0
                    ltac:(vm_compute; reflexivity) ltac:(lia))).
    vm_compute; reflexivity.
  - apply (proj2 (values_outside_the_window_saturate
                    (PyFloat (F64.of_Z (-175))) (PyFloat (F64.of_Z 275)) 65535
                    ltac:(vm_compute; reflexivity) ltac:(lia))).
    vm_compute; reflexivity.
Defined.

(** *** The same window as two integers and as two floats *)

(** Operands of equal values give equal pixels, also when the numerators are
    zeros of different signs. *)
Lemma pixel_of_same a1 d1 a2 d2 :
  good a1 -> good d1 -> good a2 -> good d2 ->
  V a1 = V a2 -> V d1 = V d2 -> 0 < V d1 < top -> V a1 <= V d1 ->
  pixel_of a1 d1 = pixel_of a2 d2.
Proof.
  intros Ga1 Gd1 Ga2 Gd2 Ha Hd Hr Hle.
  assert (d1 = d2) as <- by (apply good_V_inj; try assumption; lia).
  destruct (Z.eq_dec (V a1) 0) as [H0 | H0].
  - rewrite !pixel_of_zero; try assumption; try lia. reflexivity.
  - destruct Ga1 as (Va1 & Na1 & Pa1).
    assert (a1 = a2) as <-.
    { apply good_V_inj; [repeat split; assumption | assumption | assumption | lia]. }
    reflexivity.
Qed.

(** X14.  For integers [lo < hi] that fit [int32] together with their
    difference, the window of the two [int]s and the window of the two
    [float]s of the same values give the same stored pixel.  A cell that
    reads [-150, 250] is therefore converted as a row that fell back to the
    default. *)
Theorem integer_window_same_as_float lo hi raw :
  - 2 ^ 31 <= lo -> hi < 2 ^ 31 -> lo < hi -> hi - lo < 2 ^ 31 -> 0 <= raw < 65536 ->
  convert_pixel raw (PyFloat (F64.of_Z lo)) (PyFloat (F64.of_Z hi))
  = convert_pixel raw (PyInt lo) (PyInt hi).
Proof.
  intros L1 L2 L3 L4 R.
  assert (E31 : 2 ^ 31 = 2147483648) by reflexivity.
  assert (E53 : 2 ^ 53 = 9007199254740992) by reflexivity.
  pose proof quantum_pos as HP.
  rewrite !convert_pixel_eq. rewrite hounsfield_u16 by assumption.
  set (hu := raw - 32768).
  assert (Hhu : -32768 <= hu <= 32767) by (unfold hu; lia).
  destruct (of_Z_exact lo ltac:(lia)) as (Xl & Wl & Fl).
  destruct (of_Z_exact hi ltac:(lia)) as (Xh & Wh & Fh).
  assert (Hlt : F64.ltb (F64.of_Z lo) (F64.of_Z hi) = true).
  { rewrite ltb_V by (auto using finite_not_nan). rewrite Xl, Xh. apply Z.ltb_lt. nia. }
  assert (Wf : well_formed_window (PyFloat (F64.of_Z lo)) (PyFloat (F64.of_Z hi)) = true).
  { cbn [well_formed_window to_float]. rewrite Wl, Wh, Fl, Hlt. reflexivity. }
  assert (Wi : well_formed_window (PyInt lo) (PyInt hi) = true).
  { cbn [well_formed_window].
    destruct (Z.leb_spec (- 2 ^ 31) lo); [|lia]. destruct (Z.ltb_spec hi (2 ^ 31)); [|lia].
    destruct (Z.ltb_spec lo hi); [|lia]. destruct (Z.ltb_spec (hi - lo) (2 ^ 31)); [|lia].
    reflexivity. }
  destruct (window_facts _ _ hu hu Wf ltac:(lia) ltac:(lia))
    as (Gaf & _ & Gdf & _ & Hadf & Hff & Hpf & _).
  destruct (window_facts _ _ hu hu Wi ltac:(lia) ltac:(lia))
    as (Gai & _ & Gdi & _ & Hadi & Hfi & Hpi & _).
  assert (C : 0 <= Np.clip_int hu lo hi - lo <= hi - lo) by (unfold Np.clip_int; lia).
  assert (Vai : V (numerator hu (PyInt lo) (PyInt hi)) = (Np.clip_int hu lo hi - lo) * quantum).
  { cbn [numerator]. rewrite wrap_int32_id by lia.
    destruct (of_Z_exact (Np.clip_int hu lo hi - lo) ltac:(lia)) as (H & _). exact H. }
  assert (Vdi : V (denominator (PyInt lo) (PyInt hi)) = (hi - lo) * quantum).
  { cbn [denominator]. destruct (of_Z_exact (hi - lo) ltac:(lia)) as (H & _). exact H. }
  assert (Vaf : V (numerator hu (PyFloat (F64.of_Z lo)) (PyFloat (F64.of_Z hi)))
                = (Np.clip_int hu lo hi - lo) * quantum).
  { cbn [numerator to_float]. rewrite float_numerator_V by assumption.
    rewrite Xl, Xh.
    replace (Z.min (Z.max (hu * quantum) (lo * quantum)) (hi * quantum) - lo * quantum)
      with ((Np.clip_int hu lo hi - lo) * quantum) by (unfold Np.clip_int; nia).
    apply BNV_int. lia. }
  assert (Vdf : V (denominator (PyFloat (F64.of_Z lo)) (PyFloat (F64.of_Z hi)))
                = (hi - lo) * quantum).
  { cbn [denominator to_float]. rewrite float_denominator_V by assumption.
    rewrite Xl, Xh. replace (hi * quantum - lo * quantum) with ((hi - lo) * quantum) by lia.
    apply BNV_int. lia. }
  apply pixel_of_same; try assumption; try lia.
  rewrite Vdf. assert (quantum * 2 ^ 53 <= top) by (apply Z.leb_le; reflexivity). nia.
Qed.

Lemma integer_window_same_as_float_witness :
  - 2 ^ 31 <= -150 /\ 250 < 2 ^ 31 /\ -150 < 250 /\ 250 - -150 < 2 ^ 31 /\
  0 <= 32800 < 65536 /\
  parse_window (Text "-150, 250") = Py.Ok (PyFloat (F64.of_Z (-150)), PyFloat (F64.of_Z 250)) /\
  convert_pixel 32800 (PyFloat (F64.of_Z (-150))) (PyFloat (F64.of_Z 250))
  = convert_pixel 32800 (PyInt (-150)) (PyInt 250).
Proof.
  split; [apply Z.leb_le; reflexivity|]. split; [reflexivity|]. split; [reflexivity|].
  split; [reflexivity|]. split; [lia|]. split; [vm_compute; reflexivity|].
  apply (integer_window_same_as_float (-150) 250 32800);
    [apply Z.leb_le; reflexivity | reflexivity | reflexivity | reflexivity | lia].
Defined.

(** *** A window given in the wrong order *)

(** The sign passes through the end of the rounding. *)
Lemma finish_opp R e : finish true R e = SFopp (finish false R e).
Proof.
  unfold finish. destruct (shr_fexp F64.prec F64.emax R e loc_Exact) as [mrs e'].
  destruct (shr_m mrs); [reflexivity | | reflexivity].
  destruct (e' <=? F64.emax - F64.prec); reflexivity.
Qed.

Lemma binary_round_opp m e :
  binary_round F64.prec F64.emax true m e = SFopp (binary_round F64.prec F64.emax false m e).
Proof.
  rewrite !binary_round_eq.
  rewrite !bra_exact_eq by (first [apply rnd_fine; lia | pose proof (rnd_num_pos (Zpos m) e); lia]).
  apply finish_opp.
Qed.

Lemma bn_opp z e : z <> 0 ->
  binary_normalize F64.prec F64.emax (- z) e false
  = SFopp (binary_normalize F64.prec F64.emax z e false).
Proof.
  intros Hz. destruct z as [|p|p]; [contradiction | |]; cbn [Z.opp binary_normalize].
  - apply binary_round_opp.
  - rewrite binary_round_opp. destruct (binary_round _ _ false p e) as [[|]|[|]| |[|] ? ?];
      reflexivity.
Qed.

(** [x - y] and [y - x] differ in the sign only, for finite [x <> y]. *)
Lemma sub_swap x y : ordinary x -> ordinary y ->
  F64.is_finite x = true -> F64.is_finite y = true -> V x < V y ->
  F64.sub x y = SFopp (F64.sub y x).
Proof.
  intros [Vx Nx] [Vy Ny] Fx Fy Hlt.
  destruct x as [sx | sx | | sx mx ex]; try discriminate;
  destruct y as [sy | sy | | sy my ey]; try discriminate.
  - reflexivity.
  - destruct sx; reflexivity.
  - pose proof (valid_finite_bounds _ _ _ Vx) as [Rx _].
    pose proof (valid_finite_bounds _ _ _ Vy) as [Ry _].
    unfold F64.sub. cbn [SFsub]. rewrite !shl_align_spec. cbn [fst].
    rewrite (Z.min_comm ey ex). set (ez := Z.min ex ey).
    rewrite !Z.min_r by (unfold ez; lia).
    assert (Px : 0 < 2 ^ (ex - ez)) by (apply pow2_gt0; unfold ez; lia).
    assert (Py : 0 < 2 ^ (ey - ez)) by (apply pow2_gt0; unfold ez; lia).
    rewrite !Z2Pos.id by nia.
    set (zx := cond_Zopp sx (Zpos mx * 2 ^ (ex - ez))).
    set (zy := cond_Zopp sy (Zpos my * 2 ^ (ey - ez))).
    replace (zx - zy) with (- (zy - zx)) by lia.
    apply bn_opp.
    assert (Pz : 0 < 2 ^ (ez + 1074)) by (apply pow2_gt0; unfold ez; lia).
    assert (Hz : (zy - zx) * 2 ^ (ez + 1074)
                 = V (S754_finite sy my ey) - V (S754_finite sx mx ex)).
    { unfold zx, zy. cbn [V]. rewrite Z.mul_sub_distr_r, !cond_Zopp_mul.
      rewrite <- !Z.mul_assoc, <- !pow2_add by (unfold ez; lia).
      replace (ex - ez + (ez + 1074)) with (ex + 1074) by lia.
      replace (ey - ez + (ez + 1074)) with (ey + 1074) by lia. reflexivity. }
    intros H0. rewrite H0 in Hz. lia.
Qed.

(** With the bounds in the wrong order [np.clip] returns the upper one. *)
Lemma clip_reversed x lo hi : ordinary x -> F64.valid lo = true -> F64.valid hi = true ->
  F64.ltb hi lo = true -> Np.clip x lo hi = hi.
Proof.
  intros [Vx Nx] Vl Vh Hlt.
  destruct (ltb_not_nan _ _ Hlt) as [Nh Nl].
  pose proof (ltb_asym _ _ Hlt) as Hge.
  rewrite ltb_V in Hlt by assumption. apply Z.ltb_lt in Hlt.
  unfold Np.clip, Np.fmax, Np.fmin. rewrite Nx.
  destruct (F64.ltb lo x) eqn:H1.
  - rewrite Nx. rewrite ltb_V in H1 by assumption. apply Z.ltb_lt in H1.
    rewrite ltb_V by assumption. destruct (Z.ltb_spec (V x) (V hi)); [lia | reflexivity].
  - rewrite Nl, Hge. reflexivity.
Qed.

Lemma hounsfield_ordinary raw : ordinary (F64.of_Z (hounsfield raw)).
Proof.
  apply of_Z_ordinary. pose proof (wrap_int32_range (raw - 32768)) as H.
  fold (hounsfield raw) in H.
  assert (E31 : 2 ^ 31 = 2147483648) by reflexivity.
  assert (E53 : 2 ^ 53 = 9007199254740992) by reflexivity. lia.
Qed.

Lemma div_diag_neg m e :
  F64.div (S754_finite true m e) (S754_finite true m e) = f64_one.
Proof. rewrite <- (div_diag m e). reflexivity. Qed.

(** X15.  A window whose bounds come in the wrong order, [clip_max <
    clip_min] with a finite difference, is used as it is: every normalized
    value is 1 and every pixel is stored as 255. *)
Theorem reversed_window_gives_white lo hi raw :
  F64.valid lo = true -> F64.valid hi = true ->
  F64.ltb hi lo = true -> F64.is_finite (F64.sub hi lo) = true ->
  clip_and_normalize (hounsfield raw) (PyFloat lo) (PyFloat hi) = F64.of_Z 1 /\
  convert_pixel raw (PyFloat lo) (PyFloat hi) = Some 255.
Proof.
  intros Vl Vh Hlt Hfin.
  destruct (ltb_not_nan _ _ Hlt) as [Nh Nl].
  assert (Fh : F64.is_finite hi = true).
  { destruct hi as [| sh | |]; try reflexivity; try discriminate.
    exfalso. destruct lo as [| sl | |], sh; cbn in Hlt, Hfin; try discriminate;
      destruct sl; discriminate. }
  assert (Fl : F64.is_finite lo = true).
  { destruct lo as [| sl | |]; try reflexivity; try discriminate.
    exfalso. destruct hi as [| sh | |]; cbn in Hlt, Hfin; try discriminate;
      destruct sl; discriminate. }
  assert (Hn : clip_and_normalize (hounsfield raw) (PyFloat lo) (PyFloat hi) = f64_one).
  { cbn [clip_and_normalize to_float].
    rewrite (clip_reversed _ lo hi (hounsfield_ordinary raw) Vl Vh Hlt).
    pose proof Hlt as Hv. rewrite ltb_V in Hv by assumption. apply Z.ltb_lt in Hv.
    rewrite (sub_swap hi lo (conj Vh Nh) (conj Vl Nl) Fh Fl Hv) in Hfin |- *.
    destruct (sub_V lo hi (conj Vl Nl) (conj Vh Nh) Fl Fh ltac:(lia)) as [Gd Vd].
    assert (Pd : 0 < V (F64.sub lo hi)) by (rewrite Vd; apply BNV_pos; lia).
    destruct (good_cases _ Gd) as [[s E] | [(m & e & E) | E]]; rewrite E in *.
    - cbn [V] in Pd. lia.
    - cbn [SFopp negb]. apply div_diag_neg.
    - discriminate. }
  split; [rewrite Hn; reflexivity|].
  unfold convert_pixel, scaled. rewrite Hn. reflexivity.
Qed.

Lemma reversed_window_gives_white_witness :
  F64.valid (F64.of_Z 275) = true /\ F64.valid (F64.of_Z (-175)) = true /\
  F64.ltb (F64.of_Z (-175)) (F64.of_Z 275) = true /\
  F64.is_finite (F64.sub (F64.of_Z (-175)) (F64.of_Z 275)) = true /\
  parse_window (Text "275, -175") = Py.Ok (PyFloat (F64.of_Z 275), PyFloat (F64.of_Z (-175))) /\
  clip_and_normalize (hounsfield 32768) (PyFloat (F64.of_Z 275)) (PyFloat (F64.of_Z (-175)))
  = F64.of_Z 1 /\
  convert_pixel 32768 (PyFloat (F64.of_Z 275)) (PyFloat (F64.of_Z (-175))) = Some 255.
Proof.
  split; [reflexivity|]. split; [reflexivity|]. split; [reflexivity|]. split; [reflexivity|].
  split; [vm_compute; reflexivity|].
  apply (reversed_window_gives_white (F64.of_Z 275) (F64.of_Z (-175)) 32768); reflexivity.
Defined.

(** *** The default window in integers *)

(** With [int] bounds the pixel depends on the clipped value only. *)
Lemma int_pixel_of_clipped lo hi raw :
  0 <= raw < 65536 -> -32768 <= lo -> hi <= 32767 -> lo <= hi ->
  convert_pixel raw (PyInt lo) (PyInt hi)
  = convert_pixel (Np.clip_int (raw - 32768) lo hi + 32768) (PyInt lo) (PyInt hi).
Proof.
  intros R L1 L2 L3. unfold convert_pixel, scaled. cbn [clip_and_normalize].
  assert (C : lo <= Np.clip_int (raw - 32768) lo hi <= hi) by (unfold Np.clip_int; lia).
  rewrite !hounsfield_u16 by lia.
  replace (Np.clip_int (raw - 32768) lo hi + 32768 - 32768)
    with (Np.clip_int (raw - 32768) lo hi) by lia.
  replace (Np.clip_int (Np.clip_int (raw - 32768) lo hi) lo hi)
    with (Np.clip_int (raw - 32768) lo hi) by (unfold Np.clip_int in *; lia).
  reflexivity.
Qed.

(** The table of the default window, by computation. *)
Lemma default_table : default_table_ok = true.
Proof. vm_compute. reflexivity. Qed.

(** X16.  With the default window the stored pixel is, in integers,
    [(clip(raw - 32768, -150, 250) + 150) * 255 // 400], for every 16-bit
    raw value. *)
Theorem default_window_pixel raw : 0 <= raw < 65536 ->
  convert_pixel raw (fst default_window) (snd default_window)
  = Some ((Np.clip_int (raw - 32768) (-150) 250 + 150) * 255 / 400).
Proof.
  intros R. cbn [default_window fst snd].
  rewrite int_pixel_of_clipped by lia.
  set (c := Np.clip_int (raw - 32768) (-150) 250).
  assert (C : -150 <= c <= 250) by (unfold c, Np.clip_int; lia).
  pose proof default_table as T. unfold default_table_ok in T.
  rewrite forallb_forall in T.
  specialize (T (Z.to_nat (c + 150))).
  rewrite Z2Nat.id in T by lia.
  replace (c + 150 + 32618) with (c + 32768) in T by lia.
  assert (Hin : In (Z.to_nat (c + 150)) (seq 0 401)) by (apply in_seq; lia).
  specialize (T Hin).
  destruct (convert_pixel (c + 32768) (PyInt (-150)) (PyInt 250)) as [v|]; [|discriminate].
  apply Z.eqb_eq in T. rewrite T. reflexivity.
Qed.

Lemma default_window_pixel_witness :
  0 <= 32868 < 65536 /\
  convert_pixel 32868 (fst default_window) (snd default_window)
  = Some ((Np.clip_int (32868 - 32768) (-150) 250 + 150) * 255 / 400).
Proof. split; [lia|]. apply (default_window_pixel 32868). lia. Defined.

(** *** Bounds that are no numbers *)

(** [np.clip] with a NaN bound gives NaN. *)
Lemma clip_nan_bound x lo hi : F64.is_nan x = false ->
  F64.is_nan lo = true \/ F64.is_nan hi = true -> Np.clip x lo hi = F64.nan.
Proof.
  intros Nx H. unfold Np.clip, Np.fmax, Np.fmin. rewrite Nx.
  destruct H as [H | H].
  - destruct lo; try discriminate. destruct x; try discriminate; reflexivity.
  - destruct hi; try discriminate.
    destruct (F64.ltb lo x).
    + rewrite Nx. destruct x; try discriminate; reflexivity.
    + destruct lo; reflexivity.
Qed.

(** X17.  A bound that reads as NaN raises nothing, so the defaults are not
    taken: every normalized value is NaN and no pixel has a specified value. *)
Theorem nan_bound_gives_no_pixel lo hi raw :
  F64.is_nan lo = true \/ F64.is_nan hi = true ->
  clip_and_normalize (hounsfield raw) (PyFloat lo) (PyFloat hi) = F64.nan /\
  convert_pixel raw (PyFloat lo) (PyFloat hi) = None.
Proof.
  intros H.
  assert (Hn : clip_and_normalize (hounsfield raw) (PyFloat lo) (PyFloat hi) = F64.nan).
  { cbn [clip_and_normalize to_float].
    rewrite (clip_nan_bound _ lo hi (hounsfield_not_nan raw) H). reflexivity. }
  split; [exact Hn|]. unfold convert_pixel, scaled. rewrite Hn. reflexivity.
Qed.

Lemma nan_bound_gives_no_pixel_witness :
  (F64.is_nan F64.nan = true \/ F64.is_nan (F64.of_Z 100) = true) /\
  parse_window (Text "nan, 100") = Py.Ok (PyFloat F64.nan, PyFloat (F64.of_Z 100)) /\
  select_window {| File_name := "000001_01_01_109.png"; DICOM_windows := Text "nan, 100" |}
  = ((PyFloat F64.nan, PyFloat (F64.of_Z 100)), []) /\
  clip_and_normalize (hounsfield 32768) (PyFloat F64.nan) (PyFloat (F64.of_Z 100)) = F64.nan /\
  convert_pixel 32768 (PyFloat F64.nan) (PyFloat (F64.of_Z 100)) = None.
Proof.
  split; [left; reflexivity|]. split; [vm_compute; reflexivity|].
  split; [vm_compute; reflexivity|].
  apply (nan_bound_gives_no_pixel F64.nan (F64.of_Z 100) 32768). left; reflexivity.
Defined.

(** *** Infinite bounds *)




(** ** The loops of the normalizer *)

Lemma convert_slice_decoded px w : convert_slice (Some px) w = Py.Ok (converted w px).
Proof. reflexivity. Qed.

(** One step of the loop over the files. *)
Lemma convert_folder_cons subdir_in subdir_out w name im rest st :
  convert_folder subdir_in subdir_out w ((name, im) :: rest) st
  = convert_folder subdir_in subdir_out w rest
      match im with
      | Some px => imwrite (join subdir_out name) (converted w px) st
      | None => print ("Failed to convert " ++ join subdir_in name) st
      end.
Proof. destruct im; reflexivity. Qed.

(** The loop only adds to what was written and printed. *)
Lemma convert_folder_keeps subdir_in subdir_out w images st :
  (forall e, In e (written st) ->
             In e (written (convert_folder subdir_in subdir_out w images st))) /\
  (forall m, In m (printed st) ->
             In m (printed (convert_folder subdir_in subdir_out w images st))).
Proof.
  revert st. induction images as [|[name im] rest IH]; intros st; [split; auto|].
  rewrite convert_folder_cons. destruct (IH (match im with
      | Some px => imwrite (join subdir_out name) (converted w px) st
      | None => print ("Failed to convert " ++ join subdir_in name) st
      end)) as [Hw Hp].
  split.
  - intros e He. apply Hw. destruct im; cbn [imwrite print written]; [right|]; exact He.
  - intros m Hm. apply Hp. destruct im; cbn [imwrite print printed]; [|right]; exact Hm.
Qed.

(** The numbers of writes and of messages of the loop. *)
Lemma convert_folder_counts subdir_in subdir_out w images st :
  List.length (written (convert_folder subdir_in subdir_out w images st))
  = (List.length (written st) + decodable images)%nat /\
  (List.length (printed (convert_folder subdir_in subdir_out w images st))
   + decodable images
   = List.length (printed st) + List.length images)%nat.
Proof.
  revert st. induction images as [|[name im] rest IH]; intros st.
  - cbn. lia.
  - rewrite convert_folder_cons.
    destruct (IH (match im with
      | Some px => imwrite (join subdir_out name) (converted w px) st
      | None => print ("Failed to convert " ++ join subdir_in name) st
      end)) as [Hw Hp].
    rewrite Hw. unfold decodable in *. cbn [filter snd List.length].
    destruct im; cbn [imwrite print written printed List.length] in *; lia.
Qed.

(** Every decoded slice is written. *)
Lemma convert_folder_writes subdir_in subdir_out w images st name px :
  In (name, Some px) images ->
  In (join subdir_out name, converted w px)
     (written (convert_folder subdir_in subdir_out w images st)).
Proof.
  revert st. induction images as [|[n im] rest IH]; intros st Hin; [contradiction|].
  rewrite convert_folder_cons. destruct Hin as [E | Hin].
  - injection E as -> ->. apply convert_folder_keeps. left. reflexivity.
  - apply IH. exact Hin.
Qed.

(** Every file that is not decoded is reported. *)
Lemma convert_folder_reports subdir_in subdir_out w images st name :
  In (name, None) images ->
  In ("Failed to convert " ++ join subdir_in name)%string
     (printed (convert_folder subdir_in subdir_out w images st)).
Proof.
  revert st. induction images as [|[n im] rest IH]; intros st Hin; [contradiction|].
  rewrite convert_folder_cons. destruct Hin as [E | Hin].
  - injection E as -> ->. apply convert_folder_keeps. left. reflexivity.
  - apply IH. exact Hin.
Qed.

(** X19.  In the loop over the files of one folder every decoded slice is
    written under its own name in the output folder, every file that is not
    decoded leaves a message with its input path, and the loop goes through
    all files: as many images are written as slices were decoded, and as many
    messages printed as files were not. *)
Theorem undecodable_slice_does_not_stop_the_folder subdir_in subdir_out w images st :
  (forall name px, In (name, Some px) images ->
     In (join subdir_out name, converted w px)
        (written (convert_folder subdir_in subdir_out w images st))) /\
  (forall name, In (name, None) images ->
     In ("Failed to convert " ++ join subdir_in name)%string
        (printed (convert_folder subdir_in subdir_out w images st))) /\
  List.length (written (convert_folder subdir_in subdir_out w images st))
  = (List.length (written st) + decodable images)%nat /\
  (List.length (printed (convert_folder subdir_in subdir_out w images st))
   + decodable images
   = List.length (printed st) + List.length images)%nat.
Proof.
  split; [|split; [|apply convert_folder_counts]].
  - intros name px. apply convert_folder_writes.
  - intros name. apply convert_folder_reports.
Qed.

Lemma undecodable_slice_does_not_stop_the_folder_witness :
  In ("103.png", Some [[32768; 32900]])
     [("101.png", Some [[0]]); ("102.png", None); ("103.png", Some [[32768; 32900]])] /\
  In (join "out/000001_01_01" "103.png", converted default_window [[32768; 32900]])
     (written (convert_folder "in/000001_01_01" "out/000001_01_01" default_window
                 [("101.png", Some [[0]]); ("102.png", None);
                  ("103.png", Some [[32768; 32900]])]
                 {| written := []; printed := [] |})).
Proof.
  split; [right; right; left; reflexivity|].
  apply (proj1 (undecodable_slice_does_not_stop_the_folder
                  "in/000001_01_01" "out/000001_01_01" default_window
                  [("101.png", Some [[0]]); ("102.png", None);
                   ("103.png", Some [[32768; 32900]])]
                  {| written := []; printed := [] |})).
  right; right; left; reflexivity.
Defined.

(** *** Rows that name the same folder *)

Lemma append_inj_l (a b c : string) : (a ++ b = a ++ c)%string -> b = c.
Proof.
  induction a as [|x a IH]; cbn [String.append]; [auto|].
  intros H. injection H as H. apply IH. exact H.
Qed.

(** Two names give two paths. *)
Lemma join_inj dir n1 n2 : join dir n1 = join dir n2 -> n1 = n2.
Proof.
  unfold join. intros H. apply append_inj_l in H. apply append_inj_l in H. exact H.
Qed.

Lemma file_content_imwrite_same path im st :
  file_content (imwrite path im st) path = Some im.
Proof.
  unfold file_content, imwrite. cbn [written find fst]. rewrite String.eqb_refl. reflexivity.
Qed.

Lemma file_content_imwrite_other path path' im st : path' <> path ->
  file_content (imwrite path' im st) path = file_content st path.
Proof.
  intros H. unfold file_content, imwrite. cbn [written find fst].
  destruct (String.eqb_spec path' path); [contradiction | reflexivity].
Qed.

(** The loop leaves the files of other names alone. *)
Lemma convert_folder_other subdir_in subdir_out w images st name :
  ~ In name (map fst images) ->
  file_content (convert_folder subdir_in subdir_out w images st) (join subdir_out name)
  = file_content st (join subdir_out name).
Proof.
  revert st. induction images as [|[n im] rest IH]; intros st Hn; [reflexivity|].
  rewrite convert_folder_cons. cbn [map fst In] in Hn.
  rewrite IH by tauto. destruct im as [px|]; [|reflexivity].
  apply file_content_imwrite_other. intros E. apply join_inj in E. tauto.
Qed.

(** After the loop a decoded slice holds its converted image. *)
Lemma convert_folder_content subdir_in subdir_out w images st name px :
  NoDup (map fst images) -> In (name, Some px) images ->
  file_content (convert_folder subdir_in subdir_out w images st) (join subdir_out name)
  = Some (converted w px).
Proof.
  revert st. induction images as [|[n im] rest IH]; intros st Hnd Hin; [contradiction|].
  rewrite convert_folder_cons. cbn [map fst] in Hnd. inversion Hnd as [|? ? Hn Hnd']; subst.
  destruct Hin as [E | Hin].
  - injection E as -> ->. rewrite convert_folder_other by exact Hn.
    apply file_content_imwrite_same.
  - apply IH; assumption.
Qed.

Lemma run_snoc glob rows r st :
  run glob (rows ++ [r]) st = convert_row glob r (run glob rows st).
Proof. unfold run. rewrite fold_left_app. reflexivity. Qed.

(** One iteration of the loop over the rows, with its parts named. *)
Lemma convert_row_eq glob r st :
  convert_row glob r st
  = convert_folder (join dir_in (folder_of r)) (join dir_out (folder_of r))
      (fst (select_window r)) (glob (folder_of r))
      (fold_left (fun s m => print m s) (snd (select_window r)) st).
Proof. unfold convert_row, folder_of. destruct (select_window r) as [w msgs]. reflexivity. Qed.

(** X20.  After a run, every decoded slice of the folder the last row names
    holds the image made with the window of that row (the default one if its
    cell is malformed), whatever the earlier rows of the same folder asked
    for: a later row overwrites the output of an earlier one. *)
Theorem last_row_decides_the_slice glob before r st name px :
  NoDup (map fst (glob (folder_of r))) -> In (name, Some px) (glob (folder_of r)) ->
  file_content (run glob (before ++ [r]) st) (join (join dir_out (folder_of r)) name)
  = Some (converted (fst (select_window r)) px).
Proof.
  intros Hnd Hin. rewrite run_snoc, convert_row_eq.
  apply convert_folder_content; assumption.
Qed.

Lemma last_row_decides_the_slice_witness :
  NoDup (map fst ((fun _ : string => [("109.png", Some [[32768; 32900]])])
                    (folder_of {| File_name := "000001_01_01_110.png";
                                  DICOM_windows := Text "abc" |}))) /\
  In ("109.png", Some [[32768; 32900]])
     ((fun _ : string => [("109.png", Some [[32768; 32900]])])
        (folder_of {| File_name := "000001_01_01_110.png"; DICOM_windows := Text "abc" |})) /\
  file_content
    (run (fun _ => [("109.png", Some [[32768; 32900]])])
         ([{| File_name := "000001_01_01_109.png"; DICOM_windows := Text "-175, 275" |}]
          ++ [{| File_name := "000001_01_01_110.png"; DICOM_windows := Text "abc" |}])
         {| written := []; printed := [] |})
    (join (join dir_out
             (folder_of {| File_name := "000001_01_01_110.png"; DICOM_windows := Text "abc" |}))
          "109.png")
  = Some (converted
            (fst (select_window
                    {| File_name := "000001_01_01_110.png"; DICOM_windows := Text "abc" |}))
            [[32768; 32900]]).
Proof.
  split; [repeat constructor; intros []|]. split; [left; reflexivity|].
  apply (last_row_decides_the_slice
           (fun _ => [("109.png", Some [[32768; 32900]])])
           [{| File_name := "000001_01_01_109.png"; DICOM_windows := Text "-175, 275" |}]
           {| File_name := "000001_01_01_110.png"; DICOM_windows := Text "abc" |}
           {| written := []; printed := [] |} "109.png" [[32768; 32900]]);
    [repeat constructor; intros [] | left; reflexivity].
Defined.

Lemma print_all_written msgs st :
  written (fold_left (fun s m => print m s) msgs st) = written st.
Proof. revert st. induction msgs as [|m msgs IH]; intros st; [reflexivity|]. cbn [fold_left]. rewrite IH. reflexivity. Qed.

(** X21.  A run converts the folder of every row of the table, also when an
    earlier row named the same folder ([created_dirs] is never looked at): the
    number of images written is the sum, over the rows, of the decoded slices
    of the row's folder. *)
Theorem every_row_converts_its_folder glob rows st :
  List.length (written (run glob rows st))
  = (List.length (written st)
     + list_sum (map (fun r => decodable (glob (folder_of r))) rows))%nat.
Proof.
  unfold run. revert st.
  induction rows as [|r rows IH]; intros st; cbn [fold_left map]; [cbn; lia|].
  rewrite IH, convert_row_eq.
  destruct (convert_folder_counts (join dir_in (folder_of r)) (join dir_out (folder_of r))
              (fst (select_window r)) (glob (folder_of r))
              (fold_left (fun s m => print m s) (snd (select_window r)) st)) as [Hw _].
  rewrite Hw, print_all_written. unfold list_sum. cbn [fold_right]. lia.
Qed.

(** Two rows of one folder: the slice is written twice, last with the window
    of the second row. *)
Example same_folder_is_converted_twice :
  let glob := fun _ : string => [("109.png", Some [[32768; 32900]])] in
  let rows := [{| File_name := "000001_01_01_109.png"; DICOM_windows := Text "-175, 275" |};
               {| File_name := "000001_01_01_110.png"; DICOM_windows := Text "abc" |}] in
  map fst (written (run glob rows {| written := []; printed := [] |}))
  = ["./DeepLesion/deeplesion_images/Images_png_wn/000001_01_01/109.png";
     "./DeepLesion/deeplesion_images/Images_png_wn/000001_01_01/109.png"] /\
  map snd (written (run glob rows {| written := []; printed := [] |}))
  = [[[Some 95; Some 179]]; [[Some 99; Some 173]]].
Proof. split; vm_compute; reflexivity. Qed.

(** *** What is written is an image of bytes *)

Lemma pixel_is_byte cmin cmax raw :
  well_formed_window cmin cmax = true -> 0 <= raw < 65536 ->
  exists v, convert_pixel raw cmin cmax = Some v /\ 0 <= v <= 255.
Proof.
  intros Hw R. rewrite convert_pixel_eq, hounsfield_u16 by assumption.
  destruct (window_facts cmin cmax (raw - 32768) (raw - 32768) Hw ltac:(lia) ltac:(lia))
    as (G1 & G2 & Gd & H12 & H2d & Hf & Hp & _).
  destruct (pixel_of_spec _ _ _ G1 G2 Gd H12 H2d Hf Hp) as (v1 & v2 & E1 & E2 & B0 & B1 & B2).
  exists v1. split; [exact E1 | lia].
Qed.

Lemma converted_all_bytes w px :
  well_formed_window (fst w) (snd w) = true ->
  Forall (Forall (fun raw => 0 <= raw < 65536)) px -> all_bytes (converted w px).
Proof.
  intros Hw Hpx. unfold all_bytes, converted. apply Forall_map.
  eapply Forall_impl; [|exact Hpx]. intros row Hrow. apply Forall_map.
  eapply Forall_impl; [|exact Hrow]. intros raw Hraw. cbv beta.
  apply pixel_is_byte; assumption.
Qed.

(** Every write of the loop comes from the state before it or from a
    decoded slice of the folder. *)
Lemma convert_folder_written subdir_in subdir_out w images st e :
  In e (written (convert_folder subdir_in subdir_out w images st)) ->
  In e (written st) \/
  exists name px, In (name, Some px) images /\ e = (join subdir_out name, converted w px).
Proof.
  revert st. induction images as [|[n im] rest IH]; intros st He; [left; exact He|].
  rewrite convert_folder_cons in He. apply IH in He. destruct He as [He | He].
  - destruct im as [px|]; cbn [imwrite print written] in He.
    + destruct He as [<- | He]; [|left; exact He].
      right. exists n, px. split; [left; reflexivity | reflexivity].
    + left. exact He.
  - destruct He as (name & px & Hin & ->). right. exists name, px.
    split; [right; exact Hin | reflexivity].
Qed.

(** X22.  One iteration of the loop over the rows keeps the output a set of
    byte images: when the window of the row is well-formed (as the default
    one is) and the decoded slices of its folder hold 16-bit values, every
    image written so far has a value between 0 and 255 in every pixel. *)
Theorem written_slices_hold_bytes glob r st :
  well_formed_window (fst (fst (select_window r))) (snd (fst (select_window r))) = true ->
  Forall (fun e => sixteen_bit (snd e)) (glob (folder_of r)) ->
  Forall (fun e => all_bytes (snd e)) (written st) ->
  Forall (fun e => all_bytes (snd e)) (written (convert_row glob r st)).
Proof.
  intros Hw Hin Hst. rewrite convert_row_eq. apply Forall_forall. intros e He.
  apply convert_folder_written in He. rewrite print_all_written in He.
  destruct He as [He | (name & px & Hpx & ->)].
  - rewrite Forall_forall in Hst. apply Hst. exact He.
  - cbn [snd]. apply converted_all_bytes; [exact Hw|].
    rewrite Forall_forall in Hin. exact (Hin _ Hpx).
Qed.

Lemma written_slices_hold_bytes_witness :
  well_formed_window
    (fst (fst (select_window {| File_name := "000001_01_01_109.png";
                                DICOM_windows := Text "abc" |})))
    (snd (fst (select_window {| File_name := "000001_01_01_109.png";
                                DICOM_windows := Text "abc" |}))) = true /\
  Forall (fun e => all_bytes (snd e))
    (written (convert_row (fun _ => [("108.png", None); ("109.png", Some [[0; 65535]])])
                {| File_name := "000001_01_01_109.png"; DICOM_windows := Text "abc" |}
                {| written := []; printed := [] |})).
Proof.
  split; [vm_compute; reflexivity|].
  apply (written_slices_hold_bytes
           (fun _ => [("108.png", None); ("109.png", Some [[0; 65535]])])
           {| File_name := "000001_01_01_109.png"; DICOM_windows := Text "abc" |}
           {| written := []; printed := [] |}).
  - vm_compute; reflexivity.
  - repeat constructor; cbn; lia.
  - constructor.
Defined.

(** ** The paths of the dataset loop *)

Lemma length_append (a b : string) :
  String.length (a ++ b) = (String.length a + String.length b)%nat.
Proof. induction a as [|x a IH]; cbn [String.append String.length]; [reflexivity | rewrite IH; reflexivity]. Qed.

Lemma append_longer (a b : string) : b <> ""%string -> (a ++ b)%string <> a.
Proof.
  intros Hb E. assert (H := f_equal String.length E). rewrite length_append in H.
  destruct b; [contradiction | cbn [String.length] in H; lia].
Qed.

Lemma split4_cases file_name :
  (4 <= List.length (Str.split "_" file_name))%nat ->
  exists a b c d rest, Str.split "_" file_name = a :: b :: c :: d :: rest.
Proof.
  destruct (Str.split "_" file_name) as [|a [|b [|c [|d rest]]]]; cbn [List.length]; try lia.
  intros _. eauto 6.
Qed.

(** X23.  For a file name of four parts or more, the folder the normalizer
    writes to and the folder the dataset loop reads from are the same exactly
    when the name has four parts. *)
Theorem loops_agree_on_folder file_name :
  (4 <= List.length (Str.split "_" file_name))%nat ->
  (Str.rsplit1_head "_" file_name = subfolder_of file_name
   <-> List.length (Str.split "_" file_name) = 4%nat).
Proof.
  intros H4. destruct (split4_cases file_name H4) as (a & b & c & d & rest & E).
  unfold Str.rsplit1_head, subfolder_of. rewrite E. cbn [firstn List.length].
  destruct rest as [|e rest].
  - split; [reflexivity|]. intros _. reflexivity.
  - split; [|discriminate]. intros H. exfalso.
    change (removelast (a :: b :: c :: d :: e :: rest))
      with (a :: b :: c :: d :: removelast (e :: rest)) in H.
    cbn [String.concat] in H.
    apply append_inj_l in H. apply (append_inj_l "_") in H.
    apply append_inj_l in H. apply (append_inj_l "_") in H.
    revert H. apply append_longer. discriminate.
Qed.

Lemma loops_agree_on_folder_witness :
  (4 <= List.length (Str.split "_" "000001_01_01_109.png"))%nat /\
  (Str.rsplit1_head "_" "000001_01_01_109.png" = subfolder_of "000001_01_01_109.png"
   <-> List.length (Str.split "_" "000001_01_01_109.png") = 4%nat).
Proof.
  split; [cbn; lia|]. apply (loops_agree_on_folder "000001_01_01_109.png"). cbn; lia.
Defined.

(** A name of five parts: the normalizer writes to [000001_01_01_02], the
    dataset loop reads [000001_01_01/02.png]. *)
Example loops_disagree_on_five_parts :
  Str.rsplit1_head "_" "000001_01_01_02_109.png" = "000001_01_01_02" /\
  subfolder_of "000001_01_01_02_109.png" = "000001_01_01" /\
  Deeplesion.img_path "000001_01_01_02_109.png"
  = Py.Ok "./DeepLesion/deeplesion_images/Images_png_wn/000001_01_01/02.png".
Proof. repeat split; vm_compute; reflexivity. Qed.

Lemma has_char_rev ch s : has_char ch (Str.rev s) = has_char ch s.
Proof.
  unfold Str.rev. induction s as [|c s IH]; cbn [Str.rev_acc has_char]; [reflexivity|].
  rewrite rev_acc_app, has_char_app, IH. cbn [has_char]. rewrite orb_false_r. apply orb_comm.
Qed.

Lemma rev_nonempty s : s <> ""%string -> Str.rev s <> ""%string.
Proof.
  destruct s as [|c s]; [contradiction|]. intros _ E.
  assert (H := f_equal String.length E). unfold Str.rev in H. cbn [Str.rev_acc] in H.
  rewrite rev_acc_app, length_append in H. cbn [String.length] in H. lia.
Qed.

(** A path does not end with the separator when its last component has
    none. *)
Lemma endswith_sep_app x y : y <> ""%string -> has_char "/" y = false ->
  Os.endswith_sep (x ++ y) = false.
Proof.
  intros Hy Hc. unfold Os.endswith_sep. rewrite rev_app.
  pose proof (rev_nonempty y Hy) as Hr. rewrite <- (has_char_rev "/" y) in Hc.
  destruct (Str.rev y) as [|c r]; [contradiction|]. cbn [String.append has_char] in *.
  apply orb_false_iff in Hc. destruct Hc as [Hc _].
  apply Ascii.eqb_neq in Hc.
  destruct c as [[|] [|] [|] [|] [|] [|] [|] [|]]; try reflexivity. contradiction.
Qed.

Lemma prefix_sep_false b : has_char "/" b = false -> String.prefix "/" b = false.
Proof.
  destruct b as [|c b]; [reflexivity|]. cbn [has_char String.prefix].
  intros H. apply orb_false_iff in H. destruct H as [H _]. apply Ascii.eqb_neq in H.
  destruct (ascii_dec "/" c) as [E | E]; [subst; contradiction | reflexivity].
Qed.

(** [os.path.join] on two plain components puts one separator between them. *)
Lemma join2_plain path b :
  path <> ""%string -> Os.endswith_sep path = false -> has_char "/" b = false ->
  Os.join2 path b = (path ++ "/" ++ b)%string.
Proof.
  intros Hp He Hb. unfold Os.join2. rewrite (prefix_sep_false b Hb), He.
  destruct (String.eqb_spec path ""); [contradiction | reflexivity].
Qed.

(** Removing [.png] from a name that ends with it and has no other dot. *)
Lemma replace_extension s : has_char "." s = false ->
  Substr.replace ".png" "" (s ++ ".png") = s.
Proof.
  unfold Substr.replace. induction s as [|c s IH]; [reflexivity|].
  cbn [has_char]. intros H. apply orb_false_iff in H. destruct H as [Hc Hs].
  cbn [String.append Substr.replace_from String.prefix].
  apply Ascii.eqb_neq in Hc.
  destruct (ascii_dec "." c) as [E | E]; [subst; contradiction|].
  rewrite (IH Hs). reflexivity.
Qed.

(** The parts of a name of four parts. *)
Lemma split_four a b c d :
  has_char "_" a = false -> has_char "_" b = false -> has_char "_" c = false ->
  has_char "_" d = false ->
  Str.split "_" (a ++ "_" ++ b ++ "_" ++ c ++ "_" ++ d) = [a; b; c; d].
Proof.
  intros Ha Hb Hc Hd.
  change ("_" ++ b ++ "_" ++ c ++ "_" ++ d)%string with (String "_" (b ++ "_" ++ c ++ "_" ++ d)).
  rewrite split_app, (split_without "_" a Ha).
  change ("_" ++ c ++ "_" ++ d)%string with (String "_" (c ++ "_" ++ d)).
  rewrite split_app, (split_without "_" b Hb).
  change ("_" ++ d)%string with (String "_" d).
  rewrite split_app, (split_without "_" c Hc), (split_without "_" d Hd). reflexivity.
Qed.

Lemma index_3 {A} (a b c d : A) rest : Py.index (a :: b :: c :: d :: rest) 3 = Py.Ok d.
Proof.
  unfold Py.index. cbn [List.length].
  replace (3 <? 0) with false by reflexivity.
  replace (0 <=? 3) with true by reflexivity.
  destruct (Z.ltb_spec 3 (Z.of_nat (S (S (S (S (List.length rest))))))); [reflexivity | lia].
Qed.

(** The path of a name of four plain parts. *)
Lemma img_path_regular a b c s :
  has_char "_" a = false -> has_char "_" b = false -> has_char "_" c = false ->
  has_char "_" s = false ->
  has_char "/" a = false -> has_char "/" b = false -> has_char "/" c = false ->
  has_char "/" s = false -> has_char "." s = false ->
  Deeplesion.img_path (a ++ "_" ++ b ++ "_" ++ c ++ "_" ++ s ++ ".png")
  = Py.Ok (Deeplesion.image_root ++ "/" ++ (a ++ "_" ++ b ++ "_" ++ c) ++ "/" ++ s ++ ".png")%string.
Proof.
  intros Ua Ub Uc Us Sa Sb Sc Ss Ds. unfold Deeplesion.img_path.
  rewrite split_four by (try assumption; rewrite has_char_app, Us; reflexivity).
  rewrite index_3. cbn [Py.bind firstn String.concat].
  rewrite (replace_extension s Ds). unfold Os.join. cbn [fold_left].
  assert (Hsub : has_char "/" (a ++ "_" ++ b ++ "_" ++ c) = false).
  { rewrite !has_char_app, Sa, Sb, Sc. reflexivity. }
  rewrite (join2_plain Deeplesion.image_root) by (try reflexivity; try discriminate; exact Hsub).
  rewrite join2_plain.
  - rewrite !append_assoc. reflexivity.
  - destruct Deeplesion.image_root; discriminate.
  - rewrite <- append_assoc. apply endswith_sep_app; [|exact Hsub].
    destruct a; discriminate.
  - rewrite has_char_app, Ss. reflexivity.
Qed.

(** X24.  For a file name [a_b_c_s.png] the dataset loop looks for the image
    at [image_root/a_b_c/s.png], and the same path results when the name
    lacks the ending [.png]. *)
Theorem img_path_of_file_name a b c s :
  has_char "_" a = false -> has_char "_" b = false -> has_char "_" c = false ->
  has_char "_" s = false ->
  has_char "/" a = false -> has_char "/" b = false -> has_char "/" c = false ->
  has_char "/" s = false -> has_char "." s = false ->
  Deeplesion.img_path (a ++ "_" ++ b ++ "_" ++ c ++ "_" ++ s ++ ".png")
  = Py.Ok (Deeplesion.image_root ++ "/" ++ (a ++ "_" ++ b ++ "_" ++ c) ++ "/" ++ s ++ ".png")%string
  /\ Deeplesion.img_path (a ++ "_" ++ b ++ "_" ++ c ++ "_" ++ s ++ ".png")
     = Deeplesion.img_path (a ++ "_" ++ b ++ "_" ++ c ++ "_" ++ s).
Proof.
  intros Ua Ub Uc Us Sa Sb Sc Ss Ds.
  split; [apply img_path_regular; assumption|].
  unfold Deeplesion.img_path.
  rewrite !split_four by (try assumption; rewrite has_char_app, Us; reflexivity).
  rewrite !index_3. cbn [Py.bind]. rewrite (replace_extension s Ds).
  replace (Substr.replace ".png" "" s) with s; [reflexivity|].
  clear - Ds. unfold Substr.replace. induction s as [|c s IH]; [reflexivity|].
  cbn [has_char] in Ds. apply orb_false_iff in Ds. destruct Ds as [Hc Hs].
  cbn [Substr.replace_from String.prefix]. apply Ascii.eqb_neq in Hc.
  destruct (ascii_dec "." c) as [E | E]; [subst; contradiction|].
  rewrite <- (IH Hs). reflexivity.
Qed.

Lemma img_path_of_file_name_witness :
  Deeplesion.img_path ("000001" ++ "_" ++ "01" ++ "_" ++ "01" ++ "_" ++ "109" ++ ".png")
  = Py.Ok (Deeplesion.image_root ++ "/" ++ ("000001" ++ "_" ++ "01" ++ "_" ++ "01")
           ++ "/" ++ "109" ++ ".png")%string.
Proof.
  apply (proj1 (img_path_of_file_name "000001" "01" "01" "109"
                  eq_refl eq_refl eq_refl eq_refl eq_refl eq_refl eq_refl eq_refl eq_refl)).
Defined.

(** X25.  The path of a row raises [IndexError] exactly when the file name
    has fewer than four parts between underscores. *)
Theorem short_file_name_raises file_name :
  Deeplesion.img_path file_name = Py.Raise Py.IndexError
  <-> (List.length (Str.split "_" file_name) < 4)%nat.
Proof.
  unfold Deeplesion.img_path. split.
  - intros H. destruct (Nat.lt_ge_cases (List.length (Str.split "_" file_name)) 4) as [L | L];
      [exact L|].
    destruct (split4_cases file_name L) as (a & b & c & d & rest & E).
    rewrite E, index_3 in H. discriminate.
  - intros L. rewrite index_raise by lia. reflexivity.
Qed.

(** ** From the normalizer to the dataset *)

(** The folder of a name of four plain parts. *)
Lemma folder_of_file_name r a b c s :
  has_char "_" a = false -> has_char "_" b = false -> has_char "_" c = false ->
  has_char "_" s = false ->
  File_name r = (a ++ "_" ++ b ++ "_" ++ c ++ "_" ++ s ++ ".png")%string ->
  folder_of r = (a ++ "_" ++ b ++ "_" ++ c)%string.
Proof.
  intros Ua Ub Uc Us E. unfold folder_of, Str.rsplit1_head. rewrite E.
  rewrite split_four by (try assumption; rewrite has_char_app, Us; reflexivity).
  reflexivity.
Qed.

(** X26.  For a row named [a_b_c_s.png] whose input folder [a_b_c] holds a
    decoded slice [s.png], one iteration of the normalizer writes the
    converted slice at the very path the dataset loop computes for the row. *)
Theorem converted_slice_is_found glob r st a b c s px :
  has_char "_" a = false -> has_char "_" b = false -> has_char "_" c = false ->
  has_char "_" s = false ->
  has_char "/" a = false -> has_char "/" b = false -> has_char "/" c = false ->
  has_char "/" s = false -> has_char "." s = false ->
  File_name r = (a ++ "_" ++ b ++ "_" ++ c ++ "_" ++ s ++ ".png")%string ->
  In ((s ++ ".png")%string, Some px) (glob (a ++ "_" ++ b ++ "_" ++ c)%string) ->
  exists path,
    Deeplesion.img_path (File_name r) = Py.Ok path /\
    In (path, converted (fst (select_window r)) px) (written (convert_row glob r st)).
Proof.
  intros Ua Ub Uc Us Sa Sb Sc Ss Ds E Hin.
  eexists. split; [rewrite E; apply img_path_regular; assumption|].
  rewrite convert_row_eq, (folder_of_file_name r a b c s Ua Ub Uc Us E).
  replace (Deeplesion.image_root ++ "/" ++ (a ++ "_" ++ b ++ "_" ++ c) ++ "/" ++ s ++ ".png")%string
    with (join (join dir_out (a ++ "_" ++ b ++ "_" ++ c)) (s ++ ".png")).
  - apply convert_folder_writes. exact Hin.
  - unfold join, dir_out, Deeplesion.image_root. rewrite !append_assoc. reflexivity.
Qed.

Lemma converted_slice_is_found_witness :
  exists path,
    Deeplesion.img_path
      (File_name {| File_name := "000001_01_01_109.png"; DICOM_windows := Text "-175, 275" |})
    = Py.Ok path /\
    In (path,
        converted
          (fst (select_window
                  {| File_name := "000001_01_01_109.png"; DICOM_windows := Text "-175, 275" |}))
          [[32768; 32900]])
       (written
          (convert_row (fun _ => [("108.png", None); ("109.png", Some [[32768; 32900]])])
             {| File_name := "000001_01_01_109.png"; DICOM_windows := Text "-175, 275" |}
             {| written := []; printed := [] |})).
Proof.
  apply (converted_slice_is_found
           (fun _ => [("108.png", None); ("109.png", Some [[32768; 32900]])])
           {| File_name := "000001_01_01_109.png"; DICOM_windows := Text "-175, 275" |}
           {| written := []; printed := [] |} "000001" "01" "01" "109" [[32768; 32900]]);
    try reflexivity.
  right; left; reflexivity.
Defined.

(** ** The box of a lesion *)

(** A text without the separator is one piece. *)
Lemma split_from_without sep s :
  occurs sep s = false -> Substr.split sep s = [s].
Proof.
  unfold Substr.split. induction s as [|c s IH]; [reflexivity|].
  cbn [occurs Substr.split_from]. intros H.
  apply orb_false_iff in H. destruct H as [Hp Hs].
  rewrite Hp, (IH Hs). reflexivity.
Qed.

Lemma index_2 {A} (a b c : A) rest : Py.index (a :: b :: c :: rest) 2 = Py.Ok c.
Proof.
  unfold Py.index. cbn [List.length].
  replace (2 <? 0) with false by reflexivity.
  replace (0 <=? 2) with true by reflexivity.
  destruct (Z.ltb_spec 2 (Z.of_nat (S (S (S (List.length rest)))))); [reflexivity | lia].
Qed.

Lemma index_1_short {A} (a : A) : Py.index [a] 1 = Py.Raise Py.IndexError.
Proof. reflexivity. Qed.

(** X27.  A [Bounding_boxes] cell without a comma followed by a space, and
    a cell that is no text, give no detection: the exception is swallowed. *)
Theorem box_without_separator_is_dropped s :
  occurs ", " s = false ->
  Deeplesion.detections (Text s) = [] /\ Deeplesion.detections Missing = [].
Proof.
  intros H. split; [|reflexivity].
  unfold Deeplesion.detections, Deeplesion.lesion, Deeplesion.floats_of.
  rewrite (split_from_without ", " s H). cbn [Py.comprehension].
  destruct (PyFloat.float s) as [v|e]; cbn [Py.bind Py.try_except]; [|reflexivity].
  rewrite index_0, index_1_short. reflexivity.
Qed.

Lemma box_without_separator_is_dropped_witness :
  occurs ", " "226,90,249,108" = false /\
  Deeplesion.detections (Text "226,90,249,108") = [] /\ Deeplesion.detections Missing = [].
Proof.
  split; [reflexivity|].
  apply (box_without_separator_is_dropped "226,90,249,108"). reflexivity.
Defined.

(** The parsed numbers are representable. *)
Lemma floats_of_valid c values :
  Deeplesion.floats_of c = Py.Ok values -> Forall (fun v => F64.valid v = true) values.
Proof.
  destruct c as [s|]; [|discriminate]. cbn [Deeplesion.floats_of].
  apply comprehension_Forall. intros t v. apply float_valid.
Qed.

Lemma leb_not_nan x y : F64.leb x y = true -> F64.is_nan x = false /\ F64.is_nan y = false.
Proof. destruct x, y; cbn; intros H; try discriminate; auto. Qed.

Lemma V_512 : V (F64.of_Z 512) = 512 * quantum.
Proof. reflexivity. Qed.

Lemma V_0 : V (F64.of_Z 0) = 0.
Proof. reflexivity. Qed.

Lemma V_1 : V (F64.of_Z 1) = quantum.
Proof. reflexivity. Qed.

Lemma good_512 : good (F64.of_Z 512).
Proof. apply good_finite. reflexivity. Qed.

(** A coordinate between 0 and 512, divided by 512, is between 0 and 1. *)
Lemma relative_coordinate a : good a -> V a <= 512 * quantum ->
  F64.leb (F64.of_Z 0) (F64.div a (F64.of_Z 512)) = true /\
  F64.leb (F64.div a (F64.of_Z 512)) (F64.of_Z 1) = true.
Proof.
  intros Ga Ha. pose proof quantum_pos as HQ.
  assert (T : 512 * quantum < top) by reflexivity.
  assert (Gq : good (F64.div a (F64.of_Z 512))).
  { apply div_pos_good; [exact Ga | lia | exact good_512 | rewrite V_512; lia]. }
  assert (Lq : V (F64.div a (F64.of_Z 512)) <= V f64_one).
  { apply div_le_one; [exact Ga | exact good_512 | rewrite V_512; lia | lia | rewrite V_512; lia]. }
  destruct Gq as (Vq & Nq & Pq). rewrite V_one in Lq.
  rewrite !leb_V by (assumption || reflexivity). rewrite V_0, V_1.
  split; apply Z.leb_le; lia.
Qed.

Lemma good_of_leb x y : F64.valid x = true -> F64.valid y = true ->
  F64.leb (F64.of_Z 0) x = true -> F64.leb x y = true ->
  F64.leb y (F64.of_Z 512) = true ->
  good x /\ good y /\ V x <= V y /\ V y <= 512 * quantum.
Proof.
  intros Vx Vy H0 Hxy H5.
  destruct (leb_not_nan _ _ Hxy) as [Nx Ny].
  rewrite leb_V in H0, Hxy, H5 by (assumption || reflexivity).
  apply Z.leb_le in H0, Hxy, H5. rewrite V_0 in H0. rewrite V_512 in H5.
  repeat split; try assumption; lia.
Qed.

(** The difference of two ordered coordinates is a coordinate. *)
Lemma width_in_range x y : good x -> good y -> V x <= V y -> V y <= 512 * quantum ->
  good (F64.sub y x) /\ V (F64.sub y x) <= 512 * quantum.
Proof.
  intros Gx Gy Hxy H5. pose proof quantum_pos as HQ.
  assert (T : 512 * quantum < top) by reflexivity.
  destruct Gx as (Vx & Nx & Px), Gy as (Vy & Ny & Py).
  assert (Fx : F64.is_finite x = true) by (apply ordinary_finite; [split; assumption | lia]).
  assert (Fy : F64.is_finite y = true) by (apply ordinary_finite; [split; assumption | lia]).
  destruct (sub_V y x (conj Vy Ny) (conj Vx Nx) Fy Fx Hxy) as [Gd Vd].
  split; [exact Gd|]. rewrite Vd.
  rewrite <- (BNV_int 512) by (pose proof pow53_eq; lia).
  apply BNV_mono. destruct Gd as (_ & _ & Pd). lia.
Qed.

(** X28.  When the cell holds at least four numbers, with [0 <= x1 <= x2 <=
    512] and [0 <= y1 <= y2 <= 512], the row has one detection, labelled
    [lesion], with the box [x1/512, y1/512, (x2-x1)/512, (y2-y1)/512], and
    each component of the box lies between 0 and 1.  Numbers after the fourth
    play no part. *)
Theorem lesion_box_is_relative c x1 y1 x2 y2 rest :
  Deeplesion.floats_of c = Py.Ok (x1 :: y1 :: x2 :: y2 :: rest) ->
  F64.leb (F64.of_Z 0) x1 = true -> F64.leb x1 x2 = true ->
  F64.leb x2 (F64.of_Z 512) = true ->
  F64.leb (F64.of_Z 0) y1 = true -> F64.leb y1 y2 = true ->
  F64.leb y2 (F64.of_Z 512) = true ->
  Deeplesion.detections c =
    [{| Deeplesion.label := "lesion";
        Deeplesion.bounding_box :=
          [F64.div x1 (F64.of_Z 512); F64.div y1 (F64.of_Z 512);
           F64.div (F64.sub x2 x1) (F64.of_Z 512); F64.div (F64.sub y2 y1) (F64.of_Z 512)] |}] /\
  Forall (fun v => F64.leb (F64.of_Z 0) v = true /\ F64.leb v (F64.of_Z 1) = true)
         [F64.div x1 (F64.of_Z 512); F64.div y1 (F64.of_Z 512);
          F64.div (F64.sub x2 x1) (F64.of_Z 512); F64.div (F64.sub y2 y1) (F64.of_Z 512)].
Proof.
  intros Hp X0 X12 X5 Y0 Y12 Y5.
  pose proof (floats_of_valid c _ Hp) as Hv.
  inversion Hv as [|? ? Vx1 Hv1]; subst. inversion Hv1 as [|? ? Vy1 Hv2]; subst.
  inversion Hv2 as [|? ? Vx2 Hv3]; subst. inversion Hv3 as [|? ? Vy2 _]; subst.
  split.
  - unfold Deeplesion.detections, Deeplesion.lesion. rewrite Hp. cbn [Py.bind].
    rewrite index_0, index_1, index_2, index_3. reflexivity.
  - destruct (good_of_leb x1 x2 Vx1 Vx2 X0 X12 X5) as (Gx1 & Gx2 & Lx & Bx).
    destruct (good_of_leb y1 y2 Vy1 Vy2 Y0 Y12 Y5) as (Gy1 & Gy2 & Ly & By).
    destruct (width_in_range x1 x2 Gx1 Gx2 Lx Bx) as [Gw Bw].
    destruct (width_in_range y1 y2 Gy1 Gy2 Ly By) as [Gh Bh].
    repeat constructor; apply relative_coordinate; try assumption; lia.
Qed.

Lemma lesion_box_is_relative_witness :
  Deeplesion.floats_of (Text "128, 256, 256, 512, 7")
  = Py.Ok [F64.of_Z 128; F64.of_Z 256; F64.of_Z 256; F64.of_Z 512; F64.of_Z 7] /\
  Deeplesion.detections (Text "128, 256, 256, 512, 7") =
    [{| Deeplesion.label := "lesion";
        Deeplesion.bounding_box :=
          [F64.div (F64.of_Z 128) (F64.of_Z 512); F64.div (F64.of_Z 256) (F64.of_Z 512);
           F64.div (F64.sub (F64.of_Z 256) (F64.of_Z 128)) (F64.of_Z 512);
           F64.div (F64.sub (F64.of_Z 512) (F64.of_Z 256)) (F64.of_Z 512)] |}] /\
  Forall (fun v => F64.leb (F64.of_Z 0) v = true /\ F64.leb v (F64.of_Z 1) = true)
         [F64.div (F64.of_Z 128) (F64.of_Z 512); F64.div (F64.of_Z 256) (F64.of_Z 512);
          F64.div (F64.sub (F64.of_Z 256) (F64.of_Z 128)) (F64.of_Z 512);
          F64.div (F64.sub (F64.of_Z 512) (F64.of_Z 256)) (F64.of_Z 512)].
Proof.
  split; [vm_compute; reflexivity|].
  apply (lesion_box_is_relative (Text "128, 256, 256, 512, 7")
           (F64.of_Z 128) (F64.of_Z 256) (F64.of_Z 256) (F64.of_Z 512) [F64.of_Z 7]);
    vm_compute; reflexivity.
Defined.

(** *** When a row has a box *)

(** X29.  A row has a detection exactly when its cell parses into four
    floats or more; there is never more than one, and it is labelled [lesion]
    and has a box of four components. *)
Theorem lesion_needs_four_numbers c :
  (Deeplesion.detections c <> [] <->
   exists values, Deeplesion.floats_of c = Py.Ok values /\ (4 <= List.length values)%nat) /\
  (List.length (Deeplesion.detections c) <= 1)%nat /\
  Forall (fun d => Deeplesion.label d = "lesion"
                   /\ List.length (Deeplesion.bounding_box d) = 4%nat)
         (Deeplesion.detections c).
Proof.
  unfold Deeplesion.detections, Deeplesion.lesion.
  destruct (Deeplesion.floats_of c) as [values|e]; cbn [Py.bind Py.try_except].
  - destruct values as [|x [|y [|x2 [|y2 rest]]]].
    + split; [|split; [cbn; lia | constructor]].
      split; [intros H; exfalso; apply H; reflexivity|].
      intros (v & E & L). injection E as <-. cbn in L. lia.
    + rewrite index_0. cbn [Py.bind]. rewrite index_1_short. cbn [Py.bind Py.try_except].
      split; [|split; [cbn; lia | constructor]].
      split; [intros H; exfalso; apply H; reflexivity|].
      intros (v & E & L). injection E as <-. cbn in L. lia.
    + rewrite index_0, index_1. cbn [Py.bind].
      replace (Py.index [x; y] 2) with (@Py.Raise F64.t Py.IndexError) by reflexivity.
      cbn [Py.bind Py.try_except].
      split; [|split; [cbn; lia | constructor]].
      split; [intros H; exfalso; apply H; reflexivity|].
      intros (v & E & L). injection E as <-. cbn in L. lia.
    + rewrite index_0, index_1, index_2. cbn [Py.bind].
      replace (Py.index [x; y; x2] 3) with (@Py.Raise F64.t Py.IndexError) by reflexivity.
      cbn [Py.bind Py.try_except].
      split; [|split; [cbn; lia | constructor]].
      split; [intros H; exfalso; apply H; reflexivity|].
      intros (v & E & L). injection E as <-. cbn in L. lia.
    + rewrite index_0, index_1, index_2, index_3. cbn [Py.bind Py.try_except].
      split; [|split; [cbn; lia | repeat constructor]].
      split; [|discriminate]. intros _. eexists. split; [reflexivity | cbn; lia].
  - split; [|split; [cbn; lia | constructor]].
    split; [intros H; exfalso; apply H; reflexivity|].
    intros (v & E & _). discriminate.
Qed.

(** ** The short diameter *)

(** [min] over values that are not NaN: a member, below all of them. *)
Lemma min_from_spec cur values :
  F64.valid cur = true -> F64.is_nan cur = false ->
  Forall (fun v => F64.valid v = true /\ F64.is_nan v = false) values ->
  In (Deeplesion.min_from cur values) (cur :: values) /\
  F64.valid (Deeplesion.min_from cur values) = true /\
  F64.is_nan (Deeplesion.min_from cur values) = false /\
  V (Deeplesion.min_from cur values) <= V cur /\
  Forall (fun v => V (Deeplesion.min_from cur values) <= V v) values.
Proof.
  intros Vc Nc Hall. revert cur Vc Nc.
  induction Hall as [|v rest [Vv Nv] _ IH]; intros cur Vc Nc; cbn [Deeplesion.min_from].
  - repeat split; [left; reflexivity | assumption | assumption | lia | constructor].
  - rewrite (ltb_V v cur) by assumption.
    destruct (Z.ltb_spec (V v) (V cur)) as [Hlt | Hge].
    + destruct (IH v Vv Nv) as (Hin & Hv & Hn & Hle & Hf).
      repeat split; try assumption; [| lia |].
      * destruct Hin as [<- | Hin]; [right; left; reflexivity | right; right; exact Hin].
      * constructor; assumption.
    + destruct (IH cur Vc Nc) as (Hin & Hv & Hn & Hle & Hf).
      repeat split; try assumption.
      * destruct Hin as [<- | Hin]; [left; reflexivity | right; right; exact Hin].
      * constructor; [lia | assumption].
Qed.

(** A cell that parses holds a number at least. *)
Lemma floats_of_nonempty c values : Deeplesion.floats_of c = Py.Ok values -> values <> [].
Proof.
  destruct c as [s|]; [|discriminate]. cbn [Deeplesion.floats_of]. intros H E. subst.
  apply comprehension_length in H. cbn [List.length] in H.
  unfold Substr.split in H. destruct s as [|ch s]; cbn [Substr.split_from] in H; [discriminate|].
  destruct (String.prefix ", " (String ch s)); [discriminate|].
  destruct (Substr.split_from ", " 0 s); discriminate.
Qed.

(** X30.  [get_short_diameter] returns a member of the parsed list that is
    at most every member, when none of them is NaN; and it returns [None]
    exactly when the cell does not parse, for [min] never sees an empty
    list. *)
Theorem short_diameter_is_least c :
  (forall values,
     Deeplesion.floats_of c = Py.Ok values ->
     Forall (fun v => F64.is_nan v = false) values ->
     exists m, Deeplesion.get_short_diameter c = Some m /\ In m values /\
               Forall (fun v => F64.leb m v = true) values) /\
  (Deeplesion.get_short_diameter c = None <-> is_raise (Deeplesion.floats_of c) = true).
Proof.
  split.
  - intros values Hp Hn. pose proof (floats_of_valid c _ Hp) as Hv.
    pose proof (floats_of_nonempty c _ Hp) as Hne.
    unfold Deeplesion.get_short_diameter. rewrite Hp. cbn [Py.bind].
    destruct values as [|v rest]; [contradiction|]. cbn [Deeplesion.min Py.bind Py.try_except].
    inversion Hv as [|? ? Vv Hvr]; subst. inversion Hn as [|? ? Nv Hnr]; subst.
    assert (Hall : Forall (fun x => F64.valid x = true /\ F64.is_nan x = false) rest).
    { rewrite Forall_forall in *. intros x Hx. split; auto. }
    destruct (min_from_spec v rest Vv Nv Hall) as (Hin & Hmv & Hmn & Hle & Hf).
    eexists. split; [reflexivity|]. split; [exact Hin|].
    constructor.
    + rewrite leb_V by assumption. apply Z.leb_le. exact Hle.
    + rewrite Forall_forall in *. intros x Hx. destruct (Hall x Hx) as [Vx Nx].
      rewrite leb_V by assumption. apply Z.leb_le. apply Hf. exact Hx.
  - unfold Deeplesion.get_short_diameter.
    destruct (Deeplesion.floats_of c) as [values|e] eqn:Hp; cbn [Py.bind Py.try_except is_raise].
    + pose proof (floats_of_nonempty c _ Hp) as Hne.
      destruct values as [|v rest]; [contradiction|]. cbn [Deeplesion.min Py.bind Py.try_except].
      split; discriminate.
    + split; reflexivity.
Qed.

Lemma short_diameter_is_least_witness :
  Deeplesion.floats_of (Text "22.5, 11") = Py.Ok [S754_finite false 6333186975989760 (-48);
                                                   F64.of_Z 11] /\
  exists m, Deeplesion.get_short_diameter (Text "22.5, 11") = Some m /\
            In m [S754_finite false 6333186975989760 (-48); F64.of_Z 11] /\
            Forall (fun v => F64.leb m v = true)
                   [S754_finite false 6333186975989760 (-48); F64.of_Z 11].
Proof.
  split; [vm_compute; reflexivity|].
  apply (proj1 (short_diameter_is_least (Text "22.5, 11"))
           [S754_finite false 6333186975989760 (-48); F64.of_Z 11]);
    [vm_compute; reflexivity | repeat constructor].
Defined.

(** With a NaN the result depends on where it stands. *)
Example nan_diameter_depends_on_order :
  Deeplesion.get_short_diameter (Text "nan, 11") = Some F64.nan /\
  Deeplesion.get_short_diameter (Text "11, nan") = Some (F64.of_Z 11).
Proof. split; vm_compute; reflexivity. Qed.
